(** * simpleDS: delay spectrum routines and unit-aware parameters

    A shallow embedding of [simpleDS/delay_spectrum.py] and of
    [UnitParameter] from [simpleDS/parameter.py].

    Modelling conventions.
    - Floating point numbers are idealised as real numbers ([R]); complex
      numbers are pairs of reals.  Rounding and overflow are outside the
      model.  Where [calculate_noise_power] takes a power, a root and a
      quotient, which numpy evaluates to [nan] or [inf] on some reals, the
      result is a float that need not be finite ([npfloat]).
    - A numpy array of rank [n] is an [n]-fold nested list ([arr A n]); an
      array object of unknown rank is a dependent pair ([ndarray A]).
      numpy arrays are rectangular: [has_shape] says so, and theorems that
      need it assume it.  A nested list with an empty axis holds no
      extents inside that axis, and [shape_of] reads them as 0: the arrays
      of the model with an empty axis are those of a shape like (2, 0, 0),
      and a shape like (0, 3) has no value here.
    - astropy units are a positive scale to SI together with the exponents
      of the base dimensions; a [Quantity] is an array with a unit.
    - Python exceptions are values of [exn]; a call returns [result].
    - Where aliasing or mutation matters, Python objects live in an
      explicit heap and calls are heap transformers.
    - numpy functions applied to a [Quantity] keep its unit; [np.fft.fft]
      refuses an axis without entries. *)

From Stdlib Require Import String.
From Stdlib Require Import Reals Lra Lia List Bool Arith ZArith Eqdep_dec.
Import ListNotations.

(** ** Exceptions and results *)

Inductive exn : Type :=
| ValueError (msg : string)
| AssertionError
| IndexError
| UnitConversionError
| AttributeError
| NoSuchObject. (* a dangling reference: not a Python exception, never
                   raised from a heap that holds the arguments *)

Inductive result (X : Type) : Type :=
| Ok (x : X)
| Raise (e : exn).
Arguments Ok {X} x.
Arguments Raise {X} e.

Definition rbind {X Y : Type} (r : result X) (k : X -> result Y) : result Y :=
  match r with
  | Ok x => k x
  | Raise e => Raise e
  end.

Definition is_ValueError {X : Type} (r : result X) : Prop :=
  match r with
  | Raise (ValueError _) => True
  | _ => False
  end.

(** ** Arrays *)

Fixpoint arr (A : Type) (n : nat) : Type :=
  match n with
  | O => A
  | S k => list (arr A k)
  end.

Definition ndarray (A : Type) : Type := { n : nat & arr A n }.

Definition mk_nd {A : Type} (n : nat) (a : arr A n) : ndarray A :=
  existT (arr A) n a.

(** [len(a.shape)] *)
Definition rank {A : Type} (a : ndarray A) : nat := projT1 a.

(** [a.shape], read off the first element of every axis. *)
Fixpoint shape_of {A : Type} (n : nat) : arr A n -> list nat :=
  match n with
  | O => fun _ => []
  | S k => fun l =>
      length l :: match l with
                  | [] => repeat O k
                  | x :: _ => shape_of k x
                  end
  end.

Definition shape {A : Type} (a : ndarray A) : list nat :=
  shape_of (projT1 a) (projT2 a).

(** Rectangularity: [a] has extents [s]. *)
Fixpoint has_shape {A : Type} (n : nat) : arr A n -> list nat -> Prop :=
  match n with
  | O => fun _ s => s = []
  | S k => fun l s =>
      match s with
      | [] => False
      | d :: s' => length l = d /\ Forall (fun x => has_shape k x s') l
      end
  end.

(** Elementwise map over an array of any rank. *)
Fixpoint amap {A B : Type} (f : A -> B) (n : nat) : arr A n -> arr B n :=
  match n with
  | O => fun x => f x
  | S k => fun l => map (amap f k) l
  end.

(** Pointwise combination of two lists of equal length. *)
Fixpoint map2 {A B C : Type} (f : A -> B -> C) (l1 : list A) (l2 : list B)
  : list C :=
  match l1, l2 with
  | x :: l1', y :: l2' => f x y :: map2 f l1' l2'
  | _, _ => []
  end.

(** Pointwise combination of two arrays of the same rank and shape. *)
Fixpoint amap2 {A B C : Type} (f : A -> B -> C) (n : nat)
  : arr A n -> arr B n -> arr C n :=
  match n with
  | O => fun x y => f x y
  | S k => fun l1 l2 => map2 (amap2 f k) l1 l2
  end.

(** Apply [f] to every row along the last axis of an array of rank [S n]. *)
Fixpoint along_last {A B : Type} (f : list A -> list B) (n : nat)
  : arr A (S n) -> arr B (S n) :=
  match n return arr A (S n) -> arr B (S n) with
  | O => fun row => f row
  | S k => fun l => map (along_last f k) l
  end.

Definition list_eqb_nat (l1 l2 : list nat) : bool :=
  if list_eq_dec Nat.eq_dec l1 l2 then true else false.

(** ** [remove_auto_correlations] *)

Module AutoCorr.
Section AutoCorr.
Variable A : Type.

  (** [np.ones(n, dtype=bool)] *)
Definition np_ones_bool (n : nat) : list bool := repeat true n.

  (** [np.diag(v)]: the square matrix with [v] on the diagonal and [False]
      elsewhere. *)
Definition np_diag (v : list bool) : list (list bool) :=
    map (fun i => map (fun j => if Nat.eqb i j then nth i v false else false)
                      (seq 0 (length v)))
        (seq 0 (length v)).

  (** [np.logical_not] on a matrix. *)
Definition np_logical_not (m : list (list bool)) : list (list bool) :=
    map (map negb) m.

  (** Entries of [row] at which [mask] is true, in order. *)
Fixpoint select {X : Type} (mask : list bool) (row : list X) : list X :=
    match mask, row with
    | b :: mask', x :: row' =>
        if b then x :: select mask' row' else select mask' row'
    | _, _ => []
    end.

  (** [a[mask]] for a two-dimensional boolean [mask] over the first two axes
      of [a]: numpy raises [IndexError] unless the mask's extents are those
      of the two axes; otherwise the selected entries are listed in
      row-major order of the mask. *)
Definition bool_index2 {k : nat} (mask : list (list bool))
             (a : arr A (S (S k))) : result (arr A (S k)) :=
    let s := shape_of (S (S k)) a in
    if andb (Nat.eqb (length mask) (nth 0 s 0))
            (forallb (fun mrow => Nat.eqb (length mrow) (nth 1 s 0)) mask)
    then Ok (concat (map2 (@select (arr A k)) mask a))
    else Raise IndexError.

  (** [a[:, mask]] *)
Fixpoint bool_index2_inner {k : nat} (mask : list (list bool))
           (a : list (arr A (S (S k)))) : result (list (arr A (S k))) :=
    match a with
    | [] => Ok []
    | p :: a' =>
        rbind (bool_index2 mask p) (fun r =>
        rbind (bool_index2_inner mask a') (fun rs => Ok (r :: rs)))
    end.

  (** The fixed part of the message; the source appends the shape. *)
Definition rank_msg : string :=
    "Input data_array must be of type (Npols, Nbls, Nbls, Ntimes, Nfreqs) or (Nbls, Nbls, Ntimes, Nfreqs) but data_arrayhas shape".

Definition remove_auto_correlations (data_array : ndarray A)
    : result (ndarray A) :=
    match data_array with
    | existT _ 4 a =>
        let Nbls := nth 0 (shape_of 4 a) 0 in
        let indices := np_logical_not (np_diag (np_ones_bool Nbls)) in
        rbind (bool_index2 (k:=2) indices a)
              (fun data_out => Ok (mk_nd 3 data_out))
    | existT _ 5 a =>
        let Nbls := nth 1 (shape_of 5 a) 0 in
        let indices := np_logical_not (np_diag (np_ones_bool Nbls)) in
        rbind (bool_index2_inner (k:=2) indices a)
              (fun data_out => Ok (mk_nd 4 data_out))
    | existT _ _ _ => Raise (ValueError rank_msg)
    end.

  (** The description of the result: baseline pairs [(i, j)] with [i <> j], in
      row-major order. *)
Definition offdiag_pairs (Nbls : nat) : list (nat * nat) :=
    filter (fun p => negb (Nat.eqb (fst p) (snd p)))
           (list_prod (seq 0 Nbls) (seq 0 Nbls)).

Definition pick_pairs (Nbls : nat) (a : arr A 4) : arr A 3 :=
    map (fun p => nth (snd p) (nth (fst p) a []) []) (offdiag_pairs Nbls).

End AutoCorr.

(** The baseline pair at place [k] of the collapsed axis, for [Nbls]
    baselines: row [k / (Nbls - 1)], and in that row the column
    [k mod (Nbls - 1)], the diagonal skipped. *)
Definition pair_of_index (Nbls k : nat) : nat * nat :=
  let i := Nat.div k (Nbls - 1) in
  let r := Nat.modulo k (Nbls - 1) in
  (i, if Nat.ltb r i then r else S r).

(** The (3, 3, 1, 1) array holding 0..8 row-major over its first two axes. *)
Definition square_0_8 : arr nat 4 :=
  [ [ [[0]]; [[1]]; [[2]] ];
    [ [[3]]; [[4]]; [[5]] ];
    [ [[6]]; [[7]]; [[8]] ] ].
End AutoCorr.

(** ** Complex numbers *)

Module Cplx.
  Local Open Scope R_scope.

Definition C : Type := (R * R)%type.

Definition RtoC (x : R) : C := (x, 0).
Definition Ci : C := (0, 1).
Definition Cadd (z w : C) : C := (fst z + fst w, snd z + snd w).
Definition Cmul (z w : C) : C :=
    (fst z * fst w - snd z * snd w, fst z * snd w + snd z * fst w).
Definition Cconj (z : C) : C := (fst z, - snd z).
  (** A complex number times, or divided by, a real one. *)
Definition Cscal (z : C) (k : R) : C := (fst z * k, snd z * k).
Definition Cdivr (z : C) (k : R) : C := (fst z / k, snd z / k).
  (** [exp(i * theta)] *)
Definition cis (theta : R) : C := (cos theta, sin theta).
Definition Csum (l : list C) : C := fold_right Cadd (RtoC 0) l.
End Cplx.

(** ** astropy units *)

Module Units.
  Local Open Scope R_scope.

  (** A unit: its scale to the SI unit of its dimension, and the exponents of
      metre, kilogram, second and kelvin. *)
Record Unit : Type := mkUnit {
    u_scale : R;
    u_m : Z;
    u_kg : Z;
    u_s : Z;
    u_K : Z
  }.

Definition dimensionless : Unit := mkUnit 1 0 0 0 0.
Definition Hz : Unit := mkUnit 1 0 0 (-1) 0.
Definition GHz : Unit := mkUnit 1e9 0 0 (-1) 0.
Definition MHz : Unit := mkUnit 1e6 0 0 (-1) 0.
Definition per_s : Unit := mkUnit 1 0 0 (-1) 0.
Definition second : Unit := mkUnit 1 0 0 1 0.
Definition metre : Unit := mkUnit 1 1 0 0 0.
Definition km : Unit := mkUnit 1000 1 0 0 0.
Definition K : Unit := mkUnit 1 0 0 0 1.
Definition mK : Unit := mkUnit (1 / 1000) 0 0 0 1.
Definition m_per_s : Unit := mkUnit 1 1 0 (-1) 0.
  (** joule per kelvin, the unit of the Boltzmann constant *)
Definition J_per_K : Unit := mkUnit 1 2 1 (-2) (-1).
  (** jansky: 1e-26 W / m^2 / Hz *)
Definition Jy : Unit := mkUnit (1 / 1e26) 0 1 (-2) 0.

Definition umul (u v : Unit) : Unit :=
    mkUnit (u_scale u * u_scale v) (u_m u + u_m v) (u_kg u + u_kg v)
           (u_s u + u_s v) (u_K u + u_K v).
Definition udiv (u v : Unit) : Unit :=
    mkUnit (u_scale u / u_scale v) (u_m u - u_m v) (u_kg u - u_kg v)
           (u_s u - u_s v) (u_K u - u_K v).
Definition usqr (u : Unit) : Unit := umul u u.

Definition mK_per_Jy : Unit := udiv mK Jy.

  (** [u.is_equivalent(v)]: same physical dimension. *)
Definition is_equivalent (u v : Unit) : bool :=
    (Z.eqb (u_m u) (u_m v) && Z.eqb (u_kg u) (u_kg v) &&
     Z.eqb (u_s u) (u_s v) && Z.eqb (u_K u) (u_K v))%bool.

  (** The factor by which a value in [u] is multiplied to express it in [v]. *)
Definition factor (u v : Unit) : R := u_scale u / u_scale v.

  (** [Quantity(x, u).to(v)] on one value: [UnitConversionError] unless the
      dimensions agree. *)
Definition convert (u v : Unit) (x : R) : result R :=
    if is_equivalent u v then Ok (x * factor u v) else Raise UnitConversionError.

  (** A scalar argument: [None], a plain float, or a scalar [Quantity]. *)
Inductive pyscalar : Type :=
  | PyNone
  | PyFloat (x : R)
  | PyQuantity (x : R) (u : Unit).

  (** A one-dimensional array argument: plain, or a [Quantity]. *)
Inductive pyvector : Type :=
  | PlainVec (l : list R)
  | QuantityVec (l : list R) (u : Unit).

  (** [u ** 0.5]; fractional exponents are outside the model, which halves
      the (even) exponents. *)
Definition usqrt (u : Unit) : Unit :=
    mkUnit (sqrt (u_scale u)) (u_m u / 2) (u_kg u / 2) (u_s u / 2)
           (u_K u / 2).
End Units.

(** ** numpy operations along the frequency axis *)

Module NumPy.
  Import Cplx.
  Local Open Scope R_scope.

  (** One output bin of the discrete Fourier transform of [xs]. *)
Definition dft_bin (xs : list C) (k : nat) : C :=
    Csum (map2 (fun n x =>
                  Cmul x (cis (- (2 * PI * INR k * INR n / INR (length xs)))))
               (seq 0 (length xs)) xs).

  (** [np.fft.fft] of one row. *)
Definition fft_row (xs : list C) : list C :=
    map (dft_bin xs) (seq 0 (length xs)).

  (** [np.fft.fftshift] of one row: roll by [n // 2]. *)
Definition fftshift_row {X : Type} (xs : list X) : list X :=
    let n := length xs in
    skipn (n - Nat.div n 2) xs ++ firstn (n - Nat.div n 2) xs.

  (** One row times the taper. *)
Definition taper_row (win : list R) (row : list C) : list C :=
    map2 Cscal row win.
End NumPy.

(** ** Broadcasting and views *)

(** [a[None]]: a view with a new leading axis of extent 1. *)
Definition new_axis0 {A : Type} (n : nat) (a : arr A n) : arr A (S n) := [a].

(** [a[:, None]]: a view with a new axis of extent 1 in second place. *)
Definition new_axis1 {A : Type} (n : nat) (a : arr A (S n)) : arr A (S (S n)) :=
  map (fun x => [x]) a.

(** [a[:, :, None]] *)
Definition new_axis2 {A : Type} (n : nat) (a : arr A (S (S n)))
  : arr A (S (S (S n))) :=
  map (new_axis1 n) a.

(** numpy's broadcasting of a binary operation over two arrays of the same
    rank: along every axis an extent of 1 is stretched to the other extent. *)
Fixpoint bcast2 {A B C : Type} (f : A -> B -> C) (n : nat)
  : arr A n -> arr B n -> arr C n :=
  match n with
  | O => fun x y => f x y
  | S k => fun l1 l2 =>
      match l1, l2 with
      | [x], _ => map (fun y => bcast2 f k x y) l2
      | _, [y] => map (fun x => bcast2 f k x y) l1
      | _, _ => map2 (bcast2 f k) l1 l2
      end
  end.

(** Whether two shapes of the same rank broadcast together. *)
Fixpoint broadcastable (s1 s2 : list nat) : bool :=
  match s1, s2 with
  | [], [] => true
  | d1 :: s1', d2 :: s2' =>
      (Nat.eqb d1 d2 || Nat.eqb d1 1 || Nat.eqb d2 1) && broadcastable s1' s2'
  | _, _ => false
  end.

Definition broadcast_msg : string :=
  "operands could not be broadcast together".

(** [x1 (op) x2] for two array values: ranks are aligned by prepending axes
    of extent 1 to the one of lower rank. *)
Fixpoint lift_rank {A : Type} (d n : nat) : arr A n -> arr A (d + n) :=
  match d with
  | O => fun a => a
  | S d' => fun a => [lift_rank d' n a]
  end.

Definition cast_rank {A : Type} {n m : nat} (e : n = m) (a : arr A n)
  : arr A m :=
  eq_rect n (arr A) a m e.

Definition np_binop {A B C : Type} (f : A -> B -> C)
           (x1 : ndarray A) (x2 : ndarray B) : result (ndarray C) :=
  let (n1, a1) := x1 in
  let (n2, a2) := x2 in
  match le_lt_dec n2 n1 with
  | left _ =>
      match Nat.eq_dec ((n1 - n2) + n2) n1 with
      | left e =>
          let a2' := cast_rank e (lift_rank (n1 - n2) n2 a2) in
          if broadcastable (shape_of n1 a1) (shape_of n1 a2')
          then Ok (mk_nd n1 (bcast2 f n1 a1 a2'))
          else Raise (ValueError broadcast_msg)
      | right _ => Raise (ValueError broadcast_msg)
      end
  | right _ =>
      match Nat.eq_dec ((n2 - n1) + n1) n2 with
      | left e =>
          let a1' := cast_rank e (lift_rank (n2 - n1) n1 a1) in
          if broadcastable (shape_of n2 a1') (shape_of n2 a2)
          then Ok (mk_nd n2 (bcast2 f n2 a1' a2))
          else Raise (ValueError broadcast_msg)
      | right _ => Raise (ValueError broadcast_msg)
      end
  end.

(** Every baseline of [a1] against every baseline of [a2]: entry [[i][j]] of
    the result combines baseline [j] of [a1] with baseline [i] of [a2]. *)
Definition pair_baselines {A B C : Type} (f : A -> B -> C) (k : nat)
           (a1 : arr A (S k)) (a2 : arr B (S k)) : arr C (S (S k)) :=
  map (fun y => map (fun x => amap2 f k x y) a1) a2.

(** The same, polarization by polarization. *)
Definition pair_baselines_pol {A B C : Type} (f : A -> B -> C) (k : nat)
           (a1 : arr A (S (S k))) (a2 : arr B (S (S k))) : arr C (S (S (S k))) :=
  map2 (pair_baselines f k) a1 a2.

(** Entry of an array at given indices ([d] outside the extents). *)
Definition at2 {A : Type} (d : A) (a : arr A 2) (t f : nat) : A :=
  nth f (nth t a []) d.
Definition at3 {A : Type} (d : A) (a : arr A 3) (i t f : nat) : A :=
  at2 d (nth i a []) t f.
Definition at4 {A : Type} (d : A) (a : arr A 4) (i j t f : nat) : A :=
  at3 d (nth i a []) j t f.
Definition at5 {A : Type} (d : A) (a : arr A 5) (p i j t f : nat) : A :=
  at4 d (nth p a []) i j t f.

(** A one-dimensional array seen as an array of rank [S n], all leading
    axes of extent 1. *)
Fixpoint lift1 {A : Type} (n : nat) (t : list A) : arr A (S n) :=
  match n with
  | O => t
  | S k => [lift1 k t]
  end.

(** Every entry of an array satisfies [P]. *)
Fixpoint aforall {A : Type} (P : A -> Prop) (n : nat) : arr A n -> Prop :=
  match n with
  | O => fun x => P x
  | S k => fun l => Forall (aforall P k) l
  end.

(** ** The heap of Python objects *)

Module Heap.
Section Heap.
Variable O : Type.

Definition loc : Type := nat.
Definition heap : Type := list O.

  (** A computation reads and extends the heap and returns or raises. *)
Definition M (X : Type) : Type := heap -> result X * heap.

Definition ret {X : Type} (x : X) : M X := fun h => (Ok x, h).

Definition raise {X : Type} (e : exn) : M X := fun h => (Raise e, h).

Definition bind {X Y : Type} (m : M X) (k : X -> M Y) : M Y :=
    fun h =>
      match m h with
      | (Ok x, h') => k x h'
      | (Raise e, h') => (Raise e, h')
      end.

Definition lift {X : Type} (r : result X) : M X :=
    match r with
    | Ok x => ret x
    | Raise e => raise e
    end.

  (** Dereference. *)
Definition load (l : loc) : M O :=
    fun h =>
      match nth_error h l with
      | Some o => (Ok o, h)
      | None => (Raise NoSuchObject, h)
      end.

  (** A new object, at a fresh location. *)
Definition alloc (o : O) : M loc := fun h => (Ok (length h), h ++ [o]).

  (** An operation that builds a new object from an existing one. *)
Definition op1 (f : O -> result O) (l : loc) : M loc :=
    bind (load l) (fun o => bind (lift (f o)) alloc).

  (** An operation that builds a new object from two existing ones. *)
Definition op2 (f : O -> O -> result O) (l1 l2 : loc) : M loc :=
    bind (load l1) (fun o1 =>
    bind (load l2) (fun o2 => bind (lift (f o1 o2)) alloc)).

  (** What the caller observes: the returned object, or the exception. *)
Definition outcome (rh : result loc * heap) : result (option O) :=
    match fst rh with
    | Ok l => Ok (nth_error (snd rh) l)
    | Raise e => Raise e
    end.

  (** A computation that only allocates: the heap it leaves extends the heap
      it found. *)
Definition allocates_only {X : Type} (m : M X) : Prop :=
    forall h, exists ext, snd (m h) = h ++ ext.

  (** A computation that raises from every heap. *)
Definition always_raises {X : Type} (m : M X) : Prop :=
    forall h, exists e h', m h = (Raise e, h').
End Heap.
Arguments allocates_only {O X} m.
Arguments always_raises {O X} m.
Arguments ret {O X} x h.
Arguments raise {O X} e h.
Arguments bind {O X Y} m k h.
Arguments lift {O X} r.
Arguments load {O} l h.
Arguments alloc {O} o h.
Arguments op1 {O} f l.
Arguments op2 {O} f l1 l2.
Arguments outcome {O} rh.
End Heap.

Declare Scope py_scope.
Notation "x <- m ;; k" := (Heap.bind m (fun x => k))
  (at level 61, m at next level, right associativity) : py_scope.

(** ** Indexing with [None] *)

Section Views.
Context {A : Type}.

  (** [x[None, :, :]]: two explicit slices need rank 2 at least. *)
Definition idx_None_s_s (x : ndarray A) : result (ndarray A) :=
    match x with
    | existT _ (S (S n)) a => Ok (mk_nd (S (S (S n))) (new_axis0 (S (S n)) a))
    | existT _ _ _ => Raise IndexError
    end.

  (** [x[:, None, :, :]]: three explicit slices need rank 3 at least. *)
Definition idx_s_None_s_s (x : ndarray A) : result (ndarray A) :=
    match x with
    | existT _ (S (S (S n))) a =>
        Ok (mk_nd (S (S (S (S n)))) (new_axis1 (S (S n)) a))
    | existT _ _ _ => Raise IndexError
    end.

  (** [x[:, :, None, :, :]]: four explicit slices need rank 4 at least. *)
Definition idx_s_s_None_s_s (x : ndarray A) : result (ndarray A) :=
    match x with
    | existT _ (S (S (S (S n)))) a =>
        Ok (mk_nd (S (S (S (S (S n))))) (new_axis2 (S (S n)) a))
    | existT _ _ _ => Raise IndexError
    end.

  (** [shape[-1]] *)
Definition last_axis (s : list nat) : result nat :=
    match rev s with
    | [] => Raise IndexError
    | d :: _ => Ok d
    end.
End Views.

(** ** [delay_transform] *)

Module DelayTransform.
  Import Cplx Units NumPy Heap.
  Local Open Scope py_scope.

  (** An array object: a plain [ndarray] ([q_unit = None]) or a [Quantity]. *)
Record qarray : Type := mkQ {
    q_data : ndarray C;
    q_unit : option Unit
  }.

Definition opt_umul (u v : option Unit) : option Unit :=
    match u, v with
    | Some u', Some v' => Some (umul u' v')
    | Some u', None => Some u'
    | None, v => v
    end.

  (** [x.copy()] *)
Definition np_copy (o : qarray) : result qarray := Ok o.

  (** [x * win] for a plain real array [win]. *)
Definition mul_real_array (win : ndarray R) (o : qarray) : result qarray :=
    rbind (np_binop Cscal (q_data o) win) (fun d => Ok (mkQ d (q_unit o))).

Definition fft_msg : string :=
    "Invalid number of FFT data points (0) specified.".

  (** [np.fft.fft(x, axis=-1)]: refused when the axis has no entries; the
      transform of a [Quantity] is a [Quantity] of the same unit. *)
Definition np_fft (o : qarray) : result qarray :=
    match q_data o with
    | existT _ (S n) a =>
        rbind (last_axis (shape_of (S n) a)) (fun npoints =>
        if Nat.eqb npoints 0 then Raise (ValueError fft_msg)
        else Ok (mkQ (mk_nd (S n) (along_last fft_row n a)) (q_unit o)))
    | existT _ O _ => Raise IndexError
    end.

  (** [np.fft.fftshift(x, axes=-1)] *)
Definition np_fftshift (o : qarray) : result qarray :=
    match q_data o with
    | existT _ (S n) a =>
        Ok (mkQ (mk_nd (S n) (along_last (@fftshift_row C) n a)) (q_unit o))
    | existT _ O _ => Raise IndexError
    end.

  (** [x * q] for a scalar quantity [q] of value [v] and unit [u]. *)
Definition mul_quantity (v : R) (u : Unit) (o : qarray) : result qarray :=
    let (n, a) := q_data o in
    Ok (mkQ (mk_nd n (amap (fun z => Cscal z v) n a))
            (opt_umul (q_unit o) (Some u))).

  (** [x * unit], where [unit] is a unit, or the float [1.] ([None]). *)
Definition mul_unit (unit : option Unit) (o : qarray) : result qarray :=
    match unit with
    | Some u => Ok (mkQ (q_data o) (opt_umul (q_unit o) (Some u)))
    | None =>
        let (n, a) := q_data o in
        Ok (mkQ (mk_nd n (amap (fun z => Cscal z 1) n a)) (q_unit o))
    end.

  (** [x.conj()] *)
Definition np_conj (o : qarray) : qarray :=
    let (n, a) := q_data o in mkQ (mk_nd n (amap Cconj n a)) (q_unit o).

  (** [x * y] for two array objects. *)
Definition np_mul (o1 o2 : qarray) : result qarray :=
    rbind (np_binop Cmul (q_data o1) (q_data o2)) (fun d =>
    Ok (mkQ d (opt_umul (q_unit o1) (q_unit o2)))).

Definition view (f : ndarray C -> result (ndarray C)) (o : qarray)
    : result qarray :=
    rbind (f (q_data o)) (fun d => Ok (mkQ d (q_unit o))).

  (** [window(nfreqs).reshape(1, nfreqs)] *)
Definition reshape_1_n (w : list R) (n : nat) : result (ndarray R) :=
    if Nat.eqb (length w) n then Ok (mk_nd 2 [w])
    else Raise (ValueError "cannot reshape array").

  (** The description of the transform of one spectrum: taper, discrete
      Fourier transform, shift of the zero-delay bin to the centre, and the
      channel width [df] in inverse seconds as a factor. *)
Definition spec_row (win : list R) (df : R) (row : list C) : list C :=
    map (fun z => Cscal z df) (fftshift_row (fft_row (taper_row win row))).

Definition delay_rows3 (win : list R) (df : R) (x : arr C 3) : arr C 3 :=
    map (map (spec_row win df)) x.

Definition delay_rows4 (win : list R) (df : R) (x : arr C 4) : arr C 4 :=
    map (delay_rows3 win df) x.

  (** The conjugate of the first factor times the second. *)
Definition cmulconj (z1 z2 : C) : C := Cmul (Cconj z1) z2.

  (** The unit of a transformed array: the unit of the array, if it has
      one, times inverse seconds, times the unit of [data_1_array], if it
      has one. *)
Definition delay_unit (own unit : option Unit) : Unit :=
    let per_channel :=
      match own with
      | Some w => umul w per_s
      | None => per_s
      end in
    match unit with
    | Some u => umul per_channel u
    | None => per_channel
    end.

Definition delta_f_msg : string :=
    "delta_f must be an astropy Quantity object. value was : ".
Definition shape_msg : string :=
    "data_1_array and data_2_array must have same shape, but data_1_array has shape ".

  (** The value of a keyword argument: the one supplied, or its default. *)
Definition or_default {X : Type} (dflt : X) (arg : option X) : X :=
    match arg with Some x => x | None => dflt end.

  Section Defaults.
    (** [scipy.signal.windows.blackmanharris] *)
Variable blackmanharris : nat -> list R.

Definition delay_transform (data_1_array : loc)
               (data_2_array : option loc) (delta_f : option pyscalar)
               (window : option (nat -> list R)) : M qarray loc :=
      let delta_f := or_default (PyQuantity 1 Hz) delta_f in
      let window := or_default blackmanharris window in
      d1 <- load data_1_array ;;
      let unit := q_unit d1 in
      match delta_f with
      | PyNone | PyFloat _ => raise (ValueError delta_f_msg)
      | PyQuantity df_value df_unit =>
          data_2_array <-
            match data_2_array with
            | None => op1 np_copy data_1_array
            | Some l => ret l
            end ;;
          d2 <- load data_2_array ;;
          if negb (list_eqb_nat (shape (q_data d2)) (shape (q_data d1)))
          then raise (ValueError shape_msg)
          else
            nfreqs <- lift (last_axis (shape (q_data d1))) ;;
            win <- lift (reshape_1_n (window nfreqs) nfreqs) ;;
            tapered_1 <- op1 (mul_real_array win) data_1_array ;;
            delay_1_array <- op1 np_fft tapered_1 ;;
            delay_1_array <- op1 np_fftshift delay_1_array ;;
            df <- lift (convert df_unit per_s df_value) ;;
            delay_1_array <- op1 (mul_quantity df per_s) delay_1_array ;;
            delay_1_array <- op1 (mul_unit unit) delay_1_array ;;
            tapered_2 <- op1 (mul_real_array win) data_2_array ;;
            delay_2_array <- op1 np_fft tapered_2 ;;
            delay_2_array <- op1 np_fftshift delay_2_array ;;
            df <- lift (convert df_unit per_s df_value) ;;
            delay_2_array <- op1 (mul_quantity df per_s) delay_2_array ;;
            delay_2_array <- op1 (mul_unit unit) delay_2_array ;;
            if Nat.eqb (rank (q_data d1)) 3
            then
              conj_1 <- op1 (fun o => rbind (view idx_None_s_s o)
                                            (fun v => Ok (np_conj v)))
                            delay_1_array ;;
              op2 (fun c o2 => rbind (view idx_s_None_s_s o2) (np_mul c))
                  conj_1 delay_2_array
            else
              conj_1 <- op1 (fun o => rbind (view idx_s_None_s_s o)
                                            (fun v => Ok (np_conj v)))
                            delay_1_array ;;
              op2 (fun c o2 => rbind (view idx_s_s_None_s_s o2) (np_mul c))
                  conj_1 delay_2_array
      end.
  End Defaults.

  (** A small input: one baseline, one time, one channel holding 1, as a
      plain array; and a window of ones. *)
Definition one_spectrum : arr C 3 := [ [ [RtoC 1] ] ].
Definition one_heap : heap qarray := [mkQ (mk_nd 3 one_spectrum) None].
Definition ones_window (n : nat) : list R := repeat 1%R n.
End DelayTransform.

(** ** [combine_nsamples] *)

Module CombineNsamples.
  Import Heap.
  Local Open Scope py_scope.

  (** Sample counts are plain real arrays. *)
Definition nsarray : Type := ndarray R.

Definition np_copy (o : nsarray) : result nsarray := Ok o.

  (** [np.sqrt] *)
Definition np_sqrt (o : nsarray) : result nsarray :=
    let (n, a) := o in Ok (mk_nd n (amap sqrt n a)).

Definition np_mul (o1 o2 : nsarray) : result nsarray :=
    np_binop Rmult o1 o2.

Definition shape_msg : string :=
    "nsample_1 and nsample_2 must have same shape, but nsample_1 has shape ".

Definition combine_nsamples (nsample_1 : loc) (nsample_2 : option loc)
    : M nsarray loc :=
    n1 <- load nsample_1 ;;
    nsample_2 <-
      match nsample_2 with
      | None => op1 np_copy nsample_1
      | Some l => ret l
      end ;;
    n2 <- load nsample_2 ;;
    if negb (list_eqb_nat (shape n1) (shape n2))
    then raise (ValueError shape_msg)
    else if Nat.eqb (rank n1) 3
    then
      prod <- op2 (fun o1 o2 => rbind (idx_None_s_s o1) (fun v1 =>
                                rbind (idx_s_None_s_s o2) (np_mul v1)))
                  nsample_1 nsample_2 ;;
      op1 np_sqrt prod
    else
      prod <- op2 (fun o1 o2 => rbind (idx_s_None_s_s o1) (fun v1 =>
                                rbind (idx_s_s_None_s_s o2) (np_mul v1)))
                  nsample_1 nsample_2 ;;
      op1 np_sqrt prod.

  (** Two baselines of one time and one channel, with counts 0 and 1, and
      what [combine_nsamples] makes of them. *)
Definition ns01 : arr R 3 := [ [[0%R]]; [[1%R]] ].
Definition ns01_out : arr R 4 :=
    [ [ [[sqrt (0 * 0)]]; [[sqrt (1 * 0)]] ];
      [ [[sqrt (0 * 1)]]; [[sqrt (1 * 1)]] ] ]%R.
End CombineNsamples.

(** ** The noise model, the noise generator and the unit helper *)

Module Noise.
  Import Cplx Units.
  Local Open Scope R_scope.

  (** A float computed by numpy that need not be a finite number: [None]
      stands for [nan] and for [inf]. *)
Definition npfloat : Type := option R.

  (** [np.power(x, p)] for an exponent [p] that is negative and not an
      integer: [inf] at 0 and [nan] below. *)
Definition np_power (x p : R) : npfloat :=
    if Rlt_dec 0 x then Some (Rpower x p) else None.

  (** [np.sqrt(x)]: [nan] below 0. *)
Definition np_sqrt (x : R) : npfloat :=
    if Rle_dec 0 x then Some (sqrt x) else None.

  (** [x / y]: [inf] or [nan] when [y] is 0; [nan] and [inf] in [x], and
      [nan] in [y], stay. *)
Definition np_divide (x y : npfloat) : npfloat :=
    match x, y with
    | Some a, Some b => if Req_EM_T b 0 then None else Some (a / b)
    | _, _ => None
    end.

  (** An array of such floats with a unit. *)
Record rquantity : Type := mkRQ {
    rq_data : ndarray npfloat;
    rq_unit : Unit
  }.

Definition inttime_msg : string :=
    "inttime must be an astropy Quantity object. value was: ".
Definition freqs_msg : string :=
    "freqs must be an astropy Quantity object. value was: ".
Definition trcvr_msg : string :=
    "trcvr must be an astropy Quantity object.  value was: ".

  (** [q.to(v)] on every entry of a one-dimensional quantity. *)
Definition convert_all (u v : Unit) (l : list R) : result (list R) :=
    if is_equivalent u v then Ok (map (fun x => x * factor u v) l)
    else Raise UnitConversionError.

  (** The same, on floats that need not be finite. *)
Definition convert_all_np (u v : Unit) (l : list npfloat)
    : result (list npfloat) :=
    if is_equivalent u v
    then Ok (map (option_map (fun x => x * factor u v)) l)
    else Raise UnitConversionError.

  (** [np.diff(l)] *)
Fixpoint np_diff (l : list R) : list R :=
    match l with
    | x :: ((y :: _) as l') => (y - x) :: np_diff l'
    | _ => []
    end.

  (** [l[0]] *)
Definition first {X : Type} (l : list X) : result X :=
    match l with
    | x :: _ => Ok x
    | [] => Raise IndexError
    end.

Definition calculate_noise_power (nsamples : ndarray R) (freqs : pyvector)
             (inttime trcvr : pyscalar) : result rquantity :=
    match inttime with
    | PyNone | PyFloat _ => Raise (ValueError inttime_msg)
    | PyQuantity t_value t_unit =>
    match freqs with
    | PlainVec _ => Raise (ValueError freqs_msg)
    | QuantityVec f_values f_unit =>
    match trcvr with
    | PyNone | PyFloat _ => Raise (ValueError trcvr_msg)
    | PyQuantity r_value r_unit =>
        rbind (convert_all f_unit GHz f_values) (fun f_GHz =>
        let Tsys :=
          map (fun nu => option_map (Rmult 180)
                                    (np_power (nu / 0.18) (- 2.55))) f_GHz in
        rbind (convert r_unit K r_value) (fun r_K =>
        let Tsys := map (option_map (fun T => T + r_K)) Tsys in
        rbind (first (np_diff f_values)) (fun delta_f =>
        rbind (convert_all_np K K Tsys) (fun Tsys_K =>
        rbind (convert f_unit per_s delta_f) (fun df =>
        rbind (convert t_unit second t_value) (fun t_s =>
        let (n, ns) := nsamples in
        let radicand := amap (fun s => df * t_s * s) n ns in
        let root := amap np_sqrt n radicand in
        rbind (np_binop np_divide (mk_nd 1 Tsys_K) (mk_nd n root)) (fun d =>
        Ok (mkRQ d (udiv K (usqrt (umul per_s second)))))))))))
    end end end.

  (** The value the description gives for one entry: the system temperature
      at the channel over the root of channel width (in inverse seconds)
      times integration time (in seconds) times the sample count. *)
Definition T_sys (nu_GHz trcvr_K : R) : R :=
    180 * Rpower (nu_GHz / 0.18) (- 2.55) + trcvr_K.

Definition radiometer (nu_GHz trcvr_K channel_width inttime_s nsamp : R)
    : R :=
    T_sys nu_GHz trcvr_K / sqrt (channel_width * inttime_s * nsamp).

  (** The same as numpy computes it, on any real arguments. *)
Definition T_sys_np (nu_GHz trcvr_K : R) : npfloat :=
    option_map (fun p => 180 * p + trcvr_K) (np_power (nu_GHz / 0.18) (- 2.55)).

Definition radiometer_np (nu_GHz trcvr_K channel_width inttime_s nsamp : R)
    : npfloat :=
    np_divide (T_sys_np nu_GHz trcvr_K)
              (np_sqrt (channel_width * inttime_s * nsamp)).

  (** The description of one entry of the noise: the noise power times the
      complex number of the two draws, over the root of two. *)
Definition noise_value (p g_re g_im : R) : C :=
    Cdivr (Cscal (Cadd (RtoC g_re) (Cmul Ci (RtoC g_im))) p) (sqrt 2).

Definition noise_of (n : nat) (p g_re g_im : arr R n) : arr C n :=
    amap2 (fun p gg => noise_value p (fst gg) (snd gg)) n p
          (amap2 (fun x y => (x, y)) n g_re g_im).

  (** A sampler for a small example: every draw is 1. *)
Definition constant_normal (s : list nat) (st : unit) : ndarray R * unit :=
    (mk_nd 1 (repeat 1 (hd 0%nat s)), st).

  Section Random.
    (** The state of numpy's global random generator, and
        [np.random.normal(size=shape)] on it. *)
Variable rng : Type.
Variable np_random_normal : list nat -> rng -> ndarray R * rng.

Definition generate_noise (noise_power : ndarray R) (st : rng)
      : result (ndarray C) * rng :=
      let (g_re, st1) := np_random_normal (shape noise_power) st in
      let (g_im, st2) := np_random_normal (shape noise_power) st1 in
      let re := let (n, a) := g_re in mk_nd n (amap (fun g => RtoC (1 * g)) n a) in
      let im := let (n, a) := g_im in
                mk_nd n (amap (fun g => Cscal Ci g) n a) in
      (rbind (np_binop Cadd re im) (fun z =>
       rbind (np_binop (fun p w => Cscal w p) noise_power z) (fun noise =>
       let (n, a) := noise in
       Ok (mk_nd n (amap (fun w => Cdivr w (sqrt 2)) n a)))),
       st2).
  End Random.

  (** Whether an argument is an astropy [Quantity]. *)
Definition is_quantity (x : pyscalar) : bool :=
    match x with PyQuantity _ _ => true | _ => false end.
Definition is_quantity_vec (x : pyvector) : bool :=
    match x with QuantityVec _ _ => true | PlainVec _ => false end.

  Section Constants.
    (** [astropy.constants.c] in m/s and [astropy.constants.k_B] in J/K. *)
Variables c_light k_B : R.

    (** The description of the factor for one frequency in hertz: the
        speed of light squared over twice the frequency squared times the
        Boltzmann constant, which is in K per (W / m^2 / Hz), expressed in
        mK per Jy. *)
Definition jy_to_mk_value (f_Hz : R) : R :=
      (c_light * c_light) / (2 * (f_Hz * f_Hz) * k_B) * (1 / 1e23).

    (** A [freqs] argument of any Python type: a quantity, or not. *)
Definition jy_to_mk (freqs : pyvector) : result (list R * Unit) :=
      match freqs with
      | PlainVec _ => Raise AssertionError
      | QuantityVec f_values f_unit =>
          rbind (convert m_per_s m_per_s c_light) (fun c =>
          rbind (convert_all f_unit per_s f_values) (fun f_Hz =>
          let jy2t := map (fun f => (c * c) / (2 * (f * f) * k_B)) f_Hz in
          let jy2t_unit :=
            udiv (usqr m_per_s) (umul (usqr per_s) J_per_K) in
          rbind (convert_all jy2t_unit mK_per_Jy jy2t) (fun out =>
          Ok (out, mK_per_Jy))))
      end.
  End Constants.
End Noise.

(** ** [UnitParameter] *)

Module UnitParam.
  Import Units.
  Local Open Scope R_scope.
  Local Open Scope string_scope.

  (** The classes of parameter objects: [UnitParameter], its base class
      [UVParameter] of pyuvdata, and anything else. *)
Inductive pclass : Type := UnitParameterC | UVParameterC | OtherC.

Definition pclass_eqb (c1 c2 : pclass) : bool :=
    match c1, c2 with
    | UnitParameterC, UnitParameterC | UVParameterC, UVParameterC
    | OtherC, OtherC => true
    | _, _ => false
    end.

  (** [issubclass(c1, c2)] *)
Definition issubclass (c1 c2 : pclass) : bool :=
    match c1, c2 with
    | UnitParameterC, UVParameterC => true
    | _, _ => pclass_eqb c1 c2
    end.

  (** A parameter's value: a [Quantity], a plain array, or an object of
      another class (given by a tag). *)
Inductive pvalue : Type :=
  | VQuantity (d : ndarray R) (u : Unit)
  | VArray (d : ndarray R)
  | VOther (tag : nat).

Inductive vclass : Type := QuantityC | NdarrayC | OtherValC (tag : nat).

Definition class_of (v : pvalue) : vclass :=
    match v with
    | VQuantity _ _ => QuantityC
    | VArray _ => NdarrayC
    | VOther t => OtherValC t
    end.

  (** [isinstance(v, c)]; [Quantity] is a subclass of [ndarray]. *)
Definition isinstance_value (v : pvalue) (c : vclass) : bool :=
    match class_of v, c with
    | QuantityC, QuantityC | QuantityC, NdarrayC | NdarrayC, NdarrayC => true
    | OtherValC t1, OtherValC t2 => Nat.eqb t1 t2
    | _, _ => false
    end.

  (** The absolute tolerance: a plain number, or a scalar [Quantity]. *)
Inductive atol : Type :=
  | AtolFloat (x : R)
  | AtolQuantity (x : R) (u : Unit).

  (** What [expected_type] holds: [int], [float], or a tuple of types (as
      later versions of pyuvdata store it), which numpy does not accept as
      a dtype. *)
Inductive ptype : Type := TInt | TFloat | TTypes.

Record param : Type := mkParam {
    p_class : pclass;
    p_name : string;
    p_value : pvalue;
    p_tols : R * atol;
    p_value_not_quantity : bool;
    p_expected_type : ptype
  }.

Definition set_value (v : pvalue) (p : param) : param :=
    mkParam (p_class p) (p_name p) v (p_tols p) (p_value_not_quantity p)
            (p_expected_type p).
Definition set_tols (t : R * atol) (p : param) : param :=
    mkParam (p_class p) (p_name p) (p_value p) t (p_value_not_quantity p)
            (p_expected_type p).

  (** The objects, and what has been printed or warned. *)
Record state : Type := mkState {
    objs : list param;
    out : list string
  }.

Fixpoint update {X : Type} (l : nat) (x : X) (h : list X) : list X :=
    match h, l with
    | [], _ => []
    | _ :: h', O => x :: h'
    | y :: h', S l' => y :: update l' x h'
    end.

Definition store (l : nat) (p : param) (st : state) : state :=
    mkState (update l p (objs st)) (out st).
Definition print (msg : string) (st : state) : state :=
    mkState (objs st) (out st ++ [msg]).
Definition print_all (msgs : list string) (st : state) : state :=
    mkState (objs st) (out st ++ msgs).

  (** [np.allclose(a, b, rtol, atol)] on one pair of entries. *)
Definition close (rtol atol_v a b : R) : bool :=
    if Rle_dec (Rabs (a - b)) (atol_v + rtol * Rabs b) then true else false.

Fixpoint aall (n : nat) : arr bool n -> bool :=
    match n with
    | O => fun b => b
    | S k => fun l => forallb (aall k) l
    end.

Definition np_allclose (rtol atol_v : R) (a b : ndarray R) : result bool :=
    rbind (np_binop (close rtol atol_v) a b) (fun c =>
    let (n, x) := c in Ok (aall n x)).

  (** [np.dtype(t)], as [astype] calls it. *)
Inductive dtype : Type := Int64 | Float64.

Definition dtype_msg : string := "invalid shape in fixed-type tuple.".

Definition np_dtype (t : ptype) : result dtype :=
    match t with
    | TInt => Ok Int64
    | TFloat => Ok Float64
    | TTypes => Raise (ValueError dtype_msg)
    end.

  (** [x.astype(d)] on one entry: a float is cut towards zero. *)
Definition astype (d : dtype) (x : R) : R :=
    match d with
    | Float64 => x
    | Int64 => if Rle_dec 0 x then IZR (Int_part x)
               else - IZR (Int_part (- x))
    end.

Definition classes_msg : string :=
    " parameter value classes are different.".
Definition shapes_msg : string :=
    " parameter value is array, shapes are different".
Definition units_msg : string :=
    " parameter is Quantity, but have non-compatible units ".
Definition close_msg : string :=
    " parameter value is array, values are not close".
Definition subclass_msg : string :=
    " parameter value classes are different and one is not a subclass of the other.".
Definition cast_warning : string :=
    "A UnitParameter with quantity value is being cast to UVParameter. All quantity information will be lost.".

  (** [self.to_uvp()] *)
Definition to_uvp (self : param) (st : state) : result param * state :=
    if p_value_not_quantity self
    then (Ok (mkParam UVParameterC (p_name self) (p_value self) (p_tols self)
                      true (p_expected_type self)), st)
    else
      let st := print cast_warning st in
      match p_value self with
      | VOther _ => (Raise AttributeError, st)
      | VArray _ =>
          match np_dtype (p_expected_type self) with
          | Ok _ => (Raise AttributeError, st)
          | Raise e => (Raise e, st)
          end
      | VQuantity (existT _ n a) _ =>
          match np_dtype (p_expected_type self), snd (p_tols self) with
          | Raise e, _ => (Raise e, st)
          | Ok d, AtolQuantity x _ =>
              (Ok (mkParam UVParameterC (p_name self)
                           (VArray (mk_nd n (amap (astype d) n a)))
                           (fst (p_tols self), AtolFloat x)
                           false (p_expected_type self)), st)
          | Ok _, AtolFloat _ => (Raise AttributeError, st)
          end
      end.

  Section BaseClass.
    (** [UVParameter.__eq__] of pyuvdata, on the fields of two objects: its
        answer, and the lines it prints (it prints when it answers
        [False]). *)
Variable uvp_eq : param -> param -> bool * list string.

    (** The comparison of two quantity values (lines 117 to 137 of
        [__eq__]), once the tolerance of [self] carries a unit. *)
Definition compare_quantities (self other : nat) (s_data : ndarray R)
               (s_unit : Unit) (st : state) : result bool * state :=
      match nth_error (objs st) self, nth_error (objs st) other with
      | Some s, Some o =>
          match p_value o with
          | VOther _ => (Raise AttributeError, st)
          | VArray o_data =>
              if negb (list_eqb_nat (shape s_data) (shape o_data))
              then (Ok false, print (p_name s ++ shapes_msg) st)
              else (Raise AttributeError, st)
          | VQuantity o_data o_unit =>
              if negb (list_eqb_nat (shape s_data) (shape o_data))
              then (Ok false, print (p_name s ++ shapes_msg) st)
              else if negb (is_equivalent s_unit o_unit)
              then (Ok false, print (p_name s ++ units_msg) st)
              else
                let (n, a) := o_data in
                let converted :=
                  mk_nd n (amap (fun x => x * factor o_unit s_unit) n a) in
                let st :=
                  store other (set_value (VQuantity converted s_unit) o) st in
                match nth_error (objs st) self with
                | Some s =>
                    match p_value s, snd (p_tols s) with
                    | VQuantity s_data _, AtolQuantity atol_v _ =>
                        match np_allclose (fst (p_tols s)) atol_v
                                          s_data converted with
                        | Ok true => (Ok true, st)
                        | Ok false =>
                            (Ok false, print (p_name s ++ close_msg) st)
                        | Raise e => (Raise e, st)
                        end
                    | _, _ => (Raise AttributeError, st)
                    end
                | None => (Raise NoSuchObject, st)
                end
          end
      | _, _ => (Raise NoSuchObject, st)
      end.

    (** [self.__eq__(other)], for [self] an instance of [UnitParameter]. *)
Definition eq (self other : nat) (st : state) : result bool * state :=
      match nth_error (objs st) self, nth_error (objs st) other with
      | Some s, Some o =>
          if issubclass (p_class o) (p_class s)
          then
            if negb (isinstance_value (p_value s) (class_of (p_value o)))
            then (Ok false, print (p_name s ++ classes_msg) st)
            else
              match p_value s with
              | VQuantity s_data s_unit =>
                  let st :=
                    match snd (p_tols s) with
                    | AtolQuantity _ _ => st
                    | AtolFloat x =>
                        store self
                              (set_tols (fst (p_tols s),
                                         AtolQuantity x s_unit) s) st
                    end in
                  compare_quantities self other s_data s_unit st
              | _ => (Ok (fst (uvp_eq s o)), print_all (snd (uvp_eq s o)) st)
              end
          else if issubclass (p_class s) (p_class o)
          then
            match to_uvp s st with
            | (Ok s', st) =>
                (Ok (fst (uvp_eq s' o)), print_all (snd (uvp_eq s' o)) st)
            | (Raise e, st) => (Raise e, st)
            end
          else (Ok false, print (p_name s ++ subclass_msg) st)
      | _, _ => (Raise NoSuchObject, st)
      end.
  End BaseClass.


(** What a call may do to the state: the objects stay as many, only those in
    [touched] may differ, and what was printed stays, with lines added. *)
Definition frame (touched : list nat) (st st' : state) : Prop :=
  length (objs st') = length (objs st) /\
  (forall k, ~ In k touched ->
             nth_error (objs st') k = nth_error (objs st) k) /\
  exists msgs, out st' = (out st ++ msgs)%list.

  (** Two parameters for an example: lengths 1 and 2 in metres, and a
      length 1 in kilometres. *)
Definition left_m : param :=
    mkParam UnitParameterC "x" (VQuantity (mk_nd 1 [1; 2]) metre)
            (0, AtolFloat 0) false TFloat.
Definition right_km : param :=
    mkParam UnitParameterC "x" (VQuantity (mk_nd 1 [1]) km)
            (0, AtolFloat 0) false TFloat.
Definition right2_km : param :=
    mkParam UnitParameterC "x" (VQuantity (mk_nd 1 [1; 2]) km)
            (0, AtolFloat 0) false TFloat.
End UnitParam.

(* ------------------------------------------------------------------ *)
(** ** [UnitParameter.__init__] *)

Module UnitParamInit.
  Import Units UnitParam.
  Local Open Scope R_scope.
  Local Open Scope string_scope.

  (** The [value] argument: [None], a list of scalar quantities, or a value
      as a parameter holds it (a [Quantity], a plain array, or an object
      that is neither a list nor [None]). *)
Inductive init_value : Type :=
  | IVNone
  | IVList (l : list (R * Unit))
  | IVValue (v : pvalue).

  (** The [tols] argument: a pair of a relative and an absolute tolerance,
      one plain number, or a [Quantity] of [1 + length more] values. *)
Inductive init_tols : Type :=
  | TolsPair (rtol : R) (a : atol)
  | TolsFloat (x : R)
  | TolsQuantity (x : R) (more : list R) (u : Unit).

  (** A constructed object: the fields of a parameter and
      [expected_units]. *)
Record unit_param : Type := mkUnitParam {
    up_fields : param;
    up_expected_units : option Unit
  }.

Definition list_msg : string :=
    "Unable to create UnitParameter objects from lists whose elements have non-comaptible units.".
Definition expected_units_msg : string :=
    "Input Quantity must also be accompained by the expected unit or equivalent unit.".
Definition size_msg : string :=
    "Tolerance values that are Quantity objects must be a single value to represent the absolute tolerance.".
Definition applying_msg : string :=
    "Given absolute tolerance did not all have units. Applying units from parameter value.".
Definition not_quantity_msg : string :=
    "Input value array is not an astropy Quantity object and the user did not specify value_not_quantity flag.".

  (** [units.Quantity(l)] for a list of scalar quantities, each brought to
      the unit [u]. *)
Fixpoint quantity_of_list (u : Unit) (l : list (R * Unit))
    : result (list R) :=
    match l with
    | [] => Ok []
    | (x, v) :: l' =>
        rbind (convert v u x) (fun y =>
        rbind (quantity_of_list u l') (fun ys => Ok (y :: ys)))
    end.

  (** Lines 37 to 43: a list whose first element is a quantity is made one
      quantity, in the unit of that element. *)
Definition value_of_list (value : init_value) : result (option pvalue) :=
    match value with
    | IVNone => Ok None
    | IVValue v => Ok (Some v)
    | IVList [] => Raise IndexError
    | IVList ((x, u) :: l) =>
        match quantity_of_list u ((x, u) :: l) with
        | Ok ys => Ok (Some (VQuantity (mk_nd 1%nat ys) u))
        | Raise UnitConversionError => Raise (ValueError list_msg)
        | Raise e => Raise e
        end
    end.

  (** Lines 56 to 64: the tolerances as a pair. *)
Definition tols_pair (tols : init_tols) : result (R * atol) :=
    match tols with
    | TolsQuantity x more tu =>
        if Nat.ltb 1 (S (length more)) then Raise (ValueError size_msg)
        else Ok (0, AtolQuantity x tu)
    | TolsFloat x => Ok (0, AtolFloat x)
    | TolsPair rtol a => Ok (rtol, a)
    end.

  Section BaseClass.
    (** [UVParameter.__init__] of pyuvdata: the object it fills in from the
        name, the value ([None] for no value), the tolerances and the
        expected type. *)
Variable uvp_init : string -> option pvalue -> init_tols -> ptype -> param.

    (** The object after the base constructor, as a [UnitParameter]. *)
Definition built (b : param) (value_not_quantity : bool)
               (expected_units : option Unit) : unit_param :=
      mkUnitParam (mkParam UnitParameterC (p_name b) (p_value b) (p_tols b)
                           value_not_quantity (p_expected_type b))
                  expected_units.

    (** [UnitParameter(name, value=value, expected_type=expected_type,
        expected_units=expected_units, tols=tols,
        value_not_quantity=value_not_quantity)] *)
Definition init (name : string) (value : init_value) (expected_type : ptype)
               (expected_units : option Unit) (tols : init_tols)
               (value_not_quantity : bool) (st : state)
      : result unit_param * state :=
      match value_of_list value with
      | Raise e => (Raise e, st)
      | Ok (Some (VQuantity d u)) =>
          match expected_units with
          | None => (Raise (ValueError expected_units_msg), st)
          | Some eu =>
              if negb (is_equivalent u eu)
              then (Raise UnitConversionError, st)
              else
                match tols_pair tols with
                | Raise e => (Raise e, st)
                | Ok (rtol, a) =>
                    let '(st, x, tu) :=
                      match a with
                      | AtolFloat x => (print applying_msg st, x, u)
                      | AtolQuantity x tu => (st, x, tu)
                      end in
                    if negb (is_equivalent tu u)
                    then (Raise UnitConversionError, st)
                    else
                      let b := uvp_init name (Some (VQuantity d u))
                                        (TolsPair rtol (AtolFloat x))
                                        expected_type in
                      (Ok (built (set_tols (rtol, AtolQuantity x tu) b)
                                 value_not_quantity expected_units), st)
                end
          end
      | Ok v =>
          if value_not_quantity ||
             match v with None => true | Some _ => false end
          then (Ok (built (uvp_init name v tols expected_type)
                          value_not_quantity expected_units), st)
          else (Raise (ValueError not_quantity_msg), st)
      end.
  End BaseClass.

  (** A base constructor that stores its arguments, for the examples. *)
Definition store_fields (name : string) (v : option pvalue)
             (tols : init_tols) (t : ptype) : param :=
    mkParam UVParameterC name
            (match v with Some v => v | None => VOther 0 end)
            (match tols with
             | TolsPair rtol a => (rtol, a)
             | TolsFloat x => (0, AtolFloat x)
             | TolsQuantity x _ u => (0, AtolQuantity x u)
             end)
            false t.
End UnitParamInit.

(* ================================================================== *)
(** * Theorems *)

(** ** Generic facts about lists and arrays *)

Lemma filter_map_comm {X Y : Type} (f : X -> Y) (p : Y -> bool) (l : list X) :
  filter p (map f l) = map f (filter (fun x => p (f x)) l).
Proof.
  induction l as [|x l IH]; simpl; [reflexivity|].
  destruct (p (f x)); simpl; now rewrite IH.
Qed.

Lemma map_filter_list_prod {X Y Z : Type} (f : X * Y -> Z) (p : X * Y -> bool)
      (l1 : list X) (l2 : list Y) :
  map f (filter p (list_prod l1 l2)) =
  concat (map (fun i => map (fun j => f (i, j))
                            (filter (fun j => p (i, j)) l2)) l1).
Proof.
  induction l1 as [|x l1 IH]; simpl; [reflexivity|].
  rewrite filter_app, map_app, IH. f_equal.
  rewrite filter_map_comm, map_map. reflexivity.
Qed.

Lemma length_concat_const {X : Type} (n : nat) (ls : list (list X)) :
  Forall (fun l => length l = n) ls -> length (concat ls) = length ls * n.
Proof.
  induction 1 as [|l ls Hl _ IH]; simpl; [reflexivity|].
  rewrite length_app, IH, Hl. reflexivity.
Qed.

Lemma length_filter_neq_seq (i s n : nat) :
  length (filter (fun j => negb (Nat.eqb i j)) (seq s n)) =
  if andb (Nat.leb s i) (Nat.ltb i (s + n)) then n - 1 else n.
Proof.
  revert s. induction n as [|n IH]; intros s; cbn [seq filter].
  - destruct (andb _ _); reflexivity.
  - destruct (Nat.eqb_spec i s) as [->|Hne]; cbn [negb length]; rewrite IH;
      repeat match goal with
             | |- context [Nat.leb ?a ?b] => destruct (Nat.leb_spec a b)
             | |- context [Nat.ltb ?a ?b] => destruct (Nat.ltb_spec a b)
             end; cbn [andb]; lia.
Qed.

(** ** Shapes and broadcasting *)

Lemma map2_length {A B C : Type} (f : A -> B -> C) (l1 : list A) (l2 : list B) :
  length l1 = length l2 -> length (map2 f l1 l2) = length l1.
Proof.
  revert l2. induction l1 as [|x l1 IH]; intros [|y l2] H; simpl in *;
    try reflexivity; try discriminate.
  f_equal. apply IH. now injection H.
Qed.

Lemma map2_map {A A' B B' C : Type} (f : A' -> B' -> C) (g : A -> A')
      (h : B -> B') (l1 : list A) (l2 : list B) :
  map2 f (map g l1) (map h l2) = map2 (fun x y => f (g x) (h y)) l1 l2.
Proof.
  revert l2. induction l1 as [|x l1 IH]; intros [|y l2]; simpl;
    try reflexivity. now rewrite IH.
Qed.

Lemma map2_ext {A B C : Type} (f g : A -> B -> C) (l1 : list A)
      (l2 : list B) :
  (forall x y, f x y = g x y) -> map2 f l1 l2 = map2 g l1 l2.
Proof.
  intros H. revert l2. induction l1 as [|x l1 IH]; intros [|y l2]; simpl;
    try reflexivity. now rewrite H, IH.
Qed.

Lemma map2_diag {A C : Type} (f : A -> A -> C) (l : list A) :
  map2 f l l = map (fun x => f x x) l.
Proof. induction l as [|x l IH]; simpl; [reflexivity|]. now rewrite IH. Qed.

Lemma map2_ext_Forall2 {A B C : Type} (f g : A -> B -> C)
      (l1 : list A) (l2 : list B) :
  Forall2 (fun x y => f x y = g x y) l1 l2 -> map2 f l1 l2 = map2 g l1 l2.
Proof. induction 1 as [|x y l1 l2 H _ IH]; simpl; [reflexivity|]. now rewrite H, IH. Qed.

Lemma Forall2_of_Forall {A B : Type} (P : A -> Prop) (Q : B -> Prop)
      (l1 : list A) (l2 : list B) :
  length l1 = length l2 -> Forall P l1 -> Forall Q l2 ->
  Forall2 (fun x y => P x /\ Q y) l1 l2.
Proof.
  revert l2. induction l1 as [|x l1 IH]; intros [|y l2] H H1 H2;
    simpl in H; try discriminate; constructor.
  - inversion H1; inversion H2; subst. now split.
  - inversion H1; inversion H2; subst. apply IH; auto.
Qed.

Lemma nth_map2 {A B C : Type} (f : A -> B -> C) (l1 : list A) (l2 : list B)
      (i : nat) (da : A) (db : B) (dc : C) :
  i < length l1 -> length l1 = length l2 ->
  nth i (map2 f l1 l2) dc = f (nth i l1 da) (nth i l2 db).
Proof.
  revert l2 i. induction l1 as [|x l1 IH]; intros [|y l2] i Hi H;
    simpl in *; try lia.
  destruct i as [|i]; [reflexivity|]. apply IH; lia.
Qed.

Lemma nth_map_in {A B : Type} (f : A -> B) (l : list A) (i : nat)
      (da : A) (db : B) :
  i < length l -> nth i (map f l) db = f (nth i l da).
Proof.
  intros Hi. rewrite (nth_indep _ db (f da)) by (now rewrite length_map).
  apply map_nth.
Qed.

Lemma has_shape_shape_of {A B : Type} (n : nat) (s : list nat)
      (a : arr A n) (b : arr B n) :
  has_shape n a s -> has_shape n b s -> shape_of n a = shape_of n b.
Proof.
  revert s a b. induction n as [|n IH]; intros s a b Ha Hb; [reflexivity|].
  destruct s as [|d s]; [contradiction|].
  destruct Ha as [La Fa], Hb as [Lb Fb]. cbn [shape_of].
  f_equal; [congruence|].
  destruct a as [|x a], b as [|y b]; cbn in La, Lb; try lia; [reflexivity|].
  inversion Fa; inversion Fb; subst. eapply IH; eassumption.
Qed.

Lemma shape_of_rank1 {A : Type} (w : arr A 1) : shape_of 1 w = [length w].
Proof. destruct w; reflexivity. Qed.

Lemma has_shape_pos_shape_of {A : Type} (n : nat) (s : list nat)
      (a : arr A n) :
  has_shape n a s -> Forall (lt 0) s -> shape_of n a = s.
Proof.
  revert s a. induction n as [|n IH]; intros s a H Hpos.
  - cbn in H. now subst.
  - destruct s as [|d s]; [contradiction|]. destruct H as [L F].
    inversion Hpos as [|? ? Hd Hs]; subst.
    destruct a as [|x a]; [cbn in Hd; lia|].
    change (shape_of (S n) (x :: a)) with (length (x :: a) :: shape_of n x).
    f_equal. apply IH; [exact (Forall_inv F)|exact Hs].
Qed.

Lemma broadcastable_refl (s : list nat) : broadcastable s s = true.
Proof.
  induction s as [|d s IH]; [reflexivity|]. cbn.
  now rewrite Nat.eqb_refl, IH.
Qed.

Lemma bcast2_same_length {A B C : Type} (f : A -> B -> C) (k : nat)
      (l1 : arr A (S k)) (l2 : arr B (S k)) :
  length l1 = length l2 -> bcast2 f (S k) l1 l2 = map2 (bcast2 f k) l1 l2.
Proof.
  intros H. cbn [bcast2].
  destruct l1 as [|x [|x' l1]], l2 as [|y [|y' l2]]; cbn in H;
    try discriminate; reflexivity.
Qed.

Lemma bcast2_singleton_r {A B C : Type} (f : A -> B -> C) (k : nat)
      (l : arr A (S k)) (y : arr B k) :
  bcast2 f (S k) l [y] = map (fun x => bcast2 f k x y) l.
Proof. destruct l as [|x [|x' l]]; reflexivity. Qed.

Lemma bcast2_same_shape {A B C : Type} (f : A -> B -> C) (n : nat)
      (s : list nat) (a : arr A n) (b : arr B n) :
  has_shape n a s -> has_shape n b s -> bcast2 f n a b = amap2 f n a b.
Proof.
  revert s a b. induction n as [|n IH]; intros s a b Ha Hb; [reflexivity|].
  destruct s as [|d s]; [contradiction|].
  destruct Ha as [La Fa], Hb as [Lb Fb].
  rewrite bcast2_same_length by congruence. cbn [amap2].
  apply map2_ext_Forall2.
  eapply Forall2_impl;
    [|apply (Forall2_of_Forall _ _ a b (eq_trans La (eq_sym Lb)) Fa Fb)].
  intros x y [Hx Hy]. eapply IH; eassumption.
Qed.

Lemma bcast2_pair_baselines {A B C : Type} (f : A -> B -> C) (k : nat)
      (s : list nat) (a1 : arr A (S k)) (a2 : arr B (S k)) :
  has_shape (S k) a1 s -> has_shape (S k) a2 s ->
  bcast2 f (S (S k)) (new_axis0 (S k) a1) (new_axis1 k a2) =
  pair_baselines f k a1 a2.
Proof.
  intros H1 H2. destruct s as [|d s]; [contradiction|].
  destruct H1 as [L1 F1], H2 as [L2 F2].
  unfold new_axis0, new_axis1, pair_baselines.
  change (bcast2 f (S (S k)) [a1] (map (fun x => [x]) a2))
    with (map (fun y => bcast2 f (S k) a1 y) (map (fun x : arr B k => [x]) a2)).
  rewrite map_map. apply map_ext_in. intros y Hy.
  rewrite bcast2_singleton_r. apply map_ext_in. intros x Hx.
  rewrite Forall_forall in F1, F2.
  eapply bcast2_same_shape; eauto.
Qed.

Lemma broadcastable_pair {A B : Type} (k : nat) (s : list nat)
      (a1 : arr A (S k)) (a2 : arr B (S k)) :
  has_shape (S k) a1 s -> has_shape (S k) a2 s ->
  broadcastable (shape_of (S (S k)) (new_axis0 (S k) a1))
                (shape_of (S (S k)) (new_axis1 k a2)) = true.
Proof.
  intros H1 H2. destruct s as [|d s]; [contradiction|].
  destruct H1 as [L1 F1], H2 as [L2 F2].
  destruct a1 as [|x a1], a2 as [|y a2]; cbn in L1, L2; try lia.
  - cbn. now rewrite broadcastable_refl.
  - inversion F1; inversion F2; subst.
    cbn [new_axis0 new_axis1 map shape_of length broadcastable].
    rewrite (has_shape_shape_of k s x y) by assumption.
    rewrite broadcastable_refl. cbn [Nat.eqb].
    now rewrite !orb_true_r.
Qed.

Module AutoCorrFacts.
Import AutoCorr.

Lemma indices_rows (N : nat) :
  np_logical_not (np_diag (np_ones_bool N)) =
  map (fun i => map (fun j => negb (Nat.eqb i j)) (seq 0 N)) (seq 0 N).
Proof.
  unfold np_logical_not, np_diag, np_ones_bool.
  rewrite repeat_length, map_map.
  apply map_ext_in. intros i Hi. rewrite map_map.
  apply map_ext_in. intros j _.
  apply in_seq in Hi.
  destruct (Nat.eqb i j); [|reflexivity].
  rewrite nth_repeat_lt by lia. reflexivity.
Qed.

Lemma select_seq {X : Type} (d : X) (g : nat -> bool) (row : list X) (s : nat) :
  select (map g (seq s (length row))) row =
  map (fun j => nth (j - s) row d) (filter g (seq s (length row))).
Proof.
  revert s. induction row as [|x row IH]; intros s; simpl; [reflexivity|].
  rewrite IH.
  assert (E : forall l, Forall (fun j => S s <= j) l ->
            map (fun j => nth (j - S s) row d) l =
            map (fun j => nth (j - s) (x :: row) d) l).
  { induction 1 as [|j l Hj _ IHl]; simpl; [reflexivity|].
    rewrite IHl. f_equal.
    replace (j - s) with (S (j - S s)) by lia. reflexivity. }
  rewrite E.
  - destruct (g s); simpl; [rewrite Nat.sub_diag|]; reflexivity.
  - apply Forall_forall. intros j Hj. apply filter_In in Hj.
    destruct Hj as [Hj _]. apply in_seq in Hj. lia.
Qed.

Lemma select_rows {X : Type} (g : nat -> nat -> bool) (N : nat)
      (a : list (list (list X))) (s : nat) :
  Forall (fun row => length row = N) a ->
  concat (map2 (@select (list X))
               (map (fun i => map (g i) (seq 0 N)) (seq s (length a))) a) =
  concat (map (fun i => map (fun j => nth j (nth (i - s) a []) [])
                            (filter (g i) (seq 0 N)))
              (seq s (length a))).
Proof.
  intros H. revert s. induction H as [|row a Hrow _ IH]; intros s; simpl;
    [reflexivity|].
  rewrite IH. f_equal.
  - rewrite Nat.sub_diag. subst N.
    rewrite (select_seq [] (g s) row 0).
    apply map_ext. intros j. now rewrite Nat.sub_0_r.
  - f_equal. apply map_ext_in. intros i Hi. apply in_seq in Hi.
    replace (i - s) with (S (i - S s)) by lia. reflexivity.
Qed.

Lemma length_offdiag_pairs (N : nat) : length (offdiag_pairs N) = N * (N - 1).
Proof.
  unfold offdiag_pairs.
  rewrite <- (map_id (filter _ _)), map_filter_list_prod.
  rewrite (length_concat_const (N - 1)).
  - now rewrite length_map, length_seq.
  - apply Forall_forall. intros l Hl. apply in_map_iff in Hl.
    destruct Hl as [i [<- Hi]]. apply in_seq in Hi.
    rewrite length_map. cbn [fst snd]. rewrite length_filter_neq_seq.
    destruct (Nat.leb_spec 0 i), (Nat.ltb_spec i (0 + N)); cbn [andb]; lia.
Qed.

Lemma offdiag_pairs_spec (N i j : nat) :
  In (i, j) (offdiag_pairs N) <-> i < N /\ j < N /\ i <> j.
Proof.
  unfold offdiag_pairs. rewrite filter_In, in_prod_iff, !in_seq. cbn [fst snd].
  destruct (Nat.eqb_spec i j); cbn [negb]; intuition (try lia; try congruence).
Qed.

Lemma bool_index2_square {A : Type} (N T F : nat) (a : arr A 4) :
  has_shape 4 a [N; N; T; F] ->
  bool_index2 A (k:=2) (np_logical_not (np_diag (np_ones_bool N))) a =
  Ok (pick_pairs A N a).
Proof.
  intros [Hlen Hrows]. rewrite indices_rows. unfold bool_index2.
  assert (Hrow : Forall (fun row : arr A 3 => length row = N) a).
  { eapply Forall_impl; [|exact Hrows]. cbn. intros row [H _]. exact H. }
  replace (andb _ _) with true.
  - f_equal. unfold pick_pairs, offdiag_pairs. rewrite map_filter_list_prod. cbn [fst snd].
    pose proof (select_rows (X:=list A) (fun i j => negb (Nat.eqb i j))
                            N a 0 Hrow) as E.
    assert (Hlen' : @length (list (list (list A))) a = N) by exact Hlen.
    rewrite Hlen' in E. cbn beta in E.
    etransitivity; [exact E|]. f_equal. apply map_ext. intros i.
    now rewrite Nat.sub_0_r.
  - symmetry. apply andb_true_intro. split.
    + cbn [shape_of nth]. rewrite length_map, length_seq. apply Nat.eqb_eq.
      now symmetry.
    + apply forallb_forall. intros mrow Hm. apply in_map_iff in Hm.
      destruct Hm as [i [<- Hi]]. rewrite length_map, length_seq.
      apply Nat.eqb_eq. apply in_seq in Hi.
      destruct a as [|row a]; [cbn in Hlen; lia|].
      inversion Hrow as [|? ? H1 _]; subst. cbn [shape_of nth].
      symmetry. exact H1.
Qed.

Lemma bool_index2_inner_square {A : Type} (N T F : nat)
      (a : list (arr A 4)) :
  Forall (fun p => has_shape 4 p [N; N; T; F]) a ->
  bool_index2_inner A (k:=2) (np_logical_not (np_diag (np_ones_bool N))) a =
  Ok (map (pick_pairs A N) a).
Proof.
  induction 1 as [|p a Hp _ IH]; cbn [bool_index2_inner map]; [reflexivity|].
  rewrite (bool_index2_square N T F p Hp). cbn [rbind]. rewrite IH.
  reflexivity.
Qed.

(** C3: on a rank-4 array (baseline_1, baseline_2, time, freq), and on every
    polarization of a rank-5 array, [remove_auto_correlations] returns the
    entries at the baseline pairs [(i, j)], [i <> j], in row-major order,
    collapsed into one axis of length [Nbls * (Nbls - 1)]; no pair [(i, i)]
    is among them; every other rank raises [ValueError]; and the 3 x 3
    example holding 0..8 gives the entries 1, 2, 3, 5, 6, 7. *)
Theorem remove_auto_correlations_off_diagonal :
  (forall (A : Type) (N T F : nat) (a : arr A 4),
      has_shape 4 a [N; N; T; F] ->
      remove_auto_correlations A (mk_nd 4 a) = Ok (mk_nd 3 (pick_pairs A N a))
      /\ length (pick_pairs A N a) = N * (N - 1))
  /\ (forall (A : Type) (P N T F : nat) (a : arr A 5),
      has_shape 5 a [P; N; N; T; F] ->
      remove_auto_correlations A (mk_nd 5 a) =
        Ok (mk_nd 4 (map (pick_pairs A N) a))
      /\ Forall (fun q : arr A 3 => length q = N * (N - 1))
                (map (pick_pairs A N) a))
  /\ (forall N i j : nat,
      In (i, j) (offdiag_pairs N) <-> i < N /\ j < N /\ i <> j)
  /\ (forall (A : Type) (a : ndarray A),
      rank a <> 4 -> rank a <> 5 ->
      remove_auto_correlations A a = Raise (ValueError rank_msg))
  /\ remove_auto_correlations nat (mk_nd 4 square_0_8) =
       Ok (mk_nd 3 [ [[1]]; [[2]]; [[3]]; [[5]]; [[6]]; [[7]] ]).
Proof.
  split; [|split; [|split; [|split]]].
  - intros A N T F a Ha. split.
    + unfold remove_auto_correlations, mk_nd.
      assert (Hn : nth 0 (shape_of 4 a) 0 = N) by (destruct Ha; assumption).
      rewrite Hn, (bool_index2_square N T F a Ha). reflexivity.
    + unfold pick_pairs. now rewrite length_map, length_offdiag_pairs.
  - intros A P N T F a [HP Ha]. split.
    + unfold remove_auto_correlations, mk_nd.
      destruct a as [|p a].
      * reflexivity.
      * assert (Hn : nth 1 (shape_of 5 (p :: a)) 0 = N).
        { inversion Ha as [|? ? Hp0 _]; subst.
          destruct Hp0 as [Hp _]. exact Hp. }
        rewrite Hn, (bool_index2_inner_square N T F (p :: a) Ha).
        reflexivity.
    + apply Forall_forall. intros q Hq. apply in_map_iff in Hq.
      destruct Hq as [p [<- _]]. unfold pick_pairs.
      now rewrite length_map, length_offdiag_pairs.
  - exact offdiag_pairs_spec.
  - intros A [n a] H4 H5. cbn in H4, H5.
    do 6 (destruct n as [|n]; try reflexivity; try congruence).
  - reflexivity.
Qed.

(** The theorem applied to the 3 x 3 example. *)
Lemma remove_auto_correlations_off_diagonal_witness :
  has_shape 4 square_0_8 [3; 3; 1; 1] /\
  remove_auto_correlations nat (mk_nd 4 square_0_8) =
    Ok (mk_nd 3 (pick_pairs nat 3 square_0_8)).
Proof.
  assert (H : has_shape 4 square_0_8 [3; 3; 1; 1]).
  { cbn. repeat constructor. }
  split; [exact H|].
  exact (proj1 (proj1 remove_auto_correlations_off_diagonal nat 3 1 1
                      square_0_8 H)).
Defined.

End AutoCorrFacts.

(** ** Running heap computations *)

Module HeapFacts.
Import Heap.
Section HeapFacts.
Context {O : Type}.

Lemma bind_ok {X Y : Type} (m : M O X) (k : X -> M O Y) (h h' : heap O)
        (x : X) :
    m h = (Ok x, h') -> bind m k h = k x h'.
  Proof. intros H. unfold bind. now rewrite H. Qed.

Lemma bind_raise {X Y : Type} (m : M O X) (k : X -> M O Y) (h h' : heap O)
        (e : exn) :
    m h = (Raise e, h') -> bind m k h = (Raise e, h').
  Proof. intros H. unfold bind. now rewrite H. Qed.

Lemma load_ok (h : heap O) (l : loc) (o : O) :
    nth_error h l = Some o -> load l h = (Ok o, h).
  Proof. intros H. unfold load. now rewrite H. Qed.

Lemma op1_ok (f : O -> result O) (h : heap O) (l : loc) (o o' : O) :
    nth_error h l = Some o -> f o = Ok o' ->
    op1 f l h = (Ok (length h), h ++ [o']).
  Proof.
    intros Hl Hf. unfold op1. rewrite (bind_ok _ _ _ _ _ (load_ok _ _ _ Hl)).
    rewrite Hf. reflexivity.
  Qed.

Lemma op1_raise (f : O -> result O) (h : heap O) (l : loc) (o : O)
        (e : exn) :
    nth_error h l = Some o -> f o = Raise e -> op1 f l h = (Raise e, h).
  Proof.
    intros Hl Hf. unfold op1. rewrite (bind_ok _ _ _ _ _ (load_ok _ _ _ Hl)).
    rewrite Hf. reflexivity.
  Qed.

Lemma load_fail (h : heap O) (l : loc) :
    nth_error h l = None -> load l h = (Raise NoSuchObject, h).
  Proof. intros H. unfold load. now rewrite H. Qed.

Lemma op1_fail (f : O -> result O) (h : heap O) (l : loc) :
    nth_error h l = None -> op1 f l h = (Raise NoSuchObject, h).
  Proof.
    intros H. unfold op1. now rewrite (bind_raise _ _ _ _ _ (load_fail _ _ H)).
  Qed.

Lemma op2_ok (f : O -> O -> result O) (h : heap O) (l1 l2 : loc)
        (o1 o2 o' : O) :
    nth_error h l1 = Some o1 -> nth_error h l2 = Some o2 ->
    f o1 o2 = Ok o' ->
    op2 f l1 l2 h = (Ok (length h), h ++ [o']).
  Proof.
    intros H1 H2 Hf. unfold op2.
    rewrite (bind_ok _ _ _ _ _ (load_ok _ _ _ H1)).
    rewrite (bind_ok _ _ _ _ _ (load_ok _ _ _ H2)).
    rewrite Hf. reflexivity.
  Qed.

Lemma lookup_old (h ext : heap O) (l : loc) (o : O) :
    nth_error h l = Some o -> nth_error (h ++ ext) l = Some o.
  Proof.
    intros H. rewrite nth_error_app1; [exact H|].
    apply nth_error_Some. congruence.
  Qed.

Lemma lookup_new (h : heap O) (o : O) :
    nth_error (h ++ [o]) (length h) = Some o.
  Proof. rewrite nth_error_app2, Nat.sub_diag by lia. reflexivity. Qed.

Lemma outcome_alloc (h : heap O) (o : O) :
    outcome (Ok (length h), h ++ [o]) = Ok (Some o).
  Proof. unfold outcome. cbn [fst snd]. now rewrite lookup_new. Qed.

Lemma allocates_only_ret {X : Type} (x : X) :
    allocates_only (@ret O X x).
  Proof. intros h. exists []. cbn. now rewrite app_nil_r. Qed.

Lemma allocates_only_raise {X : Type} (e : exn) :
    allocates_only (@raise O X e).
  Proof. intros h. exists []. cbn. now rewrite app_nil_r. Qed.

Lemma allocates_only_lift {X : Type} (r : result X) :
    allocates_only (@lift O X r).
  Proof.
    destruct r; [apply allocates_only_ret|apply allocates_only_raise].
  Qed.

Lemma allocates_only_load (l : loc) : allocates_only (@load O l).
  Proof.
    intros h. exists []. unfold load.
    destruct (nth_error h l); cbn; now rewrite app_nil_r.
  Qed.

Lemma allocates_only_alloc (o : O) : allocates_only (@alloc O o).
  Proof. intros h. exists [o]. reflexivity. Qed.

Lemma allocates_only_bind {X Y : Type} (m : M O X) (k : X -> M O Y) :
    allocates_only m -> (forall x, allocates_only (k x)) ->
    allocates_only (bind m k).
  Proof.
    intros Hm Hk h. unfold bind. destruct (Hm h) as [e1 H1].
    destruct (m h) as [[x|e] h1]; cbn in H1; subst h1.
    - destruct (Hk x (h ++ e1)) as [e2 H2]. exists (e1 ++ e2).
      now rewrite H2, app_assoc.
    - exists e1. reflexivity.
  Qed.

Lemma allocates_only_op1 (f : O -> result O) (l : loc) :
    allocates_only (op1 f l).
  Proof.
    unfold op1. apply allocates_only_bind; [apply allocates_only_load|].
    intros o. apply allocates_only_bind;
      [apply allocates_only_lift|apply allocates_only_alloc].
  Qed.

Lemma allocates_only_op2 (f : O -> O -> result O) (l1 l2 : loc) :
    allocates_only (op2 f l1 l2).
  Proof.
    unfold op2. apply allocates_only_bind; [apply allocates_only_load|].
    intros o1. apply allocates_only_bind; [apply allocates_only_load|].
    intros o2. apply allocates_only_bind;
      [apply allocates_only_lift|apply allocates_only_alloc].
  Qed.

Lemma allocates_only_if {X : Type} (b : bool) (m1 m2 : M O X) :
    allocates_only m1 -> allocates_only m2 ->
    allocates_only (if b then m1 else m2).
  Proof. destruct b; auto. Qed.

Lemma always_raises_raise {X : Type} (e : exn) :
    always_raises (@raise O X e).
  Proof. intros h. now exists e, h. Qed.

Lemma always_raises_bind_l {X Y : Type} (m : M O X) (k : X -> M O Y) :
    always_raises m -> always_raises (bind m k).
  Proof.
    intros Hm h. destruct (Hm h) as [e [h' E]]. exists e, h'.
    now apply bind_raise.
  Qed.

Lemma always_raises_bind_r {X Y : Type} (m : M O X) (k : X -> M O Y) :
    (forall x, always_raises (k x)) -> always_raises (bind m k).
  Proof.
    intros Hk h. unfold bind. destruct (m h) as [[x|e] h'].
    - apply Hk.
    - now exists e, h'.
  Qed.

Lemma always_raises_if {X : Type} (b : bool) (m1 m2 : M O X) :
    always_raises m1 -> always_raises m2 ->
    always_raises (if b then m1 else m2).
  Proof. destruct b; auto. Qed.

  (** What a computation that returned went through. *)
Lemma bind_inv {X Y : Type} (m : M O X) (k : X -> M O Y) (h : heap O)
        (y : Y) :
    fst (bind m k h) = Ok y ->
    exists x h', m h = (Ok x, h') /\ fst (k x h') = Ok y.
  Proof.
    unfold bind. destruct (m h) as [[x|e] h']; [|discriminate].
    intros H. now exists x, h'.
  Qed.

Lemma load_inv (l : loc) (h h' : heap O) (o : O) :
    load l h = (Ok o, h') -> h' = h /\ nth_error h l = Some o.
  Proof.
    unfold load. destruct (nth_error h l); [|discriminate].
    intros H. injection H as -> ->. now split.
  Qed.

Lemma lift_inv {X : Type} (r : result X) (h h' : heap O) (x : X) :
    lift r h = (Ok x, h') -> h' = h /\ r = Ok x.
  Proof.
    destruct r; [|discriminate]. intros H. injection H as -> ->. now split.
  Qed.

Lemma op1_inv (f : O -> result O) (l x : loc) (h h' : heap O) :
    op1 f l h = (Ok x, h') -> exists o', h' = h ++ [o'].
  Proof.
    unfold op1, bind, load. destruct (nth_error h l) as [o|]; [|discriminate].
    destruct (f o) as [o'|e]; [|discriminate].
    intros H. injection H as _ <-. now exists o'.
  Qed.

  (** Objects that exist before such a computation are the same after it. *)
Lemma allocates_only_preserves {X : Type} (m : M O X) (h : heap O)
        (l : loc) :
    allocates_only m -> l < length h ->
    nth_error (snd (m h)) l = nth_error h l.
  Proof.
    intros Hm Hl. destruct (Hm h) as [ext ->]. now apply nth_error_app1.
  Qed.
End HeapFacts.

Create HintDb heap.
#[export] Hint Resolve allocates_only_ret allocates_only_raise
  allocates_only_lift allocates_only_load allocates_only_alloc
  allocates_only_op1 allocates_only_op2 : heap.
End HeapFacts.

(** ** Pairing baselines by broadcasting *)

Lemma np_binop_rank4 {A B C : Type} (f : A -> B -> C)
      (a1 : arr A 4) (a2 : arr B 4) :
  np_binop f (mk_nd 4 a1) (mk_nd 4 a2) =
  if broadcastable (shape_of 4 a1) (shape_of 4 a2)
  then Ok (mk_nd 4 (bcast2 f 4 a1 a2))
  else Raise (ValueError broadcast_msg).
Proof. reflexivity. Qed.

Lemma np_binop_rank5 {A B C : Type} (f : A -> B -> C)
      (a1 : arr A 5) (a2 : arr B 5) :
  np_binop f (mk_nd 5 a1) (mk_nd 5 a2) =
  if broadcastable (shape_of 5 a1) (shape_of 5 a2)
  then Ok (mk_nd 5 (bcast2 f 5 a1 a2))
  else Raise (ValueError broadcast_msg).
Proof. reflexivity. Qed.

Lemma pair_rank3 {A B C : Type} (f : A -> B -> C) (s : list nat)
      (a1 : arr A 3) (a2 : arr B 3) :
  has_shape 3 a1 s -> has_shape 3 a2 s ->
  np_binop f (mk_nd 4 (new_axis0 3 a1)) (mk_nd 4 (new_axis1 2 a2)) =
  Ok (mk_nd 4 (pair_baselines f 2 a1 a2)).
Proof.
  intros H1 H2. rewrite np_binop_rank4.
  rewrite (broadcastable_pair 2 s a1 a2 H1 H2).
  now rewrite (bcast2_pair_baselines f 2 s a1 a2 H1 H2).
Qed.

Lemma pair_rank4 {A B C : Type} (f : A -> B -> C) (s : list nat)
      (a1 : arr A 4) (a2 : arr B 4) :
  has_shape 4 a1 s -> has_shape 4 a2 s ->
  np_binop f (mk_nd 5 (new_axis1 3 a1)) (mk_nd 5 (new_axis2 2 a2)) =
  Ok (mk_nd 5 (pair_baselines_pol f 2 a1 a2)).
Proof.
  intros H1 H2. destruct s as [|P s]; [contradiction|].
  destruct H1 as [L1 F1], H2 as [L2 F2].
  rewrite np_binop_rank5.
  assert (Hb : broadcastable (shape_of 5 (new_axis1 3 a1))
                             (shape_of 5 (new_axis2 2 a2)) = true).
  { destruct a1 as [|p1 a1], a2 as [|p2 a2]; cbn in L1, L2; try lia;
      [reflexivity|].
    inversion F1 as [|? ? Hp1 _]; inversion F2 as [|? ? Hp2 _]; subst.
    change (shape_of 5 (new_axis1 3 (p1 :: a1)))
      with (S (length (new_axis1 3 a1)) :: shape_of 4 (new_axis0 3 p1)).
    change (shape_of 5 (new_axis2 2 (p2 :: a2)))
      with (S (length (new_axis2 2 a2)) :: shape_of 4 (new_axis1 2 p2)).
    cbn [broadcastable].
    rewrite (broadcastable_pair 2 s p1 p2 Hp1 Hp2).
    unfold new_axis1 at 1. unfold new_axis2. rewrite !length_map.
    injection L2 as L2.
    apply andb_true_intro; split; [|reflexivity].
    do 2 (apply orb_true_intro; left).
    apply Nat.eqb_eq. f_equal. symmetry. exact L2. }
  rewrite Hb. do 2 f_equal.
  unfold new_axis1 at 1. unfold new_axis2, pair_baselines_pol.
  rewrite bcast2_same_length
    by (rewrite !length_map; exact (eq_trans L1 (eq_sym L2))).
  rewrite map2_map. apply map2_ext_Forall2.
  eapply Forall2_impl;
    [|apply (Forall2_of_Forall _ _ a1 a2 (eq_trans L1 (eq_sym L2)) F1 F2)].
  intros p1 p2 [Hp1 Hp2].
  exact (bcast2_pair_baselines f 2 s p1 p2 Hp1 Hp2).
Qed.

(** ** Entries of paired arrays *)

Lemma has_shape_amap {A B : Type} (g : A -> B) (n : nat) (s : list nat)
      (a : arr A n) :
  has_shape n a s -> has_shape n (amap g n a) s.
Proof.
  revert s a. induction n as [|n IH]; intros s a H; [exact H|].
  destruct s as [|d s]; [contradiction|]. destruct H as [L F].
  split; [cbn [amap]; now rewrite length_map|].
  cbn [amap]. apply Forall_map. eapply Forall_impl; [|exact F].
  intros x Hx. now apply IH.
Qed.

Lemma has_shape_amap2 {A B C : Type} (g : A -> B -> C) (n : nat)
      (s : list nat) (a : arr A n) (b : arr B n) :
  has_shape n a s -> has_shape n b s -> has_shape n (amap2 g n a b) s.
Proof.
  revert s a b. induction n as [|n IH]; intros s a b Ha Hb; [exact Ha|].
  destruct s as [|d s]; [contradiction|].
  destruct Ha as [La Fa], Hb as [Lb Fb]. cbn [amap2]. split.
  - rewrite map2_length by exact (eq_trans La (eq_sym Lb)). exact La.
  - clear La Lb. revert b Fb.
    induction Fa as [|x a Hx _ IHa]; intros [|y b] Fb; cbn [map2];
      constructor.
    + inversion Fb; subst. now apply IH.
    + inversion Fb; subst. now apply IHa.
Qed.

Lemma has_shape_pair_baselines {A B C : Type} (g : A -> B -> C) (k d : nat)
      (s : list nat) (a1 : arr A (S k)) (a2 : arr B (S k)) :
  has_shape (S k) a1 (d :: s) -> has_shape (S k) a2 (d :: s) ->
  has_shape (S (S k)) (pair_baselines g k a1 a2) (d :: d :: s).
Proof.
  intros [L1 F1] [L2 F2]. unfold pair_baselines. split.
  - now rewrite length_map.
  - apply Forall_map. eapply Forall_impl; [|exact F2].
    intros y Hy. split; [now rewrite length_map|].
    apply Forall_map. eapply Forall_impl; [|exact F1].
    intros x Hx. now apply has_shape_amap2.
Qed.

Lemma at2_amap2 {A B C : Type} (g : A -> B -> C) (da : A) (db : B) (dc : C)
      (T F : nat) (x : arr A 2) (y : arr B 2) (t f : nat) :
  has_shape 2 x [T; F] -> has_shape 2 y [T; F] -> t < T -> f < F ->
  at2 dc (amap2 g 2 x y) t f = g (at2 da x t f) (at2 db y t f).
Proof.
  intros [Lx Fx] [Ly Fy] Ht Hf. unfold at2. cbn in *.
  rewrite (@nth_map2 (list A) (list B) (list C) _ x y t [] [] []) by lia.
  rewrite Forall_forall in Fx, Fy.
  assert (Hx : length (nth t x []) = F)
    by (apply Fx, nth_In; lia).
  assert (Hy : length (nth t y []) = F)
    by (apply Fy, nth_In; lia).
  apply nth_map2; lia.
Qed.

Lemma at4_pair_baselines {A B C : Type} (g : A -> B -> C) (da : A) (db : B)
      (dc : C) (N T F : nat) (a1 : arr A 3) (a2 : arr B 3) (i j t f : nat) :
  has_shape 3 a1 [N; T; F] -> has_shape 3 a2 [N; T; F] ->
  i < N -> j < N -> t < T -> f < F ->
  at4 dc (pair_baselines g 2 a1 a2) i j t f =
  g (at3 da a1 j t f) (at3 db a2 i t f).
Proof.
  intros [L1 F1] [L2 F2] Hi Hj Ht Hf. rewrite Forall_forall in F1, F2.
  assert (H1 : has_shape 2 (nth j a1 []) [T; F]) by (apply F1, nth_In; lia).
  assert (H2 : has_shape 2 (nth i a2 []) [T; F]) by (apply F2, nth_In; lia).
  unfold at4, at3.
  rewrite <- (at2_amap2 g da db dc T F _ _ t f H1 H2 Ht Hf).
  unfold pair_baselines. f_equal.
  cbn in L1, L2 |- *.
  rewrite (@nth_map_in (list (list B)) (list (list (list C))) _ a2 i [] [])
    by lia.
  now rewrite (@nth_map_in (list (list A)) (list (list C)) _ a1 j [] [])
    by lia.
Qed.

Lemma at4_amap_sqrt (a : arr R 4) (i j t f : nat) :
  at4 0%R (amap sqrt 4 a) i j t f = sqrt (at4 0%R a i j t f).
Proof.
  unfold at4, at3, at2. cbn [amap].
  change (@nil (list (list R))) with (map (map (map sqrt)) []) at 1.
  rewrite map_nth.
  change (@nil (list R)) with (map (map sqrt) []) at 1.
  rewrite map_nth.
  change (@nil R) with (map sqrt []) at 1.
  rewrite map_nth.
  rewrite <- sqrt_0 at 1. apply map_nth.
Qed.

(** ** [combine_nsamples] *)

Lemma has_shape_pair_pol {A B C : Type} (g : A -> B -> C) (P N : nat)
      (s : list nat) (a1 : arr A 4) (a2 : arr B 4) :
  has_shape 4 a1 (P :: N :: s) -> has_shape 4 a2 (P :: N :: s) ->
  has_shape 5 (pair_baselines_pol g 2 a1 a2) (P :: N :: N :: s).
Proof.
  intros [L1 F1] [L2 F2]. unfold pair_baselines_pol. split.
  - rewrite map2_length by exact (eq_trans L1 (eq_sym L2)). exact L1.
  - clear L1 L2. revert a2 F2.
    induction F1 as [|x a1 Hx _ IH]; intros [|y a2] F2; cbn [map2];
      constructor; inversion F2; subst.
    + now apply has_shape_pair_baselines.
    + now apply IH.
Qed.

Lemma at5_pair_pol {A B C : Type} (g : A -> B -> C) (da : A) (db : B)
      (dc : C) (P N T F : nat) (a1 : arr A 4) (a2 : arr B 4)
      (p i j t f : nat) :
  has_shape 4 a1 [P; N; T; F] -> has_shape 4 a2 [P; N; T; F] ->
  p < P -> i < N -> j < N -> t < T -> f < F ->
  at5 dc (pair_baselines_pol g 2 a1 a2) p i j t f =
  g (at4 da a1 p j t f) (at4 db a2 p i t f).
Proof.
  intros [L1 F1] [L2 F2] Hp Hi Hj Ht Hf. rewrite Forall_forall in F1, F2.
  assert (H1 : has_shape 3 (nth p a1 []) [N; T; F]) by (apply F1, nth_In; lia).
  assert (H2 : has_shape 3 (nth p a2 []) [N; T; F]) by (apply F2, nth_In; lia).
  unfold at5. unfold at4 at 2 3.
  rewrite <- (at4_pair_baselines g da db dc N T F _ _ i j t f H1 H2
                                 Hi Hj Ht Hf).
  f_equal. unfold pair_baselines_pol. cbn in L1, L2 |- *.
  apply (@nth_map2 (list (list (list A))) (list (list (list B)))
                   (list (list (list (list C)))) _ a1 a2 p [] [] []); lia.
Qed.

Lemma at5_amap_sqrt (a : arr R 5) (p i j t f : nat) :
  at5 0%R (amap sqrt 5 a) p i j t f = sqrt (at5 0%R a p i j t f).
Proof.
  unfold at5. rewrite <- at4_amap_sqrt. f_equal. cbn [amap].
  change (@nil (list (list (list R))))
    with (map (map (map (map sqrt))) []) at 1.
  now rewrite map_nth.
Qed.

Lemma list_eqb_nat_refl (s : list nat) : list_eqb_nat s s = true.
Proof. unfold list_eqb_nat. destruct (list_eq_dec Nat.eq_dec s s); congruence. Qed.

Module CombineFacts.
Import Heap HeapFacts CombineNsamples.

Lemma combine_run_rank3 (h : heap nsarray) (l1 l2 : loc) (s : list nat)
      (a1 a2 : arr R 3) :
  nth_error h l1 = Some (mk_nd 3 a1) -> nth_error h l2 = Some (mk_nd 3 a2) ->
  has_shape 3 a1 s -> has_shape 3 a2 s ->
  combine_nsamples l1 (Some l2) h =
  (Ok (length (h ++ [mk_nd 4 (pair_baselines Rmult 2 a1 a2)])),
   (h ++ [mk_nd 4 (pair_baselines Rmult 2 a1 a2)])
     ++ [mk_nd 4 (amap sqrt 4 (pair_baselines Rmult 2 a1 a2))]).
Proof.
  intros H1 H2 S1 S2. unfold combine_nsamples.
  rewrite (bind_ok _ _ _ _ _ (load_ok _ _ _ H1)).
  rewrite (bind_ok _ _ h h l2) by reflexivity.
  rewrite (bind_ok _ _ _ _ _ (load_ok _ _ _ H2)).
  unfold shape. cbn [projT1 projT2 mk_nd].
  rewrite (has_shape_shape_of 3 s a1 a2 S1 S2), list_eqb_nat_refl.
  cbn [negb rank projT1 Nat.eqb mk_nd].
  erewrite bind_ok;
    [|eapply (op2_ok _ _ _ _ _ _ _ H1 H2);
      cbn [idx_None_s_s idx_s_None_s_s mk_nd rbind]; unfold np_mul;
      exact (pair_rank3 Rmult s a1 a2 S1 S2)].
  eapply op1_ok; [apply lookup_new|reflexivity].
Qed.

Lemma combine_run_rank4 (h : heap nsarray) (l1 l2 : loc) (s : list nat)
      (a1 a2 : arr R 4) :
  nth_error h l1 = Some (mk_nd 4 a1) -> nth_error h l2 = Some (mk_nd 4 a2) ->
  has_shape 4 a1 s -> has_shape 4 a2 s ->
  combine_nsamples l1 (Some l2) h =
  (Ok (length (h ++ [mk_nd 5 (pair_baselines_pol Rmult 2 a1 a2)])),
   (h ++ [mk_nd 5 (pair_baselines_pol Rmult 2 a1 a2)])
     ++ [mk_nd 5 (amap sqrt 5 (pair_baselines_pol Rmult 2 a1 a2))]).
Proof.
  intros H1 H2 S1 S2. unfold combine_nsamples.
  rewrite (bind_ok _ _ _ _ _ (load_ok _ _ _ H1)).
  rewrite (bind_ok _ _ h h l2) by reflexivity.
  rewrite (bind_ok _ _ _ _ _ (load_ok _ _ _ H2)).
  unfold shape. cbn [projT1 projT2 mk_nd].
  rewrite (has_shape_shape_of 4 s a1 a2 S1 S2), list_eqb_nat_refl.
  cbn [negb rank projT1 Nat.eqb mk_nd].
  erewrite bind_ok;
    [|eapply (op2_ok _ _ _ _ _ _ _ H1 H2);
      cbn [idx_s_None_s_s idx_s_s_None_s_s mk_nd rbind]; unfold np_mul;
      exact (pair_rank4 Rmult s a1 a2 S1 S2)].
  eapply op1_ok; [apply lookup_new|reflexivity].
Qed.

(** Omitting the second argument is passing a copy made by the caller. *)
Lemma combine_default_is_copy (h : heap nsarray) (l1 : loc) :
  combine_nsamples l1 None h =
  bind (op1 np_copy l1) (fun c => combine_nsamples l1 (Some c)) h.
Proof.
  destruct (nth_error h l1) as [n1|] eqn:E.
  - rewrite (bind_ok _ _ _ _ _ (op1_ok np_copy h l1 n1 n1 E eq_refl)).
    unfold combine_nsamples.
    rewrite (bind_ok _ _ _ _ _ (load_ok _ _ _ E)).
    rewrite (bind_ok _ _ _ _ _ (op1_ok np_copy h l1 n1 n1 E eq_refl)).
    rewrite (bind_ok _ _ _ _ _ (load_ok _ _ _ (lookup_old h [n1] l1 n1 E))).
    now rewrite (bind_ok _ _ (h ++ [n1]) (h ++ [n1]) (length h))
      by reflexivity.
  - rewrite (bind_raise _ _ _ _ _ (op1_fail np_copy h l1 E)).
    unfold combine_nsamples.
    now rewrite (bind_raise _ _ _ _ _ (load_fail h l1 E)).
Qed.

Lemma combine_allocates_only (l1 : loc) (l2 : option loc) :
  allocates_only (combine_nsamples l1 l2).
Proof.
  unfold combine_nsamples.
  repeat first
    [ apply allocates_only_bind; [|intros ?]
    | apply allocates_only_if
    | solve [auto with heap]
    | destruct l2 ].
Qed.

Lemma outcome_new (h : heap nsarray) (o : nsarray) :
  outcome (Ok (length h), h ++ [o]) = Ok (Some o).
Proof. unfold outcome. cbn [fst snd]. now rewrite lookup_new. Qed.

Lemma ns01_has_shape : has_shape 3 ns01 [2; 1; 1].
Proof. cbn. repeat constructor. Qed.

Lemma ns01_nonneg (i t f : nat) : (0 <= at3 0%R ns01 i t f)%R.
Proof.
  unfold at3, at2, ns01.
  destruct i as [|[|[|i]]], t as [|[|t]], f as [|[|f]]; cbn; lra.
Qed.

(** C4, as stated, fails: on two baselines with counts 0 and 1 the result
    is a rank-4 array, not the rank-3 input, and its entry for the baseline
    pair (0, 1) is 0 where the input's baseline 1 holds 1. *)
Lemma combine_nsamples_same_not_input :
  (forall i t f, (0 <= at3 0%R ns01 i t f)%R) /\
  outcome (combine_nsamples 0 (Some 0) [mk_nd 3 ns01]) =
    Ok (Some (mk_nd 4 ns01_out)) /\
  outcome (combine_nsamples 0 (Some 0) [mk_nd 3 ns01]) <>
    Ok (Some (mk_nd 3 ns01)) /\
  at4 0%R ns01_out 0 1 0 0 <> at3 0%R ns01 1 0 0 /\
  at4 0%R ns01_out 1 0 0 0 <> at3 0%R ns01 1 0 0.
Proof.
  assert (E : outcome (combine_nsamples 0 (Some 0) [mk_nd 3 ns01]) =
              Ok (Some (mk_nd 4 ns01_out))) by reflexivity.
  split; [exact ns01_nonneg|]. split; [exact E|]. split.
  - rewrite E. intros H.
    assert (H' : projT1 (mk_nd 4 ns01_out) = projT1 (mk_nd 3 ns01))
      by congruence.
    discriminate H'.
  - unfold at4, at3, at2, ns01_out, ns01. cbn [nth].
    rewrite Rmult_0_r, Rmult_0_l, sqrt_0. split; lra.
Qed.

(** C4, amended: [combine_nsamples(n, n)] holds, for every pair of baselines
    [(i, j)], the elementwise geometric mean of baselines [j] and [i] of
    [n]; where [n] is non-negative its entries for the pairs [(i, i)] are
    those of baseline [i] of [n].  For rank 3, and for rank 4 polarization
    by polarization. *)
Theorem combine_nsamples_same_geometric_mean :
  (forall (h : heap nsarray) (l : loc) (N T F : nat) (n : arr R 3),
      nth_error h l = Some (mk_nd 3 n) ->
      has_shape 3 n [N; T; F] ->
      (forall i t f, 0 <= at3 0%R n i t f)%R ->
      exists out : arr R 4,
        outcome (combine_nsamples l (Some l) h) = Ok (Some (mk_nd 4 out)) /\
        has_shape 4 out [N; N; T; F] /\
        forall i j t f, i < N -> j < N -> t < T -> f < F ->
          at4 0%R out i j t f = sqrt (at3 0%R n j t f * at3 0%R n i t f) /\
          at4 0%R out i i t f = at3 0%R n i t f)
  /\
  (forall (h : heap nsarray) (l : loc) (P N T F : nat) (n : arr R 4),
      nth_error h l = Some (mk_nd 4 n) ->
      has_shape 4 n [P; N; T; F] ->
      (forall p i t f, 0 <= at4 0%R n p i t f)%R ->
      exists out : arr R 5,
        outcome (combine_nsamples l (Some l) h) = Ok (Some (mk_nd 5 out)) /\
        has_shape 5 out [P; N; N; T; F] /\
        forall p i j t f, p < P -> i < N -> j < N -> t < T -> f < F ->
          at5 0%R out p i j t f = sqrt (at4 0%R n p j t f * at4 0%R n p i t f) /\
          at5 0%R out p i i t f = at4 0%R n p i t f).
Proof.
  split.
  - intros h l N T F n Hl Hs Hpos.
    exists (amap sqrt 4 (pair_baselines Rmult 2 n n)).
    rewrite (combine_run_rank3 h l l [N; T; F] n n Hl Hl Hs Hs), outcome_new.
    split; [reflexivity|]. split.
    + apply has_shape_amap. now apply has_shape_pair_baselines.
    + intros i j t f Hi Hj Ht Hf. rewrite !at4_amap_sqrt.
      rewrite (at4_pair_baselines Rmult 0%R 0%R 0%R N T F n n i j t f)
        by assumption.
      rewrite (at4_pair_baselines Rmult 0%R 0%R 0%R N T F n n i i t f)
        by assumption.
      split; [reflexivity|]. apply sqrt_square, Hpos.
  - intros h l P N T F n Hl Hs Hpos.
    exists (amap sqrt 5 (pair_baselines_pol Rmult 2 n n)).
    rewrite (combine_run_rank4 h l l [P; N; T; F] n n Hl Hl Hs Hs),
      outcome_new.
    split; [reflexivity|]. split.
    + apply has_shape_amap. now apply has_shape_pair_pol.
    + intros p i j t f Hp Hi Hj Ht Hf. rewrite !at5_amap_sqrt.
      rewrite (at5_pair_pol Rmult 0%R 0%R 0%R P N T F n n p i j t f)
        by assumption.
      rewrite (at5_pair_pol Rmult 0%R 0%R 0%R P N T F n n p i i t f)
        by assumption.
      split; [reflexivity|]. apply sqrt_square, Hpos.
Qed.

(** The theorem on the two baselines with counts 0 and 1. *)
Lemma combine_nsamples_same_geometric_mean_witness :
  exists out : arr R 4,
    outcome (combine_nsamples 0 (Some 0) [mk_nd 3 ns01]) =
      Ok (Some (mk_nd 4 out)) /\
    has_shape 4 out [2; 2; 1; 1] /\
    forall i j t f, i < 2 -> j < 2 -> t < 1 -> f < 1 ->
      at4 0%R out i j t f = sqrt (at3 0%R ns01 j t f * at3 0%R ns01 i t f) /\
      at4 0%R out i i t f = at3 0%R ns01 i t f.
Proof.
  exact (proj1 combine_nsamples_same_geometric_mean
               [mk_nd 3 ns01] 0 2 1 1 ns01 eq_refl ns01_has_shape
               ns01_nonneg).
Defined.

End CombineFacts.

(** ** [delay_transform]: the transform of one array *)

Module DelayFacts.
Import Cplx Units NumPy Heap HeapFacts DelayTransform.

Lemma Cscal_1 (z : C) : Cscal z 1 = z.
Proof. destruct z as [x y]. unfold Cscal. cbn. f_equal; ring. Qed.

Lemma length_fft_row (xs : list C) : length (fft_row xs) = length xs.
Proof. unfold fft_row. now rewrite length_map, length_seq. Qed.

Lemma length_fftshift_row {X : Type} (xs : list X) :
  length (fftshift_row xs) = length xs.
Proof.
  unfold fftshift_row. rewrite length_app, length_skipn, length_firstn.
  pose proof (Nat.Div0.div_le_upper_bound (length xs) 2 (length xs)). lia.
Qed.

Lemma length_taper_row (w : list R) (row : list C) :
  length row = length w -> length (taper_row w row) = length row.
Proof. intros H. unfold taper_row. now apply map2_length. Qed.

Lemma length_spec_row (w : list R) (df : R) (row : list C) :
  length row = length w -> length (spec_row w df row) = length row.
Proof.
  intros H. unfold spec_row.
  now rewrite length_map, length_fftshift_row, length_fft_row,
    length_taper_row.
Qed.

(** The extent of the last axis, as the source reads it. *)
Lemma nfreqs_rank3 {A : Type} (x : arr A 3) (B T F : nat) :
  has_shape 3 x [B; T; F] ->
  exists nf, last_axis (shape_of 3 x) = Ok nf /\
             broadcastable (shape_of 3 x) [1; 1; nf] = true /\
             (0 < B -> 0 < T -> nf = F).
Proof.
  intros [L Fx]. destruct x as [|[|r p] x].
  - exists 0. split; [reflexivity|split; [reflexivity|]].
    intros HB _. cbn in L. lia.
  - exists 0. split; [reflexivity|split; [cbn; now rewrite !orb_true_r|]].
    intros _ HT. pose proof (Forall_inv Fx) as [Lp _]. cbn in Lp. lia.
  - exists (length r). split; [destruct r; reflexivity|]. split.
    + destruct r; cbn; now rewrite ?Nat.eqb_refl, !orb_true_r.
    + intros _ _. pose proof (Forall_inv Fx) as [_ Fp].
      exact (proj1 (Forall_inv Fp)).
Qed.

Lemma rows_rank3 {A : Type} (x : arr A 3) (B T F : nat) (plane : arr A 2)
      (row : arr A 1) :
  has_shape 3 x [B; T; F] -> In plane x -> In row plane ->
  length row = F /\ 0 < B /\ 0 < T.
Proof.
  intros [L Fx] Hp Hr. rewrite Forall_forall in Fx.
  destruct (Fx plane Hp) as [Lp Fp]. rewrite Forall_forall in Fp.
  destruct (Fp row Hr) as [Lr _]. split; [exact Lr|].
  destruct x; [destruct Hp|]. destruct plane; [destruct Hr|].
  cbn in L, Lp. lia.
Qed.

Lemma taper_rank3 (w : list R) (x : arr C 3) (u : option Unit)
      (B T F nf : nat) :
  has_shape 3 x [B; T; F] ->
  broadcastable (shape_of 3 x) [1; 1; nf] = true ->
  (0 < B -> 0 < T -> nf = F) -> length w = nf ->
  mul_real_array (mk_nd 2 [w]) (mkQ (mk_nd 3 x) u) =
  Ok (mkQ (mk_nd 3 (map (map (taper_row w)) x)) u).
Proof.
  intros Hx Hb Hnf Hw. unfold mul_real_array. cbn [q_data q_unit].
  assert (E : np_binop Cscal (mk_nd 3 x) (mk_nd 2 [w]) =
              if broadcastable (shape_of 3 x) (1 :: 1 :: shape_of 1 w)
              then Ok (mk_nd 3 (bcast2 Cscal 3 x [[w]]))
              else Raise (ValueError broadcast_msg)) by reflexivity.
  rewrite E, shape_of_rank1, Hw, Hb. cbn [rbind]. do 3 f_equal.
  etransitivity; [exact (bcast2_singleton_r Cscal 2 x [w])|].
  apply map_ext_in. intros plane Hp.
  etransitivity; [exact (bcast2_singleton_r Cscal 1 plane w)|].
  apply map_ext_in. intros row Hr.
  destruct (rows_rank3 x B T F plane row Hx Hp Hr) as [Lr [HB HT]].
  etransitivity; [apply (bcast2_same_length Cscal 0 row w)|reflexivity].
  rewrite Hw, (Hnf HB HT). exact Lr.
Qed.

Lemma has_shape_rows3 (g : list C -> list C) (x : arr C 3) (B T F : nat) :
  has_shape 3 x [B; T; F] ->
  (forall row, length row = F -> length (g row) = F) ->
  has_shape 3 (map (map g) x) [B; T; F].
Proof.
  intros [L Fx] Hg. split; [now rewrite length_map|].
  apply Forall_map. revert Fx. apply Forall_impl. intros plane [Lp Fp].
  split; [now rewrite length_map|].
  apply Forall_map. revert Fp. apply Forall_impl. intros row [Lr _].
  split; [now apply Hg|]. apply Forall_forall. intros z _. reflexivity.
Qed.

(** [np.fft.fft] on an array without empty axis. *)
Lemma np_fft_rank3 (y : arr C 3) (u : option Unit) (B T F : nat) :
  has_shape 3 y [B; T; F] -> 0 < B -> 0 < T -> 0 < F ->
  np_fft (mkQ (mk_nd 3 y) u) = Ok (mkQ (mk_nd 3 (map (map fft_row) y)) u).
Proof.
  intros Hy HB HT HF. unfold np_fft. cbn [q_data q_unit mk_nd].
  rewrite (has_shape_pos_shape_of 3 [B; T; F] y Hy)
    by (repeat constructor; assumption).
  cbn [last_axis rev app rbind]. destruct F; [lia|]. reflexivity.
Qed.

Lemma transform_pure3 (w : list R) (df : R) (unit u : option Unit)
      (x : arr C 3) (B T F : nat) :
  has_shape 3 x [B; T; F] -> 0 < B -> 0 < T -> 0 < F -> length w = F ->
  exists o1 o2 o3 o4,
    mul_real_array (mk_nd 2 [w]) (mkQ (mk_nd 3 x) u) = Ok o1 /\
    np_fft o1 = Ok o2 /\ np_fftshift o2 = Ok o3 /\
    mul_quantity df per_s o3 = Ok o4 /\
    mul_unit unit o4 =
      Ok (mkQ (mk_nd 3 (delay_rows3 w df x)) (Some (delay_unit u unit))).
Proof.
  intros Hx HB HT HF Hw.
  destruct (nfreqs_rank3 x B T F Hx) as [nf [_ [Hb Hnf]]].
  rewrite (Hnf HB HT) in Hb.
  assert (Ht : has_shape 3 (map (map (taper_row w)) x) [B; T; F]).
  { apply has_shape_rows3; [exact Hx|]. intros row Lr.
    rewrite length_taper_row; congruence. }
  do 4 eexists.
  split; [exact (taper_rank3 w x u B T F F Hx Hb (fun _ _ => eq_refl) Hw)|].
  split; [exact (np_fft_rank3 _ u B T F Ht HB HT HF)|].
  split; [reflexivity|]. split; [reflexivity|].
  unfold delay_rows3, spec_row.
  destruct unit as [u0|]; destruct u as [u'|]; cbn; do 3 f_equal.
  - rewrite !map_map. apply map_ext. intros plane.
    rewrite !map_map. reflexivity.
  - rewrite !map_map. apply map_ext. intros plane.
    rewrite !map_map. reflexivity.
  - rewrite !map_map. apply map_ext. intros plane.
    rewrite !map_map. apply map_ext. intros row.
    rewrite !map_map. apply map_ext. intros z. apply Cscal_1.
  - rewrite !map_map. apply map_ext. intros plane.
    rewrite !map_map. apply map_ext. intros row.
    rewrite !map_map. apply map_ext. intros z. apply Cscal_1.
Qed.

(** The five statements that transform one array, run on a heap. *)
Lemma transform_chain {X : Type} (k : loc -> M qarray X) (h : heap qarray)
      (l : loc) (win : ndarray R) (dfu : Unit) (dfv df : R)
      (unit : option Unit) (o o1 o2 o3 o4 o5 : qarray) :
  nth_error h l = Some o ->
  mul_real_array win o = Ok o1 -> np_fft o1 = Ok o2 ->
  np_fftshift o2 = Ok o3 -> convert dfu per_s dfv = Ok df ->
  mul_quantity df per_s o3 = Ok o4 -> mul_unit unit o4 = Ok o5 ->
  bind (op1 (mul_real_array win) l) (fun tapered =>
  bind (op1 np_fft tapered) (fun d =>
  bind (op1 np_fftshift d) (fun d =>
  bind (lift (convert dfu per_s dfv)) (fun df =>
  bind (op1 (mul_quantity df per_s) d) (fun d =>
  bind (op1 (mul_unit unit) d) k))))) h =
  k (length (h ++ [o1; o2; o3; o4])) ((h ++ [o1; o2; o3; o4]) ++ [o5]).
Proof.
  intros Hl H1 H2 H3 Hc H4 H5.
  rewrite (bind_ok _ _ _ _ _ (op1_ok _ _ _ _ _ Hl H1)).
  rewrite (bind_ok _ _ _ _ _ (op1_ok _ _ _ _ _ (lookup_new h o1) H2)).
  rewrite (bind_ok _ _ _ _ _ (op1_ok _ _ _ _ _ (lookup_new _ o2) H3)).
  rewrite Hc. rewrite (bind_ok _ _ _ _ df) by reflexivity.
  rewrite (bind_ok _ _ _ _ _ (op1_ok _ _ _ _ _ (lookup_new _ o3) H4)).
  rewrite (bind_ok _ _ _ _ _ (op1_ok _ _ _ _ _ (lookup_new _ o4) H5)).
  rewrite <- !app_assoc. reflexivity.
Qed.

Lemma has_shape_delay_rows3 (w : list R) (df : R) (x : arr C 3)
      (B T F : nat) :
  has_shape 3 x [B; T; F] -> (0 < B -> 0 < T -> length w = F) ->
  has_shape 3 (delay_rows3 w df x) [B; T; F].
Proof.
  intros Hx Hw. pose proof Hx as [L Fx]. unfold delay_rows3. split.
  - now rewrite length_map.
  - apply Forall_map, Forall_forall. intros plane Hp.
    rewrite Forall_forall in Fx. destruct (Fx plane Hp) as [Lp Fp]. split.
    + now rewrite length_map.
    + apply Forall_map, Forall_forall. intros row Hr.
      destruct (rows_rank3 x B T F plane row Hx Hp Hr) as [Lr [HB HT]].
      split.
      * rewrite length_spec_row; [exact Lr|].
        rewrite (Hw HB HT). exact Lr.
      * apply Forall_forall. intros z _. reflexivity.
Qed.

Lemma Cconj_0 : Cconj (RtoC 0) = RtoC 0.
Proof. unfold Cconj, RtoC. cbn. f_equal. ring. Qed.

Lemma at3_amap_conj (a : arr C 3) (i t f : nat) :
  at3 (RtoC 0) (amap Cconj 3 a) i t f = Cconj (at3 (RtoC 0) a i t f).
Proof.
  unfold at3, at2. cbn [amap].
  transitivity (nth f (map Cconj (nth t (nth i a []) [])) (Cconj (RtoC 0)));
    [|apply map_nth].
  rewrite Cconj_0. f_equal.
  transitivity (nth t (map (map Cconj) (nth i a [])) (map Cconj []));
    [|apply map_nth].
  cbn [map]. f_equal. exact (map_nth (map (map Cconj)) a [] i).
Qed.

Lemma at3_delay_rows3 (w : list R) (df : R) (x : arr C 3) (B T F : nat)
      (i t f : nat) :
  has_shape 3 x [B; T; F] -> i < B -> t < T ->
  at3 (RtoC 0) (delay_rows3 w df x) i t f =
  nth f (spec_row w df (nth t (nth i x []) [])) (RtoC 0).
Proof.
  intros [L Fx] Hi Ht. unfold at3, at2, delay_rows3. f_equal.
  rewrite Forall_forall in Fx.
  assert (Hp : has_shape 2 (nth i x []) [T; F]) by (apply Fx, nth_In; lia).
  destruct Hp as [Lp _]. cbn in L, Lp |- *.
  rewrite (@nth_map_in (list (list C)) (list (list C)) _ x i [] []) by lia.
  now rewrite (@nth_map_in (list C) (list C) _ (nth i x []) t [] []) by lia.
Qed.

Lemma last_axis_cons (a nf : nat) (s : list nat) :
  last_axis s = Ok nf -> last_axis (a :: s) = Ok nf.
Proof.
  unfold last_axis. cbn [rev]. destruct (rev s); [discriminate|].
  intros H. exact H.
Qed.

Lemma nfreqs_rank4 {A : Type} (x : arr A 4) (P B T F : nat) :
  has_shape 4 x [P; B; T; F] ->
  exists nf, last_axis (shape_of 4 x) = Ok nf /\
             broadcastable (shape_of 4 x) [1; 1; 1; nf] = true /\
             (0 < P -> 0 < B -> 0 < T -> nf = F).
Proof.
  intros [L Fx]. destruct x as [|p x].
  - exists 0. split; [reflexivity|split; [reflexivity|]].
    intros HP _ _. cbn in L. lia.
  - destruct (nfreqs_rank3 p B T F (Forall_inv Fx)) as [nf [Hl [Hb HF]]].
    exists nf. split; [|split].
    + change (shape_of 4 (p :: x)) with (S (length x) :: shape_of 3 p).
      now apply last_axis_cons.
    + change (shape_of 4 (p :: x)) with (S (length x) :: shape_of 3 p).
      cbn [broadcastable]. rewrite Hb. cbn. now rewrite !orb_true_r.
    + intros _. exact HF.
Qed.

Lemma rows_rank4 {A : Type} (x : arr A 4) (P B T F : nat) (pol : arr A 3)
      (plane : arr A 2) (row : arr A 1) :
  has_shape 4 x [P; B; T; F] -> In pol x -> In plane pol -> In row plane ->
  length row = F /\ 0 < P /\ 0 < B /\ 0 < T.
Proof.
  intros [L Fx] Hq Hp Hr. rewrite Forall_forall in Fx.
  destruct (rows_rank3 pol B T F plane row (Fx pol Hq) Hp Hr) as [Lr [HB HT]].
  repeat split; try assumption.
  destruct x; [destruct Hq|]. cbn in L. lia.
Qed.

Lemma taper_rank4 (w : list R) (x : arr C 4) (u : option Unit)
      (P B T F nf : nat) :
  has_shape 4 x [P; B; T; F] ->
  broadcastable (shape_of 4 x) [1; 1; 1; nf] = true ->
  (0 < P -> 0 < B -> 0 < T -> nf = F) -> length w = nf ->
  mul_real_array (mk_nd 2 [w]) (mkQ (mk_nd 4 x) u) =
  Ok (mkQ (mk_nd 4 (map (map (map (taper_row w))) x)) u).
Proof.
  intros Hx Hb Hnf Hw. unfold mul_real_array. cbn [q_data q_unit].
  assert (E : np_binop Cscal (mk_nd 4 x) (mk_nd 2 [w]) =
              if broadcastable (shape_of 4 x) (1 :: 1 :: 1 :: shape_of 1 w)
              then Ok (mk_nd 4 (bcast2 Cscal 4 x [[[w]]]))
              else Raise (ValueError broadcast_msg)) by reflexivity.
  rewrite E, shape_of_rank1, Hw, Hb. cbn [rbind]. do 3 f_equal.
  etransitivity; [exact (bcast2_singleton_r Cscal 3 x [[w]])|].
  apply map_ext_in. intros pol Hq.
  etransitivity; [exact (bcast2_singleton_r Cscal 2 pol [w])|].
  apply map_ext_in. intros plane Hp.
  etransitivity; [exact (bcast2_singleton_r Cscal 1 plane w)|].
  apply map_ext_in. intros row Hr.
  destruct (rows_rank4 x P B T F pol plane row Hx Hq Hp Hr)
    as [Lr [HP [HB HT]]].
  etransitivity; [apply (bcast2_same_length Cscal 0 row w)|reflexivity].
  rewrite Hw, (Hnf HP HB HT). exact Lr.
Qed.

Lemma has_shape_rows4 (g : list C -> list C) (x : arr C 4)
      (P B T F : nat) :
  has_shape 4 x [P; B; T; F] ->
  (forall row, length row = F -> length (g row) = F) ->
  has_shape 4 (map (map (map g)) x) [P; B; T; F].
Proof.
  intros [L Fx] Hg. split; [now rewrite length_map|].
  apply Forall_map. revert Fx. apply Forall_impl. intros pol Hp.
  now apply has_shape_rows3.
Qed.

Lemma np_fft_rank4 (y : arr C 4) (u : option Unit) (P B T F : nat) :
  has_shape 4 y [P; B; T; F] -> 0 < P -> 0 < B -> 0 < T -> 0 < F ->
  np_fft (mkQ (mk_nd 4 y) u) =
  Ok (mkQ (mk_nd 4 (map (map (map fft_row)) y)) u).
Proof.
  intros Hy HP HB HT HF. unfold np_fft. cbn [q_data q_unit mk_nd].
  rewrite (has_shape_pos_shape_of 4 [P; B; T; F] y Hy)
    by (repeat constructor; assumption).
  cbn [last_axis rev app rbind]. destruct F; [lia|]. reflexivity.
Qed.

Lemma transform_pure4 (w : list R) (df : R) (unit u : option Unit)
      (x : arr C 4) (P B T F : nat) :
  has_shape 4 x [P; B; T; F] -> 0 < P -> 0 < B -> 0 < T -> 0 < F ->
  length w = F ->
  exists o1 o2 o3 o4,
    mul_real_array (mk_nd 2 [w]) (mkQ (mk_nd 4 x) u) = Ok o1 /\
    np_fft o1 = Ok o2 /\ np_fftshift o2 = Ok o3 /\
    mul_quantity df per_s o3 = Ok o4 /\
    mul_unit unit o4 =
      Ok (mkQ (mk_nd 4 (delay_rows4 w df x)) (Some (delay_unit u unit))).
Proof.
  intros Hx HP HB HT HF Hw.
  destruct (nfreqs_rank4 x P B T F Hx) as [nf [_ [Hb Hnf]]].
  rewrite (Hnf HP HB HT) in Hb.
  assert (Ht : has_shape 4 (map (map (map (taper_row w))) x) [P; B; T; F]).
  { apply has_shape_rows4; [exact Hx|]. intros row Lr.
    rewrite length_taper_row; congruence. }
  do 4 eexists.
  split; [exact (taper_rank4 w x u P B T F F Hx Hb (fun _ _ _ => eq_refl) Hw)|].
  split; [exact (np_fft_rank4 _ u P B T F Ht HP HB HT HF)|].
  split; [reflexivity|]. split; [reflexivity|].
  unfold delay_rows4, delay_rows3, spec_row.
  destruct unit as [u0|]; destruct u as [u'|]; cbn; do 3 f_equal.
  - rewrite !map_map. apply map_ext. intros pol.
    rewrite !map_map. apply map_ext. intros plane.
    rewrite !map_map. reflexivity.
  - rewrite !map_map. apply map_ext. intros pol.
    rewrite !map_map. apply map_ext. intros plane.
    rewrite !map_map. reflexivity.
  - rewrite !map_map. apply map_ext. intros pol.
    rewrite !map_map. apply map_ext. intros plane.
    rewrite !map_map. apply map_ext. intros row.
    rewrite !map_map. apply map_ext. intros z. apply Cscal_1.
  - rewrite !map_map. apply map_ext. intros pol.
    rewrite !map_map. apply map_ext. intros plane.
    rewrite !map_map. apply map_ext. intros row.
    rewrite !map_map. apply map_ext. intros z. apply Cscal_1.
Qed.

Lemma has_shape_delay_rows4 (w : list R) (df : R) (x : arr C 4)
      (P B T F : nat) :
  has_shape 4 x [P; B; T; F] -> (0 < P -> 0 < B -> 0 < T -> length w = F) ->
  has_shape 4 (delay_rows4 w df x) [P; B; T; F].
Proof.
  intros [L Fx] Hw. unfold delay_rows4. split.
  - now rewrite length_map.
  - apply Forall_map, Forall_forall. intros pol Hq.
    rewrite Forall_forall in Fx.
    apply has_shape_delay_rows3; [exact (Fx pol Hq)|].
    apply Hw. destruct x; [destruct Hq|]. cbn in L. lia.
Qed.

Lemma at4_amap_conj (a : arr C 4) (p i t f : nat) :
  at4 (RtoC 0) (amap Cconj 4 a) p i t f = Cconj (at4 (RtoC 0) a p i t f).
Proof.
  unfold at4. rewrite <- at3_amap_conj. f_equal. cbn [amap].
  exact (map_nth (map (map (map Cconj))) a [] p).
Qed.

Lemma at4_delay_rows4 (w : list R) (df : R) (x : arr C 4) (P B T F : nat)
      (p i t f : nat) :
  has_shape 4 x [P; B; T; F] -> p < P -> i < B -> t < T ->
  at4 (RtoC 0) (delay_rows4 w df x) p i t f =
  nth f (spec_row w df (nth t (nth i (nth p x []) []) [])) (RtoC 0).
Proof.
  intros [L Fx] Hp Hi Ht. rewrite Forall_forall in Fx.
  assert (Hq : has_shape 3 (nth p x []) [B; T; F]) by (apply Fx, nth_In; lia).
  rewrite <- (at3_delay_rows3 w df _ B T F i t f Hq Hi Ht).
  unfold at4, delay_rows4. f_equal. cbn in L |- *.
  now rewrite (@nth_map_in (list (list (list C))) (list (list (list C))) _
                           x p [] []) by lia.
Qed.

Section Run.
Variable blackmanharris : nat -> list R.

Lemma delay_run_rank3 (h : heap qarray) (l1 l2 : loc) (x1 x2 : arr C 3)
        (u1 u2 : option Unit) (B T F : nat) (dfv : R) (dfu : Unit)
        (window : option (nat -> list R)) :
    nth_error h l1 = Some (mkQ (mk_nd 3 x1) u1) ->
    nth_error h l2 = Some (mkQ (mk_nd 3 x2) u2) ->
    has_shape 3 x1 [B; T; F] -> has_shape 3 x2 [B; T; F] ->
    0 < B -> 0 < T -> 0 < F ->
    is_equivalent dfu per_s = true ->
    (forall n, length (or_default blackmanharris window n) = n) ->
    outcome (delay_transform blackmanharris l1 (Some l2)
                             (Some (PyQuantity dfv dfu)) window h) =
    Ok (Some (mkQ
      (mk_nd 4 (pair_baselines Cmul 2
         (amap Cconj 3
            (delay_rows3 (or_default blackmanharris window F)
                         (dfv * factor dfu per_s)%R x1))
         (delay_rows3 (or_default blackmanharris window F)
                      (dfv * factor dfu per_s)%R x2)))
      (Some (umul (delay_unit u1 u1) (delay_unit u2 u1))))).
  Proof.
    intros H1 H2 S1 S2 HB HT HF Hu Hw.
    assert (Hnf : last_axis (shape_of 3 x1) = Ok F).
    { rewrite (has_shape_pos_shape_of 3 [B; T; F] x1 S1)
        by (repeat constructor; assumption).
      reflexivity. }
    assert (Hc : convert dfu per_s dfv = Ok (dfv * factor dfu per_s)%R)
      by (unfold convert; now rewrite Hu).
    set (w := or_default blackmanharris window F).
    set (df := (dfv * factor dfu per_s)%R).
    destruct (transform_pure3 w df u1 u1 x1 B T F S1 HB HT HF (Hw F))
      as [a1 [a2 [a3 [a4 [A1 [A2 [A3 [A4 A5]]]]]]]].
    destruct (transform_pure3 w df u1 u2 x2 B T F S2 HB HT HF (Hw F))
      as [b1 [b2 [b3 [b4 [B1 [B2 [B3 [B4 B5]]]]]]]].
    unfold delay_transform. cbn [or_default].
    rewrite (bind_ok _ _ _ _ _ (load_ok _ _ _ H1)).
    rewrite (bind_ok _ _ h h l2) by reflexivity.
    rewrite (bind_ok _ _ _ _ _ (load_ok _ _ _ H2)).
    unfold shape. cbn [q_data q_unit projT1 projT2 mk_nd].
    rewrite (has_shape_shape_of 3 _ x2 x1 S2 S1), list_eqb_nat_refl.
    cbn [negb]. rewrite Hnf.
    rewrite (bind_ok _ _ h h F) by reflexivity.
    unfold reshape_1_n. rewrite (Hw F), Nat.eqb_refl.
    rewrite (bind_ok _ _ h h (mk_nd 2 [or_default blackmanharris window F]))
      by reflexivity.
    fold w.
    rewrite (transform_chain _ h l1 (mk_nd 2 [w]) dfu dfv df u1 _
               a1 a2 a3 a4 _ H1 A1 A2 A3 Hc A4 A5).
    set (D1 := mkQ (mk_nd 3 (delay_rows3 w df x1))
                   (Some (delay_unit u1 u1))).
    set (h1 := (h ++ [a1; a2; a3; a4]) ++ [D1]).
    assert (H2' : nth_error h1 l2 = Some (mkQ (mk_nd 3 x2) u2))
      by (unfold h1; now do 2 apply lookup_old).
    rewrite (transform_chain _ h1 l2 (mk_nd 2 [w]) dfu dfv df u1 _
               b1 b2 b3 b4 _ H2' B1 B2 B3 Hc B4 B5).
    set (D2 := mkQ (mk_nd 3 (delay_rows3 w df x2))
                   (Some (delay_unit u2 u1))).
    set (h2 := (h1 ++ [b1; b2; b3; b4]) ++ [D2]).
    cbn [rank projT1 Nat.eqb q_data mk_nd].
    assert (L1 : nth_error h2 (length (h ++ [a1; a2; a3; a4])) = Some D1)
      by (unfold h2, h1; do 2 apply lookup_old; apply lookup_new).
    assert (L2 : nth_error h2 (length (h1 ++ [b1; b2; b3; b4])) = Some D2)
      by (unfold h2; apply lookup_new).
    set (c1 := mkQ (mk_nd 4 (new_axis0 3 (amap Cconj 3 (delay_rows3 w df x1))))
                   (Some (delay_unit u1 u1))).
    rewrite (bind_ok _ _ _ _ _
               (op1_ok _ h2 _ D1 c1 L1 eq_refl)).
    assert (Hw' : 0 < B -> 0 < T -> length w = F)
      by (intros _ _; unfold w; apply Hw).
    erewrite op2_ok;
      [apply outcome_alloc
      |apply lookup_new
      |apply lookup_old; exact L2
      |].
    unfold D2, c1, view, np_mul.
    cbn [q_data q_unit idx_s_None_s_s mk_nd rbind].
    rewrite (pair_rank3 Cmul [B; T; F]);
      [reflexivity
      |apply has_shape_amap; now apply has_shape_delay_rows3
      |now apply has_shape_delay_rows3].
  Qed.
Lemma delay_run_rank4 (h : heap qarray) (l1 l2 : loc) (x1 x2 : arr C 4)
        (u1 u2 : option Unit) (P B T F : nat) (dfv : R) (dfu : Unit)
        (window : option (nat -> list R)) :
    nth_error h l1 = Some (mkQ (mk_nd 4 x1) u1) ->
    nth_error h l2 = Some (mkQ (mk_nd 4 x2) u2) ->
    has_shape 4 x1 [P; B; T; F] -> has_shape 4 x2 [P; B; T; F] ->
    0 < P -> 0 < B -> 0 < T -> 0 < F ->
    is_equivalent dfu per_s = true ->
    (forall n, length (or_default blackmanharris window n) = n) ->
    outcome (delay_transform blackmanharris l1 (Some l2)
                             (Some (PyQuantity dfv dfu)) window h) =
    Ok (Some (mkQ
      (mk_nd 5 (pair_baselines_pol Cmul 2
         (amap Cconj 4
            (delay_rows4 (or_default blackmanharris window F)
                         (dfv * factor dfu per_s)%R x1))
         (delay_rows4 (or_default blackmanharris window F)
                      (dfv * factor dfu per_s)%R x2)))
      (Some (umul (delay_unit u1 u1) (delay_unit u2 u1))))).
  Proof.
    intros H1 H2 S1 S2 HP HB HT HF Hu Hw.
    assert (Hnf : last_axis (shape_of 4 x1) = Ok F).
    { rewrite (has_shape_pos_shape_of 4 [P; B; T; F] x1 S1)
        by (repeat constructor; assumption).
      reflexivity. }
    assert (Hc : convert dfu per_s dfv = Ok (dfv * factor dfu per_s)%R)
      by (unfold convert; now rewrite Hu).
    set (w := or_default blackmanharris window F).
    set (df := (dfv * factor dfu per_s)%R).
    destruct (transform_pure4 w df u1 u1 x1 P B T F S1 HP HB HT HF (Hw F))
      as [a1 [a2 [a3 [a4 [A1 [A2 [A3 [A4 A5]]]]]]]].
    destruct (transform_pure4 w df u1 u2 x2 P B T F S2 HP HB HT HF (Hw F))
      as [b1 [b2 [b3 [b4 [B1 [B2 [B3 [B4 B5]]]]]]]].
    unfold delay_transform. cbn [or_default].
    rewrite (bind_ok _ _ _ _ _ (load_ok _ _ _ H1)).
    rewrite (bind_ok _ _ h h l2) by reflexivity.
    rewrite (bind_ok _ _ _ _ _ (load_ok _ _ _ H2)).
    unfold shape. cbn [q_data q_unit projT1 projT2 mk_nd].
    rewrite (has_shape_shape_of 4 _ x2 x1 S2 S1), list_eqb_nat_refl.
    cbn [negb]. rewrite Hnf.
    rewrite (bind_ok _ _ h h F) by reflexivity.
    unfold reshape_1_n. rewrite (Hw F), Nat.eqb_refl.
    rewrite (bind_ok _ _ h h (mk_nd 2 [or_default blackmanharris window F]))
      by reflexivity.
    fold w.
    rewrite (transform_chain _ h l1 (mk_nd 2 [w]) dfu dfv df u1 _
               a1 a2 a3 a4 _ H1 A1 A2 A3 Hc A4 A5).
    set (D1 := mkQ (mk_nd 4 (delay_rows4 w df x1))
                   (Some (delay_unit u1 u1))).
    set (h1 := (h ++ [a1; a2; a3; a4]) ++ [D1]).
    assert (H2' : nth_error h1 l2 = Some (mkQ (mk_nd 4 x2) u2))
      by (unfold h1; now do 2 apply lookup_old).
    rewrite (transform_chain _ h1 l2 (mk_nd 2 [w]) dfu dfv df u1 _
               b1 b2 b3 b4 _ H2' B1 B2 B3 Hc B4 B5).
    set (D2 := mkQ (mk_nd 4 (delay_rows4 w df x2))
                   (Some (delay_unit u2 u1))).
    set (h2 := (h1 ++ [b1; b2; b3; b4]) ++ [D2]).
    cbn [rank projT1 Nat.eqb q_data mk_nd].
    assert (L1 : nth_error h2 (length (h ++ [a1; a2; a3; a4])) = Some D1)
      by (unfold h2, h1; do 2 apply lookup_old; apply lookup_new).
    assert (L2 : nth_error h2 (length (h1 ++ [b1; b2; b3; b4])) = Some D2)
      by (unfold h2; apply lookup_new).
    set (c1 := mkQ (mk_nd 5 (new_axis1 3 (amap Cconj 4 (delay_rows4 w df x1))))
                   (Some (delay_unit u1 u1))).
    assert (Hc1 : rbind (view idx_s_None_s_s D1) (fun v => Ok (np_conj v))
                  = Ok c1).
    { unfold D1, c1, view, np_conj, new_axis1.
      cbn [q_data q_unit idx_s_None_s_s mk_nd rbind amap].
      do 3 f_equal. unfold new_axis1. rewrite !map_map.
      apply map_ext. intros pol. reflexivity. }
    rewrite (bind_ok _ _ _ _ _ (op1_ok _ h2 _ D1 c1 L1 Hc1)).
    assert (Hw' : 0 < P -> 0 < B -> 0 < T -> length w = F)
      by (intros _ _ _; unfold w; apply Hw).
    erewrite op2_ok;
      [apply outcome_alloc
      |apply lookup_new
      |apply lookup_old; exact L2
      |].
    unfold D2, c1, view, np_mul.
    cbn [q_data q_unit idx_s_s_None_s_s mk_nd rbind].
    rewrite (pair_rank4 Cmul [P; B; T; F]);
      [reflexivity
      |apply has_shape_amap; now apply has_shape_delay_rows4
      |now apply has_shape_delay_rows4].
  Qed.
End Run.

(** An array of rank 3 whose last axis has entries has no empty axis. *)
Lemma shape_rank3_pos {A : Type} (x : arr A 3) (B T F : nat) :
  shape (mk_nd 3 x) = [B; T; F] -> 0 < F -> 0 < B /\ 0 < T.
Proof.
  unfold shape. cbn [mk_nd projT1 projT2]. intros E HF.
  destruct x as [|[|r p] x]; cbn in E; injection E as <- <- <-;
    cbn in *; lia.
Qed.

Lemma shape_rank4_pos {A : Type} (x : arr A 4) (P B T F : nat) :
  shape (mk_nd 4 x) = [P; B; T; F] -> 0 < F -> 0 < P /\ 0 < B /\ 0 < T.
Proof.
  unfold shape. cbn [mk_nd projT1 projT2]. intros E HF.
  destruct x as [|[|[|r p] q] x]; cbn in E; injection E as <- <- <- <-;
    cbn in *; lia.
Qed.

(** C1: for arrays of one shape whose frequency axis has entries and a
    [delta_f] of frequency dimension, [delay_transform] returns the array
    whose entry for the baseline pair [(i, j)] at time [t] is, channel by
    channel, the conjugate of the transform of spectrum [j] of [data_1]
    times the transform of spectrum [i] of [data_2], where the transform of
    a spectrum is: times the taper [window(Nfreqs)], discrete Fourier
    transform, FFT-shift, times [delta_f] in inverse seconds; the unit of a
    transform is the unit of its array times inverse seconds times the unit
    of [data_1].  Rank-3 input (baseline, time, freq) gives shape
    (baseline_1, baseline_2, time, freq); rank-4 input
    (pol, baseline, time, freq) gives
    (pol, baseline_1, baseline_2, time, freq). *)
Theorem delay_transform_cross_power (blackmanharris : nat -> list R) :
  (forall (h : heap qarray) (l1 l2 : loc) (x1 x2 : arr C 3)
          (u1 u2 : option Unit) (B T F : nat) (dfv : R) (dfu : Unit)
          (window : option (nat -> list R)),
      nth_error h l1 = Some (mkQ (mk_nd 3 x1) u1) ->
      nth_error h l2 = Some (mkQ (mk_nd 3 x2) u2) ->
      has_shape 3 x1 [B; T; F] -> has_shape 3 x2 [B; T; F] ->
      shape (mk_nd 3 x1) = [B; T; F] -> 0 < F ->
      is_equivalent dfu per_s = true ->
      (forall n, length (or_default blackmanharris window n) = n) ->
      exists out : arr C 4,
        outcome (delay_transform blackmanharris l1 (Some l2)
                                 (Some (PyQuantity dfv dfu)) window h) =
          Ok (Some (mkQ (mk_nd 4 out)
                        (Some (umul (delay_unit u1 u1)
                                    (delay_unit u2 u1))))) /\
        has_shape 4 out [B; B; T; F] /\
        forall i j t f, i < B -> j < B -> t < T -> f < F ->
          at4 (RtoC 0) out i j t f =
          cmulconj
            (nth f (spec_row (or_default blackmanharris window F)
                             (dfv * factor dfu per_s)%R
                             (nth t (nth j x1 []) [])) (RtoC 0))
            (nth f (spec_row (or_default blackmanharris window F)
                             (dfv * factor dfu per_s)%R
                             (nth t (nth i x2 []) [])) (RtoC 0)))
  /\
  (forall (h : heap qarray) (l1 l2 : loc) (x1 x2 : arr C 4)
          (u1 u2 : option Unit) (P B T F : nat) (dfv : R) (dfu : Unit)
          (window : option (nat -> list R)),
      nth_error h l1 = Some (mkQ (mk_nd 4 x1) u1) ->
      nth_error h l2 = Some (mkQ (mk_nd 4 x2) u2) ->
      has_shape 4 x1 [P; B; T; F] -> has_shape 4 x2 [P; B; T; F] ->
      shape (mk_nd 4 x1) = [P; B; T; F] -> 0 < F ->
      is_equivalent dfu per_s = true ->
      (forall n, length (or_default blackmanharris window n) = n) ->
      exists out : arr C 5,
        outcome (delay_transform blackmanharris l1 (Some l2)
                                 (Some (PyQuantity dfv dfu)) window h) =
          Ok (Some (mkQ (mk_nd 5 out)
                        (Some (umul (delay_unit u1 u1)
                                    (delay_unit u2 u1))))) /\
        has_shape 5 out [P; B; B; T; F] /\
        forall p i j t f, p < P -> i < B -> j < B -> t < T -> f < F ->
          at5 (RtoC 0) out p i j t f =
          cmulconj
            (nth f (spec_row (or_default blackmanharris window F)
                             (dfv * factor dfu per_s)%R
                             (nth t (nth j (nth p x1 []) []) [])) (RtoC 0))
            (nth f (spec_row (or_default blackmanharris window F)
                             (dfv * factor dfu per_s)%R
                             (nth t (nth i (nth p x2 []) []) [])) (RtoC 0))).
Proof.
  split.
  - intros h l1 l2 x1 x2 u1 u2 B T F dfv dfu window H1 H2 S1 S2 E1 HF Hu Hw.
    destruct (shape_rank3_pos x1 B T F E1 HF) as [HB HT].
    pose proof (delay_run_rank3 blackmanharris h l1 l2 x1 x2 u1 u2 B T F dfv
                  dfu window H1 H2 S1 S2 HB HT HF Hu Hw) as E.
    set (w := or_default blackmanharris window) in *.
    set (df := (dfv * factor dfu per_s)%R) in *.
    assert (Hw' : 0 < B -> 0 < T -> length (w F) = F)
      by (intros _ _; apply Hw).
    eexists. split; [exact E|]. split.
    + apply has_shape_pair_baselines;
        [apply has_shape_amap|]; now apply has_shape_delay_rows3.
    + intros i j t f Hi Hj Ht Hf.
      rewrite (at4_pair_baselines Cmul (RtoC 0) (RtoC 0) (RtoC 0) B T F
                                  _ _ i j t f);
        try assumption;
        [|apply has_shape_amap; now apply has_shape_delay_rows3
         |now apply has_shape_delay_rows3].
      rewrite at3_amap_conj.
      rewrite (at3_delay_rows3 _ _ x1 B T F j t f S1 Hj Ht).
      rewrite (at3_delay_rows3 _ _ x2 B T F i t f S2 Hi Ht).
      reflexivity.
  - intros h l1 l2 x1 x2 u1 u2 P B T F dfv dfu window H1 H2 S1 S2 E1 HF Hu Hw.
    destruct (shape_rank4_pos x1 P B T F E1 HF) as [HP [HB HT]].
    pose proof (delay_run_rank4 blackmanharris h l1 l2 x1 x2 u1 u2 P B T F
                  dfv dfu window H1 H2 S1 S2 HP HB HT HF Hu Hw) as E.
    set (w := or_default blackmanharris window) in *.
    set (df := (dfv * factor dfu per_s)%R) in *.
    assert (Hw' : 0 < P -> 0 < B -> 0 < T -> length (w F) = F)
      by (intros _ _ _; apply Hw).
    eexists. split; [exact E|]. split.
    + apply has_shape_pair_pol;
        [apply has_shape_amap|]; now apply has_shape_delay_rows4.
    + intros p i j t f Hp Hi Hj Ht Hf.
      rewrite (at5_pair_pol Cmul (RtoC 0) (RtoC 0) (RtoC 0) P B T F
                            _ _ p i j t f);
        try assumption;
        [|apply has_shape_amap; now apply has_shape_delay_rows4
         |now apply has_shape_delay_rows4].
      rewrite at4_amap_conj.
      rewrite (at4_delay_rows4 _ _ x1 P B T F p j t f S1 Hp Hj Ht).
      rewrite (at4_delay_rows4 _ _ x2 P B T F p i t f S2 Hp Hi Ht).
      reflexivity.
Qed.

Lemma delay_allocates_only (blackmanharris : nat -> list R) (l1 : loc)
      (l2 : option loc) (delta_f : option pyscalar)
      (window : option (nat -> list R)) :
  allocates_only (delay_transform blackmanharris l1 l2 delta_f window).
Proof.
  unfold delay_transform.
  apply allocates_only_bind; [auto with heap|]. intros d1.
  destruct (or_default (PyQuantity 1 Hz) delta_f); [auto with heap..|].
  repeat first
    [ apply allocates_only_bind; [|intros ?]
    | apply allocates_only_if
    | solve [auto with heap]
    | destruct l2 ].
Qed.

(** Omitting [data_2_array] has the outcome of passing a copy made by the
    caller. *)
Lemma delay_default_is_copy (blackmanharris : nat -> list R)
      (h : heap qarray) (l1 : loc) (delta_f : option pyscalar)
      (window : option (nat -> list R)) :
  outcome (delay_transform blackmanharris l1 None delta_f window h) =
  outcome (bind (op1 np_copy l1)
                (fun c => delay_transform blackmanharris l1 (Some c)
                                          delta_f window) h).
Proof.
  destruct (nth_error h l1) as [d1|] eqn:E.
  - rewrite (bind_ok _ _ _ _ _ (op1_ok np_copy h l1 d1 d1 E eq_refl)).
    unfold delay_transform.
    rewrite (bind_ok _ _ _ _ _ (load_ok _ _ _ E)).
    rewrite (bind_ok _ _ _ _ _ (load_ok _ _ _ (lookup_old h [d1] l1 d1 E))).
    destruct (or_default (PyQuantity 1 Hz) delta_f); [reflexivity..|].
    rewrite (bind_ok _ _ _ _ _ (op1_ok np_copy h l1 d1 d1 E eq_refl)).
    now rewrite (bind_ok _ _ (h ++ [d1]) (h ++ [d1]) (length h))
      by reflexivity.
  - rewrite (bind_raise _ _ _ _ _ (op1_fail np_copy h l1 E)).
    unfold delay_transform.
    now rewrite (bind_raise _ _ _ _ _ (load_fail h l1 E)).
Qed.

Lemma delay_wrong_dimension (blackmanharris : nat -> list R) (l1 : loc)
      (l2 : option loc) (dfv : R) (dfu : Unit)
      (window : option (nat -> list R)) :
  is_equivalent dfu per_s = false ->
  always_raises (delay_transform blackmanharris l1 l2
                                 (Some (PyQuantity dfv dfu)) window).
Proof.
  intros Hu. unfold delay_transform. cbn [or_default].
  assert (Hc : convert dfu per_s dfv = Raise UnitConversionError)
    by (unfold convert; now rewrite Hu).
  rewrite Hc. cbn [lift].
  repeat first
    [ apply always_raises_raise
    | apply always_raises_bind_l; apply always_raises_raise
    | apply always_raises_if; [apply always_raises_raise|]
    | apply always_raises_bind_r; intros ? ].
Qed.

Lemma outcome_returns (rh : result loc * heap qarray) (o : option qarray) :
  outcome rh = Ok o -> exists l, fst rh = Ok l.
Proof.
  unfold outcome. destruct (fst rh) as [l|e]; [|discriminate].
  intros _. now exists l.
Qed.

(** Where a call with some [delta_f] returns, the same call with a
    [delta_f] of another dimension gets as far as the conversion of
    [delta_f]: it has made the copy of the first array, if the second is
    omitted, and the tapered, the transformed and the shifted first array,
    and raises there. *)
Lemma delay_wrong_dimension_converted (blackmanharris : nat -> list R)
      (h : heap qarray) (l1 : loc) (l2 : option loc) (dfv gv : R)
      (dfu gu : Unit) (window : option (nat -> list R)) (l : loc) :
  is_equivalent dfu per_s = false ->
  fst (delay_transform blackmanharris l1 l2 (Some (PyQuantity gv gu))
                       window h) = Ok l ->
  exists ext,
    delay_transform blackmanharris l1 l2 (Some (PyQuantity dfv dfu))
                    window h = (Raise UnitConversionError, h ++ ext) /\
    length ext = match l2 with Some _ => 3 | None => 4 end.
Proof.
  intros Hu H. unfold delay_transform in *. cbn [or_default] in *.
  apply bind_inv in H as (d1 & h1 & E1 & H).
  rewrite (bind_ok _ _ _ _ _ E1). apply load_inv in E1 as [-> E1].
  cbv beta iota in H |- *.
  apply bind_inv in H as (c & h2 & E2 & H).
  rewrite (bind_ok _ _ _ _ _ E2).
  assert (P2 : exists pre, h2 = h ++ pre /\
                           length pre = match l2 with
                                        | Some _ => 0
                                        | None => 1
                                        end).
  { destruct l2 as [l2|].
    - injection E2 as _ <-. exists []. now rewrite app_nil_r.
    - apply op1_inv in E2 as [o' ->]. now exists [o']. }
  destruct P2 as [pre [-> Lpre]]. clear E2.
  apply bind_inv in H as (d2 & h3 & E3 & H).
  rewrite (bind_ok _ _ _ _ _ E3). apply load_inv in E3 as [-> E3].
  destruct (negb (list_eqb_nat (shape (q_data d2)) (shape (q_data d1))));
    [discriminate H|].
  apply bind_inv in H as (nf & h4 & E4 & H).
  rewrite (bind_ok _ _ _ _ _ E4). apply lift_inv in E4 as [-> _].
  apply bind_inv in H as (win & h5 & E5 & H).
  rewrite (bind_ok _ _ _ _ _ E5). apply lift_inv in E5 as [-> _].
  apply bind_inv in H as (t1 & h6 & E6 & H).
  rewrite (bind_ok _ _ _ _ _ E6). apply op1_inv in E6 as [o1 ->].
  apply bind_inv in H as (f1 & h7 & E7 & H).
  rewrite (bind_ok _ _ _ _ _ E7). apply op1_inv in E7 as [o2 ->].
  apply bind_inv in H as (s1 & h8 & E8 & H).
  rewrite (bind_ok _ _ _ _ _ E8). apply op1_inv in E8 as [o3 ->].
  unfold convert. rewrite Hu. cbn [lift]. unfold bind at 1, raise.
  exists (pre ++ [o1; o2; o3]). split.
  - now rewrite <- !app_assoc.
  - rewrite length_app, Lpre. destruct l2; reflexivity.
Qed.

(** A call on rectangular arrays of rank 3 whose frequency axis has entries
    returns, also with the second array omitted. *)
Lemma delay_returns_rank3 (blackmanharris : nat -> list R)
      (h : heap qarray) (l1 : loc) (l2 : option loc) (x1 x2 : arr C 3)
      (u1 u2 : option Unit) (B T F : nat)
      (window : option (nat -> list R)) :
  nth_error h l1 = Some (mkQ (mk_nd 3 x1) u1) ->
  (forall l, l2 = Some l -> nth_error h l = Some (mkQ (mk_nd 3 x2) u2) /\
                            has_shape 3 x2 [B; T; F]) ->
  has_shape 3 x1 [B; T; F] -> shape (mk_nd 3 x1) = [B; T; F] -> 0 < F ->
  (forall n, length (or_default blackmanharris window n) = n) ->
  exists l, fst (delay_transform blackmanharris l1 l2
                                 (Some (PyQuantity 1 Hz)) window h) = Ok l.
Proof.
  intros H1 H2 S1 E1 HF Hw.
  destruct (shape_rank3_pos x1 B T F E1 HF) as [HB HT].
  destruct l2 as [l2|].
  - destruct (H2 l2 eq_refl) as [H2' S2].
    eapply outcome_returns.
    exact (delay_run_rank3 blackmanharris h l1 l2 x1 x2 u1 u2 B T F 1%R Hz
             window H1 H2' S1 S2 HB HT HF eq_refl Hw).
  - eapply outcome_returns. rewrite delay_default_is_copy.
    rewrite (bind_ok _ _ _ _ _ (op1_ok np_copy h l1 _ _ H1 eq_refl)).
    exact (delay_run_rank3 blackmanharris (h ++ [mkQ (mk_nd 3 x1) u1])
             l1 (length h) x1 x1 u1 u1 B T F 1%R Hz window
             (lookup_old _ _ _ _ H1) (lookup_new _ _) S1 S1 HB HT HF
             eq_refl Hw).
Qed.

Lemma delay_returns_rank4 (blackmanharris : nat -> list R)
      (h : heap qarray) (l1 : loc) (l2 : option loc) (x1 x2 : arr C 4)
      (u1 u2 : option Unit) (P B T F : nat)
      (window : option (nat -> list R)) :
  nth_error h l1 = Some (mkQ (mk_nd 4 x1) u1) ->
  (forall l, l2 = Some l -> nth_error h l = Some (mkQ (mk_nd 4 x2) u2) /\
                            has_shape 4 x2 [P; B; T; F]) ->
  has_shape 4 x1 [P; B; T; F] -> shape (mk_nd 4 x1) = [P; B; T; F] ->
  0 < F ->
  (forall n, length (or_default blackmanharris window n) = n) ->
  exists l, fst (delay_transform blackmanharris l1 l2
                                 (Some (PyQuantity 1 Hz)) window h) = Ok l.
Proof.
  intros H1 H2 S1 E1 HF Hw.
  destruct (shape_rank4_pos x1 P B T F E1 HF) as [HP [HB HT]].
  destruct l2 as [l2|].
  - destruct (H2 l2 eq_refl) as [H2' S2].
    eapply outcome_returns.
    exact (delay_run_rank4 blackmanharris h l1 l2 x1 x2 u1 u2 P B T F 1%R Hz
             window H1 H2' S1 S2 HP HB HT HF eq_refl Hw).
  - eapply outcome_returns. rewrite delay_default_is_copy.
    rewrite (bind_ok _ _ _ _ _ (op1_ok np_copy h l1 _ _ H1 eq_refl)).
    exact (delay_run_rank4 blackmanharris (h ++ [mkQ (mk_nd 4 x1) u1])
             l1 (length h) x1 x1 u1 u1 P B T F 1%R Hz window
             (lookup_old _ _ _ _ H1) (lookup_new _ _) S1 S1 HP HB HT HF
             eq_refl Hw).
Qed.

(** C5, as stated, fails: with [delta_f] absent the call returns, and with a
    [delta_f] in metres it raises a unit conversion error only after three
    arrays have been computed. *)
Lemma delay_transform_delta_f_absent_or_metres :
  (exists o, outcome (delay_transform ones_window 0 (Some 0) None None
                                      one_heap) = Ok (Some o)) /\
  (exists a1 a2 a3,
      delay_transform ones_window 0 (Some 0) (Some (PyQuantity 1 metre)) None
                      one_heap =
      (Raise UnitConversionError, one_heap ++ [a1; a2; a3])).
Proof.
  assert (S : has_shape 3 one_spectrum [1; 1; 1])
    by (cbn; repeat constructor).
  assert (E : outcome (delay_transform ones_window 0 (Some 0)
                                       (Some (PyQuantity 1 Hz)) None
                                       one_heap) = _)
    by exact (delay_run_rank3 ones_window one_heap 0 0 one_spectrum
                one_spectrum None None 1 1 1 1%R Hz None eq_refl eq_refl
                S S Nat.lt_0_1 Nat.lt_0_1 Nat.lt_0_1 eq_refl
                (fun n => repeat_length 1%R n)).
  split.
  - eexists. exact E.
  - destruct (outcome_returns _ _ E) as [l Hl].
    destruct (delay_wrong_dimension_converted ones_window one_heap 0
                (Some 0) 1%R 1%R metre Hz None l eq_refl Hl)
      as [[|a1 [|a2 [|a3 [|a4 ext]]]] [Eq L]]; try discriminate L.
    now exists a1, a2, a3.
Qed.

(** C5, amended: a [delta_f] that is supplied and is not a [Quantity] makes
    the call fail with the [ValueError] of the validation, before anything
    is computed (the heap is as it was).  An absent [delta_f] is 1 Hz.  A
    [Quantity] of another dimension makes every call fail.  Where the call
    would return with a [delta_f] of frequency dimension, as it does on
    arrays of one shape of rank 3 or 4 whose frequency axis has entries,
    with the second array given or omitted, the failure is a unit
    conversion error, raised once the first array has been tapered,
    transformed and shifted (three new arrays, after the copy of the first
    array when the second is omitted). *)
Theorem delay_transform_delta_f_validation (blackmanharris : nat -> list R) :
  (forall (h : heap qarray) (l1 : loc) (l2 : option loc)
          (window : option (nat -> list R)) (d : pyscalar) (o : qarray),
      nth_error h l1 = Some o ->
      (d = PyNone \/ exists x, d = PyFloat x) ->
      delay_transform blackmanharris l1 l2 (Some d) window h =
      (Raise (ValueError delta_f_msg), h))
  /\
  (forall (h : heap qarray) (l1 : loc) (l2 : option loc)
          (window : option (nat -> list R)),
      delay_transform blackmanharris l1 l2 None window h =
      delay_transform blackmanharris l1 l2 (Some (PyQuantity 1 Hz)) window h)
  /\
  (forall (l1 : loc) (l2 : option loc) (dfv : R) (dfu : Unit)
          (window : option (nat -> list R)),
      is_equivalent dfu per_s = false ->
      always_raises (delay_transform blackmanharris l1 l2
                                     (Some (PyQuantity dfv dfu)) window))
  /\
  (forall (h : heap qarray) (l1 : loc) (l2 : option loc) (dfv gv : R)
          (dfu gu : Unit) (window : option (nat -> list R)) (l : loc),
      is_equivalent dfu per_s = false ->
      fst (delay_transform blackmanharris l1 l2 (Some (PyQuantity gv gu))
                           window h) = Ok l ->
      exists ext,
        delay_transform blackmanharris l1 l2 (Some (PyQuantity dfv dfu))
                        window h = (Raise UnitConversionError, h ++ ext) /\
        length ext = match l2 with Some _ => 3 | None => 4 end)
  /\
  (forall (h : heap qarray) (l1 : loc) (l2 : option loc) (x1 x2 : arr C 3)
          (u1 u2 : option Unit) (B T F : nat) (dfv : R) (dfu : Unit)
          (window : option (nat -> list R)),
      nth_error h l1 = Some (mkQ (mk_nd 3 x1) u1) ->
      (forall l, l2 = Some l ->
                 nth_error h l = Some (mkQ (mk_nd 3 x2) u2) /\
                 has_shape 3 x2 [B; T; F]) ->
      has_shape 3 x1 [B; T; F] -> shape (mk_nd 3 x1) = [B; T; F] ->
      0 < F ->
      (forall n, length (or_default blackmanharris window n) = n) ->
      is_equivalent dfu per_s = false ->
      exists ext,
        delay_transform blackmanharris l1 l2 (Some (PyQuantity dfv dfu))
                        window h = (Raise UnitConversionError, h ++ ext) /\
        length ext = match l2 with Some _ => 3 | None => 4 end)
  /\
  (forall (h : heap qarray) (l1 : loc) (l2 : option loc) (x1 x2 : arr C 4)
          (u1 u2 : option Unit) (P B T F : nat) (dfv : R) (dfu : Unit)
          (window : option (nat -> list R)),
      nth_error h l1 = Some (mkQ (mk_nd 4 x1) u1) ->
      (forall l, l2 = Some l ->
                 nth_error h l = Some (mkQ (mk_nd 4 x2) u2) /\
                 has_shape 4 x2 [P; B; T; F]) ->
      has_shape 4 x1 [P; B; T; F] -> shape (mk_nd 4 x1) = [P; B; T; F] ->
      0 < F ->
      (forall n, length (or_default blackmanharris window n) = n) ->
      is_equivalent dfu per_s = false ->
      exists ext,
        delay_transform blackmanharris l1 l2 (Some (PyQuantity dfv dfu))
                        window h = (Raise UnitConversionError, h ++ ext) /\
        length ext = match l2 with Some _ => 3 | None => 4 end).
Proof.
  split; [|split; [|split; [|split; [|split]]]].
  - intros h l1 l2 window d o Hl Hd. unfold delay_transform.
    rewrite (bind_ok _ _ _ _ _ (load_ok _ _ _ Hl)).
    destruct Hd as [->|[x ->]]; reflexivity.
  - reflexivity.
  - intros. now apply delay_wrong_dimension.
  - intros h l1 l2 dfv gv dfu gu window l Hu H.
    exact (delay_wrong_dimension_converted blackmanharris h l1 l2 dfv gv
             dfu gu window l Hu H).
  - intros h l1 l2 x1 x2 u1 u2 B T F dfv dfu window H1 H2 S1 E1 HF Hw Hu.
    destruct (delay_returns_rank3 blackmanharris h l1 l2 x1 x2 u1 u2 B T F
                window H1 H2 S1 E1 HF Hw) as [l Hl].
    exact (delay_wrong_dimension_converted blackmanharris h l1 l2 dfv 1%R
             dfu Hz window l Hu Hl).
  - intros h l1 l2 x1 x2 u1 u2 P B T F dfv dfu window H1 H2 S1 E1 HF Hw Hu.
    destruct (delay_returns_rank4 blackmanharris h l1 l2 x1 x2 u1 u2 P B T F
                window H1 H2 S1 E1 HF Hw) as [l Hl].
    exact (delay_wrong_dimension_converted blackmanharris h l1 l2 dfv 1%R
             dfu Hz window l Hu Hl).
Qed.

(** The theorem for a plain float given as [delta_f]. *)
Lemma delay_transform_delta_f_validation_witness :
  delay_transform ones_window 0 None (Some (PyFloat 1)) None one_heap =
  (Raise (ValueError delta_f_msg), one_heap).
Proof.
  apply (proj1 (delay_transform_delta_f_validation ones_window)
               one_heap 0 None None (PyFloat 1)
               (mkQ (mk_nd 3 one_spectrum) None)).
  - reflexivity.
  - right. exists 1%R. reflexivity.
Defined.

Lemma one_spectrum_has_shape : has_shape 3 one_spectrum [1; 1; 1].
Proof. cbn. repeat constructor. Qed.

(** The theorem on one spectrum of one channel, paired with itself. *)
Lemma delay_transform_cross_power_witness :
  exists out : arr C 4,
    outcome (delay_transform ones_window 0 (Some 0)
                             (Some (PyQuantity 1 Hz)) None one_heap) =
      Ok (Some (mkQ (mk_nd 4 out)
                    (Some (umul (delay_unit None None)
                                (delay_unit None None))))) /\
    has_shape 4 out [1; 1; 1; 1] /\
    forall i j t f, i < 1 -> j < 1 -> t < 1 -> f < 1 ->
      at4 (RtoC 0) out i j t f =
      cmulconj
        (nth f (spec_row (or_default ones_window None 1)
                         (1 * factor Hz per_s)%R
                         (nth t (nth j one_spectrum []) [])) (RtoC 0))
        (nth f (spec_row (or_default ones_window None 1)
                         (1 * factor Hz per_s)%R
                         (nth t (nth i one_spectrum []) [])) (RtoC 0)).
Proof.
  apply (proj1 (delay_transform_cross_power ones_window)
               one_heap 0 0 one_spectrum one_spectrum None None 1 1 1
               1%R Hz None).
  - reflexivity.
  - reflexivity.
  - exact one_spectrum_has_shape.
  - exact one_spectrum_has_shape.
  - reflexivity.
  - lia.
  - reflexivity.
  - intros n. apply repeat_length.
Defined.

End DelayFacts.

(** ** The optional second array *)

Module CopyOnOmit.
Import Heap HeapFacts.

(** C7: with the second array omitted, [delay_transform] and
    [combine_nsamples] have the outcome they have when the caller passes a
    copy of the first array, and neither changes an object that exists
    before the call. *)
Theorem second_array_defaults_to_copy :
  (forall (blackmanharris : nat -> list R) (h : heap DelayTransform.qarray)
          (x : loc) (delta_f : option Units.pyscalar)
          (window : option (nat -> list R)),
      outcome (DelayTransform.delay_transform blackmanharris x None delta_f
                                              window h) =
      outcome (bind (op1 DelayTransform.np_copy x)
                    (fun c => DelayTransform.delay_transform
                                blackmanharris x (Some c) delta_f window) h))
  /\
  (forall (h : heap CombineNsamples.nsarray) (x : loc),
      outcome (CombineNsamples.combine_nsamples x None h) =
      outcome (bind (op1 CombineNsamples.np_copy x)
                    (fun c => CombineNsamples.combine_nsamples x (Some c)) h))
  /\
  (forall (blackmanharris : nat -> list R) (h : heap DelayTransform.qarray)
          (x : loc) (y : option loc)
          (delta_f : option Units.pyscalar)
          (window : option (nat -> list R)) (l : loc),
      l < length h ->
      nth_error (snd (DelayTransform.delay_transform blackmanharris x y
                                                     delta_f window h)) l =
      nth_error h l)
  /\
  (forall (h : heap CombineNsamples.nsarray) (x : loc) (y : option loc)
          (l : loc),
      l < length h ->
      nth_error (snd (CombineNsamples.combine_nsamples x y h)) l =
      nth_error h l).
Proof.
  split; [|split; [|split]].
  - intros. apply DelayFacts.delay_default_is_copy.
  - intros. now rewrite CombineFacts.combine_default_is_copy.
  - intros. apply allocates_only_preserves;
      [apply DelayFacts.delay_allocates_only|assumption].
  - intros. apply allocates_only_preserves;
      [apply CombineFacts.combine_allocates_only|assumption].
Qed.

(** The theorem on the two-baseline sample counts, passed once. *)
Lemma second_array_defaults_to_copy_witness :
  0 < length [mk_nd 3 CombineNsamples.ns01] /\
  nth_error (snd (CombineNsamples.combine_nsamples
                    0 None [mk_nd 3 CombineNsamples.ns01])) 0 =
  nth_error [mk_nd 3 CombineNsamples.ns01] 0.
Proof.
  split; [cbn; lia|].
  apply (proj2 (proj2 (proj2 second_array_defaults_to_copy))). cbn. lia.
Defined.

End CopyOnOmit.

(** ** Broadcasting at any rank *)

Lemma cast_rank_refl {A : Type} (n : nat) (e : n = n) (a : arr A n) :
  cast_rank e a = a.
Proof. unfold cast_rank. now rewrite (UIP_refl_nat n e). Qed.

Lemma cast_rank_cons {A : Type} (n m : nat) (e' : n = m) (e : S n = S m)
      (x : arr A n) :
  cast_rank e ([x] : arr A (S n)) = [cast_rank e' x].
Proof. destruct e'. now rewrite (cast_rank_refl (S n) e). Qed.

Lemma cast_lift_rank {A : Type} (d : nat) (e : d + 1 = S d) (t : list A) :
  cast_rank e (lift_rank d 1 t) = lift1 d t.
Proof.
  induction d as [|d IH].
  - apply (cast_rank_refl 1).
  - cbn [lift_rank lift1].
    rewrite (cast_rank_cons (d + 1) (S d) (eq_add_S _ _ e) e).
    now rewrite IH.
Qed.

Lemma np_binop_same_rank {A B C : Type} (f : A -> B -> C) (n : nat)
      (a : arr A n) (b : arr B n) :
  np_binop f (mk_nd n a) (mk_nd n b) =
  if broadcastable (shape_of n a) (shape_of n b)
  then Ok (mk_nd n (bcast2 f n a b))
  else Raise (ValueError broadcast_msg).
Proof.
  unfold np_binop, mk_nd.
  destruct (le_lt_dec n n) as [_|H]; [|lia].
  destruct (Nat.eq_dec (n - n + n) n) as [e|H]; [|lia].
  revert e. rewrite Nat.sub_diag. intros e. cbn [lift_rank].
  now rewrite cast_rank_refl.
Qed.

Lemma np_binop_rank1_l {A B C : Type} (f : A -> B -> C) (n : nat)
      (t : list A) (a : arr B (S n)) :
  np_binop f (mk_nd 1 t) (mk_nd (S n) a) =
  if broadcastable (shape_of (S n) (lift1 n t)) (shape_of (S n) a)
  then Ok (mk_nd (S n) (bcast2 f (S n) (lift1 n t) a))
  else Raise (ValueError broadcast_msg).
Proof.
  destruct n as [|k]; [exact (np_binop_same_rank f 1 t a)|].
  unfold np_binop, mk_nd.
  destruct (le_lt_dec (S (S k)) 1) as [H|_]; [lia|].
  destruct (Nat.eq_dec (S (S k) - 1 + 1) (S (S k))) as [e|H]; [|lia].
  revert e. cbn [Nat.sub]. intros e.
  now rewrite (cast_lift_rank (S k) e t).
Qed.

Lemma shape_of_lift1 {A : Type} (n : nat) (t : list A) :
  shape_of (S n) (lift1 n t) = repeat 1 n ++ [length t].
Proof.
  induction n as [|n IH]; [apply shape_of_rank1|].
  change (shape_of (S (S n)) (lift1 (S n) t))
    with (1 :: shape_of (S n) (lift1 n t)).
  now rewrite IH.
Qed.

Lemma broadcastable_ones (s : list nat) (F : nat) :
  broadcastable (repeat 1 (length s) ++ [F]) (s ++ [F]) = true.
Proof.
  induction s as [|d s IH]; cbn.
  - now rewrite Nat.eqb_refl.
  - rewrite IH. now rewrite orb_true_r.
Qed.

Lemma has_shape_tail {A : Type} (n d : nat) (s : list nat)
      (a : arr A (S n)) (y : arr A n) :
  has_shape (S n) a (d :: s) -> In y a -> has_shape n y s.
Proof. intros [_ F] Hy. rewrite Forall_forall in F. now apply F. Qed.

Lemma bcast2_lift1 {A B C : Type} (f : A -> B -> C) (s : list nat)
      (t : list A) (a : arr B (S (length s))) :
  has_shape (S (length s)) a (s ++ [length t]) ->
  bcast2 f (S (length s)) (lift1 (length s) t) a =
  along_last (fun row => map2 f t row) (length s) a.
Proof.
  induction s as [|d s IH]; intros H.
  - destruct H as [L _]. cbn [length lift1 along_last].
    now apply (bcast2_same_length f 0 t a).
  - cbn [length lift1 along_last].
    change (bcast2 f (S (S (length s))) [lift1 (length s) t] a)
      with (map (fun y => bcast2 f (S (length s)) (lift1 (length s) t) y) a).
    apply map_ext_in. intros y Hy. apply IH.
    exact (has_shape_tail _ d _ a y H Hy).
Qed.

Lemma has_shape_along_last {A B : Type} (g : list A -> list B)
      (s : list nat) (F : nat) (a : arr A (S (length s))) :
  (forall row, length row = F -> length (g row) = F) ->
  has_shape (S (length s)) a (s ++ [F]) ->
  has_shape (S (length s)) (along_last g (length s) a) (s ++ [F]).
Proof.
  intros Hg. induction s as [|d s IH]; intros H.
  - destruct H as [L _]. cbn [length along_last]. split.
    + now apply Hg.
    + apply Forall_forall. intros x _. reflexivity.
  - destruct H as [L Fa]. cbn [length along_last]. split.
    + now rewrite length_map.
    + apply Forall_map. eapply Forall_impl; [|exact Fa].
      intros y Hy. now apply IH.
Qed.

(** Elementwise maps compose. *)
Lemma amap_amap {A B C : Type} (g : B -> C) (f : A -> B) (n : nat)
      (a : arr A n) :
  amap g n (amap f n a) = amap (fun x => g (f x)) n a.
Proof.
  revert a. induction n as [|n IH]; intros a; [reflexivity|].
  cbn [amap]. rewrite map_map. apply map_ext. exact IH.
Qed.

Lemma along_last_amap {A B C : Type} (g : list B -> list C) (f : A -> B)
      (n : nat) (a : arr A (S n)) :
  along_last g n (amap f (S n) a) = along_last (fun row => g (map f row)) n a.
Proof.
  revert a. induction n as [|n IH]; intros a; [reflexivity|].
  cbn [along_last]. change (amap f (S (S n)) a) with (map (amap f (S n)) a).
  rewrite map_map. apply map_ext. exact IH.
Qed.

Lemma along_last_ext_in {A B : Type} (g1 g2 : list A -> list B) (F : nat)
      (s : list nat) (a : arr A (S (length s))) :
  (forall row, length row = F -> g1 row = g2 row) ->
  has_shape (S (length s)) a (s ++ [F]) ->
  along_last g1 (length s) a = along_last g2 (length s) a.
Proof.
  intros Hg. induction s as [|d s IH]; intros H.
  - destruct H as [L _]. cbn [length along_last]. now apply Hg.
  - cbn [length along_last]. apply map_ext_in. intros y Hy. apply IH.
    exact (has_shape_tail _ d _ a y H Hy).
Qed.

Lemma along_last_ext_aforall {A B : Type} (P : A -> Prop)
      (g1 g2 : list A -> list B) (F : nat) (s : list nat)
      (a : arr A (S (length s))) :
  (forall row, length row = F -> Forall P row -> g1 row = g2 row) ->
  has_shape (S (length s)) a (s ++ [F]) -> aforall P (S (length s)) a ->
  along_last g1 (length s) a = along_last g2 (length s) a.
Proof.
  intros Hg. induction s as [|d s IH]; intros H HP.
  - destruct H as [L _]. cbn [length along_last]. now apply Hg.
  - cbn [length along_last]. apply map_ext_in. intros y Hy. apply IH.
    + exact (has_shape_tail _ d _ a y H Hy).
    + change (Forall (aforall P (S (length s))) a) in HP.
      rewrite Forall_forall in HP. now apply HP.
Qed.

(** ** The noise model, the noise generator and the unit helper *)

Module NoiseFacts.
Import Cplx Units Noise.
Local Open Scope R_scope.

(** C6: a call of [calculate_noise_power] in which [inttime], [freqs] or
    [trcvr] is not a [Quantity] raises [ValueError], whatever the other
    arguments are; each argument has a check of its own, made in the order
    [inttime], [freqs], [trcvr], and the three messages differ. *)
Theorem calculate_noise_power_rejects_plain :
  (forall nsamples freqs inttime trcvr,
      is_quantity inttime = false ->
      calculate_noise_power nsamples freqs inttime trcvr =
      Raise (ValueError inttime_msg))
  /\
  (forall nsamples freqs inttime trcvr,
      is_quantity inttime = true -> is_quantity_vec freqs = false ->
      calculate_noise_power nsamples freqs inttime trcvr =
      Raise (ValueError freqs_msg))
  /\
  (forall nsamples freqs inttime trcvr,
      is_quantity inttime = true -> is_quantity_vec freqs = true ->
      is_quantity trcvr = false ->
      calculate_noise_power nsamples freqs inttime trcvr =
      Raise (ValueError trcvr_msg))
  /\
  (forall nsamples freqs inttime trcvr,
      is_quantity inttime = false \/ is_quantity_vec freqs = false \/
      is_quantity trcvr = false ->
      is_ValueError (calculate_noise_power nsamples freqs inttime trcvr))
  /\
  inttime_msg <> freqs_msg /\ inttime_msg <> trcvr_msg /\
  freqs_msg <> trcvr_msg.
Proof.
  repeat split; try discriminate.
  - intros ns fr it tr H. destruct it; try discriminate; reflexivity.
  - intros ns fr it tr Hi Hf.
    destruct it; try discriminate. destruct fr; try discriminate.
    reflexivity.
  - intros ns fr it tr Hi Hf Ht.
    destruct it; try discriminate. destruct fr; try discriminate.
    destruct tr; try discriminate; reflexivity.
  - intros ns fr it tr H.
    destruct it, fr, tr; cbn in H |- *; try exact I;
      destruct H as [H|[H|H]]; discriminate.
Qed.

(** The theorem for plain numbers in all three places. *)
Lemma calculate_noise_power_rejects_plain_witness :
  calculate_noise_power (mk_nd 1 [1]) (PlainVec [1; 2]) (PyFloat 1)
                        (PyFloat 1) =
  Raise (ValueError inttime_msg).
Proof.
  apply (proj1 calculate_noise_power_rejects_plain). reflexivity.
Defined.

Lemma noise_unit_is_kelvin :
  is_equivalent (udiv K (usqrt (umul per_s second))) K = true /\
  u_scale (udiv K (usqrt (umul per_s second))) = 1.
Proof.
  split; [reflexivity|].
  cbn [u_scale udiv usqrt umul K per_s second].
  rewrite Rmult_1_r, sqrt_1. lra.
Qed.

Lemma noise_entry (nu rv df ts n : R) (fu ru : Unit) :
  np_divide
    (option_map (fun x => x * factor K K)
       (option_map (fun T => T + rv * factor ru K)
          (option_map (Rmult 180)
                      (np_power (nu * factor fu GHz / 0.18) (- 2.55)))))
    (np_sqrt (df * ts * n)) =
  radiometer_np (nu * factor fu GHz) (rv * factor ru K) df ts n.
Proof.
  unfold radiometer_np, T_sys_np.
  destruct (np_power (nu * factor fu GHz / 0.18) (- 2.55)) as [p|];
    [|reflexivity].
  cbn [option_map]. change (factor K K) with (1 / 1).
  replace (1 / 1) with 1 by lra. now rewrite Rmult_1_r.
Qed.

(** On a positive frequency and a positive product under the root, numpy's
    value is the real number of the description. *)
Lemma radiometer_np_finite (nu r cw it n : R) :
  0 < nu -> 0 < cw * it * n ->
  radiometer_np nu r cw it n = Some (radiometer nu r cw it n).
Proof.
  intros Hnu Hp.
  unfold radiometer_np, T_sys_np, np_power, np_sqrt, np_divide, radiometer,
    T_sys.
  destruct (Rlt_dec 0 (nu / 0.18)) as [_|N];
    [|exfalso; apply N; apply Rdiv_lt_0_compat; lra].
  destruct (Rle_dec 0 (cw * it * n)) as [_|N]; [|exfalso; lra].
  cbn [option_map].
  destruct (Req_EM_T (sqrt (cw * it * n)) 0) as [E|_]; [|reflexivity].
  exfalso. pose proof (sqrt_lt_R0 _ Hp). lra.
Qed.

Lemma calculate_noise_power_run (s : list nat) (ns : arr R (S (length s)))
      (f0 f1 : R) (rest : list R) (fu tu ru : Unit) (tv rv : R) :
  is_equivalent fu Hz = true -> is_equivalent tu second = true ->
  is_equivalent ru K = true ->
  has_shape (S (length s)) ns (s ++ [length (f0 :: f1 :: rest)]) ->
  Forall (lt 0%nat) s ->
  calculate_noise_power (mk_nd (S (length s)) ns)
                        (QuantityVec (f0 :: f1 :: rest) fu)
                        (PyQuantity tv tu) (PyQuantity rv ru) =
  Ok (mkRQ
        (mk_nd (S (length s))
           (along_last
              (fun row =>
                 map2 (fun nu n =>
                         radiometer_np (nu * factor fu GHz)
                                       (rv * factor ru K)
                                       ((f1 - f0) * factor fu per_s)
                                       (tv * factor tu second) n)
                      (f0 :: f1 :: rest) row)
              (length s) ns))
        (udiv K (usqrt (umul per_s second)))).
Proof.
  intros Hf Ht Hr Hs Hpos.
  set (fs := f0 :: f1 :: rest) in *.
  assert (HG : is_equivalent fu GHz = true) by exact Hf.
  assert (HP : is_equivalent fu per_s = true) by exact Hf.
  unfold calculate_noise_power, convert_all, convert_all_np, convert, mk_nd.
  rewrite HG, Hr, HP, Ht. cbn [rbind].
  change (first (np_diff fs)) with (Ok (f1 - f0)). cbn [rbind].
  change (is_equivalent K K) with true. cbn iota. cbn [rbind].
  set (Tsys_K := map (option_map (fun x => x * factor K K)) _).
  set (root := amap np_sqrt _ _).
  assert (LT : length Tsys_K = length fs)
    by (unfold Tsys_K; now rewrite !length_map).
  assert (Hroot : has_shape (S (length s)) root (s ++ [length Tsys_K])).
  { rewrite LT. unfold root. now do 2 apply has_shape_amap. }
  change (existT (arr npfloat) 1%nat Tsys_K) with (mk_nd 1 Tsys_K).
  change (existT (arr npfloat) (S (length s)) root)
    with (mk_nd (S (length s)) root).
  rewrite np_binop_rank1_l, shape_of_lift1.
  rewrite (has_shape_pos_shape_of _ _ root Hroot).
  2:{ apply Forall_app. split; [exact Hpos|].
      constructor; [|constructor]. rewrite LT. cbn. lia. }
  rewrite broadcastable_ones. cbn [rbind].
  rewrite (bcast2_lift1 np_divide s Tsys_K root Hroot).
  unfold mk_nd. do 3 f_equal.
  unfold root. rewrite amap_amap, along_last_amap.
  apply (along_last_ext_in _ _ (length fs) s ns); [|exact Hs].
  intros row _. unfold Tsys_K. rewrite !map_map.
  rewrite (map2_map np_divide _ _ fs row).
  apply map2_ext. intros nu n. apply noise_entry.
Qed.

(** C2: with one sample count and two channels the result has two
    entries, one per channel: it has not the shape of [nsamples], which the
    docstring of the function promises and the claim states. *)
Lemma calculate_noise_power_shape_differs :
  exists d u,
    calculate_noise_power (mk_nd 1 [1]) (QuantityVec [1; 2] GHz)
                          (PyQuantity 1 second) (PyQuantity 0 K) =
    Ok (mkRQ d u) /\
    shape d = [2%nat] /\ shape (mk_nd 1 [1]) = [1%nat].
Proof.
  do 2 eexists. split; [reflexivity|]. split; reflexivity.
Qed.

(** Where the last axis of [nsamples] has one entry per channel, the
    frequencies are positive and so is what stands under the root, the
    result holds, at every channel of every row of [nsamples],
    [T_sys / sqrt(channel_width * inttime * nsamples)] with
    [T_sys = 180 K * (nu / 0.18 GHz)^(-2.55) + trcvr], the channel width the
    first difference of [freqs] in inverse seconds and [inttime] in seconds;
    it is in kelvin and has the shape of [nsamples]. *)
Lemma calculate_noise_power_radiometer
        (s : list nat) (ns : arr R (S (length s)))
        (f0 f1 : R) (rest : list R) (fu tu ru : Unit) (tv rv : R) :
  is_equivalent fu Hz = true -> is_equivalent tu second = true ->
  is_equivalent ru K = true ->
  has_shape (S (length s)) ns (s ++ [length (f0 :: f1 :: rest)]) ->
  Forall (lt 0%nat) s ->
  Forall (fun nu => 0 < nu * factor fu GHz) (f0 :: f1 :: rest) ->
  0 < (f1 - f0) * factor fu per_s * (tv * factor tu second) ->
  aforall (fun n => 0 < n) (S (length s)) ns ->
  exists (d : arr npfloat (S (length s))) (u : Unit),
    calculate_noise_power (mk_nd (S (length s)) ns)
                          (QuantityVec (f0 :: f1 :: rest) fu)
                          (PyQuantity tv tu) (PyQuantity rv ru) =
    Ok (mkRQ (mk_nd (S (length s)) d) u) /\
    is_equivalent u K = true /\ u_scale u = 1 /\
    has_shape (S (length s)) d (s ++ [length (f0 :: f1 :: rest)]) /\
    d = along_last
          (fun row =>
             map2 (fun nu n =>
                     Some (radiometer (nu * factor fu GHz) (rv * factor ru K)
                                      ((f1 - f0) * factor fu per_s)
                                      (tv * factor tu second) n))
                  (f0 :: f1 :: rest) row)
          (length s) ns.
Proof.
  intros Hf Ht Hr Hs Hpos Hnu Hdt Hn. do 2 eexists.
  split; [exact (calculate_noise_power_run s ns f0 f1 rest fu tu ru tv rv
                   Hf Ht Hr Hs Hpos)|].
  split; [exact (proj1 noise_unit_is_kelvin)|].
  split; [exact (proj2 noise_unit_is_kelvin)|].
  split.
  - apply has_shape_along_last; [|exact Hs].
    intros row Hrow. rewrite map2_length; congruence.
  - apply (along_last_ext_aforall (fun n => 0 < n) _ _
             (length (f0 :: f1 :: rest)) s ns); [|exact Hs|exact Hn].
    intros row Lrow Hrow. apply map2_ext_Forall2.
    eapply Forall2_impl;
      [|exact (Forall2_of_Forall _ _ (f0 :: f1 :: rest) row (eq_sym Lrow)
                 Hnu Hrow)].
    intros nu n [H1 H2]. cbv beta in H1, H2.
    apply radiometer_np_finite; [exact H1|].
    now apply Rmult_lt_0_compat.
Qed.

Lemma map_map2 {X Y Z W : Type} (g : Z -> W) (f : X -> Y -> Z)
      (l1 : list X) (l2 : list Y) :
  map g (map2 f l1 l2) = map2 (fun x y => g (f x y)) l1 l2.
Proof.
  revert l2. induction l1 as [|x l1 IH]; intros [|y l2]; cbn;
    try reflexivity. now rewrite IH.
Qed.

Lemma amap_amap2 {X Y Z W : Type} (g : Z -> W) (f : X -> Y -> Z) (n : nat)
      (a : arr X n) (b : arr Y n) :
  amap g n (amap2 f n a b) = amap2 (fun x y => g (f x y)) n a b.
Proof.
  revert a b. induction n as [|n IH]; intros a b; [reflexivity|].
  cbn [amap amap2]. rewrite map_map2. apply map2_ext. exact IH.
Qed.

Lemma amap2_amap {X X' Y Y' Z : Type} (f : X' -> Y' -> Z) (g : X -> X')
      (h : Y -> Y') (n : nat) (a : arr X n) (b : arr Y n) :
  amap2 f n (amap g n a) (amap h n b) =
  amap2 (fun x y => f (g x) (h y)) n a b.
Proof.
  revert a b. induction n as [|n IH]; intros a b; [reflexivity|].
  cbn [amap amap2]. rewrite map2_map. apply map2_ext. exact IH.
Qed.

Lemma amap2_amap_r {X Y Y' Z : Type} (f : X -> Y' -> Z) (h : Y -> Y')
      (n : nat) (a : arr X n) (b : arr Y n) :
  amap2 f n a (amap h n b) = amap2 (fun x y => f x (h y)) n a b.
Proof.
  revert a b. induction n as [|n IH]; intros a b; [reflexivity|].
  cbn [amap amap2]. rewrite <- (map_id a) at 1.
  rewrite map2_map. apply map2_ext. exact IH.
Qed.

Lemma amap2_ext {X Y Z : Type} (f g : X -> Y -> Z) (n : nat)
      (a : arr X n) (b : arr Y n) :
  (forall x y, f x y = g x y) -> amap2 f n a b = amap2 g n a b.
Proof.
  intros H. revert a b. induction n as [|n IH]; intros a b; [apply H|].
  cbn [amap2]. apply map2_ext. exact IH.
Qed.

Lemma same_shape_binop {X Y Z : Type} (f : X -> Y -> Z) (n : nat)
      (s : list nat) (a : arr X n) (b : arr Y n) :
  has_shape n a s -> has_shape n b s ->
  np_binop f (existT (arr X) n a) (existT (arr Y) n b) =
  Ok (existT (arr Z) n (amap2 f n a b)).
Proof.
  intros Ha Hb. fold (mk_nd n a) (mk_nd n b) (mk_nd n (amap2 f n a b)).
  rewrite np_binop_same_rank.
  rewrite (has_shape_shape_of n s a b Ha Hb), broadcastable_refl.
  now rewrite (bcast2_same_shape f n s a b Ha Hb).
Qed.

Lemma noise_value_code (p gr gi : R) :
  Cdivr (Cscal (Cadd (RtoC (1 * gr)) (Cscal Ci gi)) p) (sqrt 2) =
  noise_value p gr gi.
Proof.
  unfold noise_value, Cdivr, Cscal, Cadd, Cmul, RtoC, Ci. cbn [fst snd].
  f_equal; f_equal; ring.
Qed.

Lemma noise_value_power (p gr gi : R) :
  fst (noise_value p gr gi) * fst (noise_value p gr gi) +
  snd (noise_value p gr gi) * snd (noise_value p gr gi) =
  p * p * (gr * gr + gi * gi) / 2.
Proof.
  unfold noise_value, Cdivr, Cscal, Cadd, Cmul, RtoC, Ci. cbn [fst snd].
  assert (H2 : sqrt 2 * sqrt 2 = 2) by (apply sqrt_sqrt; lra).
  assert (Hn : sqrt 2 <> 0) by (intros E; rewrite E in H2; lra).
  set (r := sqrt 2) in *. rewrite <- H2. field. exact Hn.
Qed.

(** C8: given the two arrays of draws, of the shape of [noise_power],
    [generate_noise] returns, entry by entry,
    [noise_power * (g_re + i * g_im) / sqrt 2], an array of the shape of
    [noise_power]; the squared real part plus the squared imaginary part of
    an entry is [noise_power^2 * (g_re^2 + g_im^2) / 2]. *)
Theorem generate_noise_scaled_draws
        (rng : Type) (np_random_normal : list nat -> rng -> ndarray R * rng)
        (n : nat) (s : list nat) (p g_re g_im : arr R n)
        (st st1 st2 : rng) :
  has_shape n p s ->
  np_random_normal (shape (mk_nd n p)) st = (mk_nd n g_re, st1) ->
  has_shape n g_re s ->
  np_random_normal (shape (mk_nd n p)) st1 = (mk_nd n g_im, st2) ->
  has_shape n g_im s ->
  generate_noise rng np_random_normal (mk_nd n p) st =
    (Ok (mk_nd n (noise_of n p g_re g_im)), st2) /\
  has_shape n (noise_of n p g_re g_im) s /\
  (forall x gr gi : R,
      fst (noise_value x gr gi) * fst (noise_value x gr gi) +
      snd (noise_value x gr gi) * snd (noise_value x gr gi) =
      x * x * (gr * gr + gi * gi) / 2).
Proof.
  intros Hp D1 Hre D2 Him. split; [|split].
  - unfold generate_noise. rewrite D1, D2. unfold mk_nd. cbv beta iota.
    rewrite (same_shape_binop Cadd n s) by now apply has_shape_amap.
    cbn [rbind].
    rewrite (same_shape_binop (fun x w => Cscal w x) n s);
      [|exact Hp
       |apply has_shape_amap2; now apply has_shape_amap].
    cbn [rbind]. do 3 f_equal.
    unfold noise_of.
    rewrite amap_amap2, amap2_amap.
    assert (E : amap2 (fun x y => Cadd (RtoC (1 * x)) (Cscal Ci y)) n
                      g_re g_im =
                amap (fun gg => Cadd (RtoC (1 * fst gg)) (Cscal Ci (snd gg)))
                     n (amap2 (fun x y => (x, y)) n g_re g_im))
      by (now rewrite amap_amap2).
    rewrite E, amap2_amap_r. apply amap2_ext. intros x [gr gi].
    apply noise_value_code.
  - unfold noise_of. apply has_shape_amap2; [exact Hp|].
    now apply has_shape_amap2.
  - exact noise_value_power.
Qed.

(** The theorem for one entry of noise power 2 and draws 1 and 1. *)
Lemma generate_noise_scaled_draws_witness :
  generate_noise unit constant_normal (mk_nd 1 [2]) tt =
  (Ok (mk_nd 1 (noise_of 1 [2] [1] [1])), tt).
Proof.
  apply (generate_noise_scaled_draws unit constant_normal 1 [1%nat]
           [2] [1] [1] tt tt tt).
  - cbn. repeat constructor.
  - reflexivity.
  - cbn. repeat constructor.
  - reflexivity.
  - cbn. repeat constructor.
Defined.

Lemma jy2t_unit_equivalent :
  is_equivalent (udiv (usqr m_per_s) (umul (usqr per_s) J_per_K)) mK_per_Jy
  = true.
Proof. reflexivity. Qed.

Lemma jy2t_factor :
  factor (udiv (usqr m_per_s) (umul (usqr per_s) J_per_K)) mK_per_Jy
  = 1 / 1e23.
Proof.
  unfold factor, mK_per_Jy, udiv, usqr, umul. cbn [u_scale m_per_s per_s
    J_per_K mK Jy]. lra.
Qed.

(** C9: for a frequency quantity, [jy_to_mk] is the speed of light squared
    over twice the frequency squared times the Boltzmann constant,
    expressed in mK per Jy; an argument that is not a quantity fails the
    assertion. *)
Theorem jy_to_mk_value_and_assertion (c_light k_B : R) :
  (forall (f_values : list R) (f_unit : Unit),
      is_equivalent f_unit per_s = true ->
      jy_to_mk c_light k_B (QuantityVec f_values f_unit) =
      Ok (map (fun f => jy_to_mk_value c_light k_B (f * factor f_unit per_s))
              f_values,
          mK_per_Jy))
  /\
  (forall freqs, is_quantity_vec freqs = false ->
                 jy_to_mk c_light k_B freqs = Raise AssertionError).
Proof.
  split.
  - intros fs fu Hu. unfold jy_to_mk, convert, convert_all.
    rewrite Hu. change (is_equivalent m_per_s m_per_s) with true.
    cbn iota. cbn [rbind].
    rewrite jy2t_unit_equivalent. cbn [rbind]. do 2 f_equal.
    rewrite !map_map. apply map_ext. intros f.
    rewrite jy2t_factor. unfold jy_to_mk_value.
    replace (c_light * factor m_per_s m_per_s) with c_light
      by (unfold factor; cbn [u_scale m_per_s]; lra).
    reflexivity.
  - intros [l|l u] H; [reflexivity|discriminate].
Qed.

(** The theorem at 150 MHz. *)
Lemma jy_to_mk_value_and_assertion_witness :
  jy_to_mk 299792458 1.380649e-23 (QuantityVec [150] MHz) =
  Ok (map (fun f => jy_to_mk_value 299792458 1.380649e-23
                                   (f * factor MHz per_s)) [150],
      mK_per_Jy).
Proof.
  apply (proj1 (jy_to_mk_value_and_assertion 299792458 1.380649e-23)).
  reflexivity.
Defined.

End NoiseFacts.

(** ** Equality of [UnitParameter] objects *)

Module UnitParamFacts.
Import Units UnitParam.

Lemma nth_error_update_same {X : Type} (l : nat) (x y : X) (h : list X) :
  nth_error h l = Some y -> nth_error (update l x h) l = Some x.
Proof.
  revert l. induction h as [|z h IH]; intros [|l] H; cbn in *;
    try discriminate; [reflexivity|]. now apply IH.
Qed.

Lemma nth_error_update_other {X : Type} (l k : nat) (x : X) (h : list X) :
  k <> l -> nth_error (update l x h) k = nth_error h k.
Proof.
  revert l k. induction h as [|z h IH]; intros [|l] [|k] H; cbn;
    try reflexivity; try congruence. apply IH. congruence.
Qed.



Section Compare.
Variable uvp_eq : param -> param -> bool * list string.



End Compare.



End UnitParamFacts.

(* ================================================================== *)
(** * Further properties of the routines *)

(** ** Shape and rank errors *)

Module ShapeErrors.
Import Cplx Units Heap HeapFacts.

Lemma list_eqb_nat_neq (s1 s2 : list nat) :
  s1 <> s2 -> list_eqb_nat s1 s2 = false.
Proof.
  intros H. unfold list_eqb_nat.
  destruct (list_eq_dec Nat.eq_dec s1 s2); [contradiction|reflexivity].
Qed.

Lemma op2_raise {O : Type} (f : O -> O -> result O) (h : heap O)
      (l1 l2 : loc) (o1 o2 : O) (e : exn) :
  nth_error h l1 = Some o1 -> nth_error h l2 = Some o2 ->
  f o1 o2 = Raise e -> op2 f l1 l2 h = (Raise e, h).
Proof.
  intros H1 H2 Hf. unfold op2.
  rewrite (bind_ok _ _ _ _ _ (load_ok _ _ _ H1)).
  rewrite (bind_ok _ _ _ _ _ (load_ok _ _ _ H2)).
  rewrite Hf. reflexivity.
Qed.

(** X1: Two arrays of different shapes make [delay_transform] raise the
    [ValueError] of the shape test, whatever the unit of [delta_f] and the
    window are, and no array is created. *)
Theorem delay_transform_shape_mismatch
        (blackmanharris : nat -> list R) (h : heap DelayTransform.qarray)
        (l1 l2 : loc) (d1 d2 : DelayTransform.qarray)
        (delta_f : option pyscalar) (window : option (nat -> list R))
        (v : R) (u : Unit) :
  nth_error h l1 = Some d1 -> nth_error h l2 = Some d2 ->
  shape (DelayTransform.q_data d2) <> shape (DelayTransform.q_data d1) ->
  DelayTransform.or_default (PyQuantity 1 Hz) delta_f = PyQuantity v u ->
  DelayTransform.delay_transform blackmanharris l1 (Some l2) delta_f window h
  = (Raise (ValueError DelayTransform.shape_msg), h).
Proof.
  intros H1 H2 Hs Hd. unfold DelayTransform.delay_transform.
  rewrite (bind_ok _ _ _ _ _ (load_ok _ _ _ H1)), Hd.
  rewrite (bind_ok _ _ h h l2) by reflexivity.
  rewrite (bind_ok _ _ _ _ _ (load_ok _ _ _ H2)).
  now rewrite (list_eqb_nat_neq _ _ Hs).
Qed.

Lemma delay_transform_shape_mismatch_witness :
  DelayTransform.delay_transform
    DelayTransform.ones_window 0 (Some 1) None None
    [DelayTransform.mkQ (mk_nd 3 DelayTransform.one_spectrum) None;
     DelayTransform.mkQ (mk_nd 3 [[[RtoC 1; RtoC 1]]]) None] =
  (Raise (ValueError DelayTransform.shape_msg),
   [DelayTransform.mkQ (mk_nd 3 DelayTransform.one_spectrum) None;
    DelayTransform.mkQ (mk_nd 3 [[[RtoC 1; RtoC 1]]]) None]).
Proof.
  apply (delay_transform_shape_mismatch DelayTransform.ones_window _ 0 1
           (DelayTransform.mkQ (mk_nd 3 DelayTransform.one_spectrum) None)
           (DelayTransform.mkQ (mk_nd 3 [[[RtoC 1; RtoC 1]]]) None)
           None None 1%R Hz); try reflexivity.
  cbn. intros H. discriminate H.
Defined.



(** X3: Two sample arrays of different shapes make [combine_nsamples] raise the
    [ValueError] of the shape test, and no array is created. *)
Theorem combine_nsamples_shape_mismatch
        (h : heap CombineNsamples.nsarray) (l1 l2 : loc)
        (n1 n2 : CombineNsamples.nsarray) :
  nth_error h l1 = Some n1 -> nth_error h l2 = Some n2 ->
  shape n1 <> shape n2 ->
  CombineNsamples.combine_nsamples l1 (Some l2) h =
  (Raise (ValueError CombineNsamples.shape_msg), h).
Proof.
  intros H1 H2 Hs. unfold CombineNsamples.combine_nsamples.
  rewrite (bind_ok _ _ _ _ _ (load_ok _ _ _ H1)).
  rewrite (bind_ok _ _ h h l2) by reflexivity.
  rewrite (bind_ok _ _ _ _ _ (load_ok _ _ _ H2)).
  now rewrite (list_eqb_nat_neq _ _ Hs).
Qed.

Lemma combine_nsamples_shape_mismatch_witness :
  CombineNsamples.combine_nsamples 0 (Some 1)
    [mk_nd 3 CombineNsamples.ns01; mk_nd 3 [[[1%R]]]] =
  (Raise (ValueError CombineNsamples.shape_msg),
   [mk_nd 3 CombineNsamples.ns01; mk_nd 3 [[[1%R]]]]).
Proof.
  apply (combine_nsamples_shape_mismatch _ 0 1
           (mk_nd 3 CombineNsamples.ns01) (mk_nd 3 [[[1%R]]]));
    try reflexivity.
  cbn. intros H. discriminate H.
Defined.

(** X4: Sample arrays of rank below 3 cannot be indexed with three slices:
    [combine_nsamples] raises [IndexError], and no array is created. *)
Theorem combine_nsamples_low_rank
        (h : heap CombineNsamples.nsarray) (l1 l2 : loc) (n m : nat)
        (a : arr R n) (b : arr R m) :
  nth_error h l1 = Some (mk_nd n a) -> nth_error h l2 = Some (mk_nd m b) ->
  shape (mk_nd n a) = shape (mk_nd m b) -> n < 3 ->
  CombineNsamples.combine_nsamples l1 (Some l2) h = (Raise IndexError, h).
Proof.
  intros H1 H2 Hs Hn. unfold CombineNsamples.combine_nsamples.
  rewrite (bind_ok _ _ _ _ _ (load_ok _ _ _ H1)).
  rewrite (bind_ok _ _ h h l2) by reflexivity.
  rewrite (bind_ok _ _ _ _ _ (load_ok _ _ _ H2)).
  rewrite Hs, list_eqb_nat_refl. cbn [negb rank projT1 mk_nd].
  replace (Nat.eqb n 3) with false by (symmetry; apply Nat.eqb_neq; lia).
  erewrite bind_raise; [reflexivity|].
  eapply op2_raise; [exact H1|exact H2|].
  unfold mk_nd.
  destruct n as [|[|[|n]]]; [reflexivity|reflexivity|reflexivity|lia].
Qed.

Lemma combine_nsamples_low_rank_witness :
  CombineNsamples.combine_nsamples 0 (Some 0) [mk_nd 2 [[1%R]]] =
  (Raise IndexError, [mk_nd 2 [[1%R]]]).
Proof.
  apply (combine_nsamples_low_rank _ 0 0 2 2 [[1%R]] [[1%R]]);
    try reflexivity. lia.
Defined.

End ShapeErrors.

(** ** Sample counts of two arrays *)

Module CombineMore.
Import Heap HeapFacts CombineNsamples CombineFacts.

(** X5: For two sample arrays of one shape, the entry of
    [combine_nsamples(n1, n2)] for the baseline pair [(i, j)] is the
    geometric mean of baseline [j] of [n1] and baseline [i] of [n2], and the
    baseline axis is doubled; for rank 3, and for rank 4 polarization by
    polarization. *)
Theorem combine_nsamples_pairs :
  (forall (h : heap nsarray) (l1 l2 : loc) (N T F : nat) (n1 n2 : arr R 3),
      nth_error h l1 = Some (mk_nd 3 n1) ->
      nth_error h l2 = Some (mk_nd 3 n2) ->
      has_shape 3 n1 [N; T; F] -> has_shape 3 n2 [N; T; F] ->
      exists out : arr R 4,
        outcome (combine_nsamples l1 (Some l2) h) = Ok (Some (mk_nd 4 out)) /\
        has_shape 4 out [N; N; T; F] /\
        forall i j t f, i < N -> j < N -> t < T -> f < F ->
          at4 0%R out i j t f =
          sqrt (at3 0%R n1 j t f * at3 0%R n2 i t f))
  /\
  (forall (h : heap nsarray) (l1 l2 : loc) (P N T F : nat)
          (n1 n2 : arr R 4),
      nth_error h l1 = Some (mk_nd 4 n1) ->
      nth_error h l2 = Some (mk_nd 4 n2) ->
      has_shape 4 n1 [P; N; T; F] -> has_shape 4 n2 [P; N; T; F] ->
      exists out : arr R 5,
        outcome (combine_nsamples l1 (Some l2) h) = Ok (Some (mk_nd 5 out)) /\
        has_shape 5 out [P; N; N; T; F] /\
        forall p i j t f, p < P -> i < N -> j < N -> t < T -> f < F ->
          at5 0%R out p i j t f =
          sqrt (at4 0%R n1 p j t f * at4 0%R n2 p i t f)).
Proof.
  split.
  - intros h l1 l2 N T F n1 n2 H1 H2 S1 S2.
    exists (amap sqrt 4 (pair_baselines Rmult 2 n1 n2)).
    rewrite (combine_run_rank3 h l1 l2 [N; T; F] n1 n2 H1 H2 S1 S2),
      outcome_alloc.
    split; [reflexivity|]. split.
    + apply has_shape_amap. now apply has_shape_pair_baselines.
    + intros i j t f Hi Hj Ht Hf. rewrite at4_amap_sqrt.
      now rewrite (at4_pair_baselines Rmult 0%R 0%R 0%R N T F n1 n2 i j t f).
  - intros h l1 l2 P N T F n1 n2 H1 H2 S1 S2.
    exists (amap sqrt 5 (pair_baselines_pol Rmult 2 n1 n2)).
    rewrite (combine_run_rank4 h l1 l2 [P; N; T; F] n1 n2 H1 H2 S1 S2),
      outcome_alloc.
    split; [reflexivity|]. split.
    + apply has_shape_amap. now apply has_shape_pair_pol.
    + intros p i j t f Hp Hi Hj Ht Hf. rewrite at5_amap_sqrt.
      now rewrite (at5_pair_pol Rmult 0%R 0%R 0%R P N T F n1 n2 p i j t f).
Qed.

Lemma combine_nsamples_pairs_witness :
  exists out : arr R 4,
    outcome (combine_nsamples 0 (Some 0) [mk_nd 3 ns01]) =
      Ok (Some (mk_nd 4 out)) /\
    has_shape 4 out [2; 2; 1; 1] /\
    forall i j t f, i < 2 -> j < 2 -> t < 1 -> f < 1 ->
      at4 0%R out i j t f = sqrt (at3 0%R ns01 j t f * at3 0%R ns01 i t f).
Proof.
  exact (proj1 combine_nsamples_pairs [mk_nd 3 ns01] 0 0 2 1 1 ns01 ns01
               eq_refl eq_refl ns01_has_shape ns01_has_shape).
Defined.

End CombineMore.

(** ** The delay transform of one array with itself *)

Module DelayMore.
Import Cplx Units NumPy Heap HeapFacts DelayTransform DelayFacts.

Lemma at4_cross (B T F : nat) (D1 D2 : arr C 3) (i j t f : nat) :
  has_shape 3 D1 [B; T; F] -> has_shape 3 D2 [B; T; F] ->
  i < B -> j < B -> t < T -> f < F ->
  at4 (RtoC 0) (pair_baselines Cmul 2 (amap Cconj 3 D1) D2) i j t f =
  Cmul (Cconj (at3 (RtoC 0) D1 j t f)) (at3 (RtoC 0) D2 i t f).
Proof.
  intros S1 S2 Hi Hj Ht Hf.
  rewrite (at4_pair_baselines Cmul (RtoC 0) (RtoC 0) (RtoC 0) B T F
                              _ _ i j t f);
    try assumption; [|now apply has_shape_amap].
  now rewrite at3_amap_conj.
Qed.

Lemma Cmul_conj_self (z : C) :
  snd (Cmul (Cconj z) z) = 0%R /\ (0 <= fst (Cmul (Cconj z) z))%R.
Proof.
  destruct z as [x y]. unfold Cmul, Cconj. cbn [fst snd]. split; [ring|nra].
Qed.

Lemma Cconj_Cmul_conj (a b : C) :
  Cconj (Cmul (Cconj a) b) = Cmul (Cconj b) a.
Proof.
  destruct a as [x y], b as [x' y']. unfold Cmul, Cconj. cbn [fst snd].
  f_equal; ring.
Qed.

(** X6: The delay transform of one array whose frequency axis has entries
    (the second array omitted) gives, for every baseline pair [(i, i)],
    values that are real and not negative, and its entry for the pair
    [(j, i)] is the complex conjugate of its entry for [(i, j)]. *)
Theorem delay_transform_auto_power
        (blackmanharris : nat -> list R) (h : heap qarray) (l1 : loc)
        (x : arr C 3) (u1 : option Unit) (B T F : nat) (dfv : R) (dfu : Unit)
        (window : option (nat -> list R)) :
  nth_error h l1 = Some (mkQ (mk_nd 3 x) u1) ->
  has_shape 3 x [B; T; F] -> shape (mk_nd 3 x) = [B; T; F] -> 0 < F ->
  is_equivalent dfu per_s = true ->
  (forall n, length (or_default blackmanharris window n) = n) ->
  exists out : arr C 4,
    outcome (delay_transform blackmanharris l1 None
                             (Some (PyQuantity dfv dfu)) window h) =
      Ok (Some (mkQ (mk_nd 4 out) (Some (usqr (delay_unit u1 u1))))) /\
    forall i j t f, i < B -> j < B -> t < T -> f < F ->
      snd (at4 (RtoC 0) out i i t f) = 0%R /\
      (0 <= fst (at4 (RtoC 0) out i i t f))%R /\
      at4 (RtoC 0) out j i t f = Cconj (at4 (RtoC 0) out i j t f).
Proof.
  intros H1 S1 E1 HF Hu Hw.
  destruct (shape_rank3_pos x B T F E1 HF) as [HB HT].
  rewrite delay_default_is_copy.
  rewrite (bind_ok _ _ _ _ _
             (op1_ok np_copy h l1 _ _ H1 eq_refl)).
  pose proof (delay_run_rank3 blackmanharris (h ++ [mkQ (mk_nd 3 x) u1])
                l1 (length h) x x u1 u1 B T F dfv dfu window
                (lookup_old _ _ _ _ H1) (lookup_new _ _) S1 S1 HB HT HF
                Hu Hw) as E.
  set (w := or_default blackmanharris window) in *.
  set (df := (dfv * factor dfu per_s)%R) in *.
  assert (SD : has_shape 3 (delay_rows3 (w F) df x) [B; T; F]).
  { apply has_shape_delay_rows3; [exact S1|]. intros _ _. apply Hw. }
  eexists. split; [exact E|].
  intros i j t f Hi Hj Ht Hf.
  rewrite !(at4_cross B T F) by assumption.
  split; [apply Cmul_conj_self|]. split; [apply Cmul_conj_self|].
  now rewrite Cconj_Cmul_conj.
Qed.

Lemma delay_transform_auto_power_witness :
  exists out : arr C 4,
    outcome (delay_transform ones_window 0 None (Some (PyQuantity 1 Hz))
                             None one_heap) =
      Ok (Some (mkQ (mk_nd 4 out) (Some (usqr (delay_unit None None))))) /\
    forall i j t f, i < 1 -> j < 1 -> t < 1 -> f < 1 ->
      snd (at4 (RtoC 0) out i i t f) = 0%R /\
      (0 <= fst (at4 (RtoC 0) out i i t f))%R /\
      at4 (RtoC 0) out j i t f = Cconj (at4 (RtoC 0) out i j t f).
Proof.
  apply (delay_transform_auto_power ones_window one_heap 0 one_spectrum
           None 1 1 1 1%R Hz None).
  - reflexivity.
  - exact one_spectrum_has_shape.
  - reflexivity.
  - lia.
  - reflexivity.
  - intros n. apply repeat_length.
Defined.

(** X7: [delta_f] enters [delay_transform] through its value in inverse seconds
    only: a channel width given in any frequency unit gives what the same
    width given in inverse seconds gives. *)
Theorem delay_transform_delta_f_unit
        (blackmanharris : nat -> list R) (h : heap qarray) (l1 : loc)
        (l2 : option loc) (dfv : R) (dfu : Unit)
        (window : option (nat -> list R)) :
  is_equivalent dfu per_s = true ->
  delay_transform blackmanharris l1 l2 (Some (PyQuantity dfv dfu)) window h =
  delay_transform blackmanharris l1 l2
                  (Some (PyQuantity (dfv * factor dfu per_s) per_s)) window h.
Proof.
  intros Hu. unfold delay_transform. cbn [or_default]. unfold convert.
  rewrite Hu. change (is_equivalent per_s per_s) with true. cbn iota.
  replace (dfv * factor dfu per_s * factor per_s per_s)%R
    with (dfv * factor dfu per_s)%R
    by (unfold factor at 3; cbn [u_scale per_s]; lra).
  reflexivity.
Qed.

Lemma delay_transform_delta_f_unit_witness :
  delay_transform ones_window 0 None (Some (PyQuantity 1 MHz)) None one_heap =
  delay_transform ones_window 0 None
                  (Some (PyQuantity (1 * factor MHz per_s) per_s)) None
                  one_heap.
Proof.
  apply (delay_transform_delta_f_unit ones_window one_heap 0 None 1%R MHz
                                      None).
  reflexivity.
Defined.

End DelayMore.

(** ** The order of the baseline pairs *)

Module AutoCorrMore.
Import AutoCorr AutoCorrFacts.

Lemma filter_all {X : Type} (p : X -> bool) (l : list X) :
  Forall (fun x => p x = true) l -> filter p l = l.
Proof.
  induction 1 as [|x l Hx _ IH]; cbn; [reflexivity|]. now rewrite Hx, IH.
Qed.

Lemma filter_neq_seq (i N : nat) :
  i < N ->
  filter (fun j => negb (Nat.eqb i j)) (seq 0 N) =
  seq 0 i ++ seq (S i) (N - S i).
Proof.
  intros Hi. replace N with (i + S (N - S i)) at 1 by lia.
  rewrite seq_app, filter_app. cbn [seq filter Nat.add].
  rewrite Nat.eqb_refl. cbn [negb]. f_equal.
  - apply filter_all, Forall_forall. intros j Hj. apply in_seq in Hj.
    apply negb_true_iff, Nat.eqb_neq. lia.
  - apply filter_all, Forall_forall. intros j Hj. apply in_seq in Hj.
    apply negb_true_iff, Nat.eqb_neq. lia.
Qed.

Lemma nth_skip_diagonal (i N r : nat) :
  i < N -> r < N - 1 ->
  nth r (seq 0 i ++ seq (S i) (N - S i)) 0 = if Nat.ltb r i then r else S r.
Proof.
  intros Hi Hr. destruct (Nat.ltb_spec r i) as [H|H].
  - rewrite app_nth1 by (rewrite length_seq; lia). now rewrite seq_nth.
  - rewrite app_nth2 by (rewrite length_seq; lia). rewrite length_seq.
    rewrite seq_nth by lia. lia.
Qed.

Lemma nth_concat_const {X : Type} (m : nat) (d : X) (ls : list (list X))
      (k : nat) :
  Forall (fun l => length l = m) ls -> k < length ls * m ->
  nth k (concat ls) d = nth (Nat.modulo k m) (nth (Nat.div k m) ls []) d.
Proof.
  intros H. revert k. induction H as [|l ls Hl _ IH]; intros k Hk.
  - cbn in Hk. lia.
  - assert (Hm : 0 < m) by (destruct m; [cbn in Hk; lia|lia]).
    cbn [concat length] in *. destruct (Nat.lt_ge_cases k m) as [Hlt|Hge].
    + rewrite app_nth1 by lia.
      rewrite Nat.div_small, Nat.mod_small by assumption. reflexivity.
    + rewrite app_nth2 by lia. rewrite Hl.
      replace k with ((k - m) + 1 * m) at 2 3 by lia.
      rewrite Nat.div_add, Nat.Div0.mod_add by lia.
      rewrite IH by (cbn in Hk; lia).
      replace (Nat.div (k - m) m + 1) with (S (Nat.div (k - m) m)) by lia.
      reflexivity.
Qed.

Lemma offdiag_pairs_blocks (N : nat) :
  offdiag_pairs N =
  concat (map (fun i => map (fun j => (i, j))
                            (filter (fun j => negb (Nat.eqb i j)) (seq 0 N)))
              (seq 0 N)).
Proof.
  unfold offdiag_pairs.
  rewrite <- (map_id (filter _ _)), map_filter_list_prod. reflexivity.
Qed.

Lemma nth_offdiag_pairs (N k : nat) :
  k < N * (N - 1) -> nth k (offdiag_pairs N) (0, 0) = pair_of_index N k.
Proof.
  intros Hk. assert (Hm : 0 < N - 1) by (destruct (N - 1); lia).
  assert (Hi : Nat.div k (N - 1) < N)
    by (apply Nat.Div0.div_lt_upper_bound; lia).
  assert (Hr : Nat.modulo k (N - 1) < N - 1) by (apply Nat.mod_upper_bound; lia).
  rewrite offdiag_pairs_blocks.
  rewrite (nth_concat_const (N - 1)).
  - rewrite (nth_map_in _ (seq 0 N) _ 0 []) by (now rewrite length_seq).
    rewrite seq_nth by assumption. cbn [Nat.add].
    rewrite filter_neq_seq by assumption.
    rewrite (nth_map_in _ _ _ 0 (0, 0))
      by (rewrite length_app, !length_seq; lia).
    rewrite nth_skip_diagonal by assumption. reflexivity.
  - apply Forall_forall. intros l Hl. apply in_map_iff in Hl.
    destruct Hl as [i [<- Hin]]. apply in_seq in Hin.
    rewrite length_map, filter_neq_seq, length_app, !length_seq by lia. lia.
  - now rewrite length_map, length_seq.
Qed.

Lemma pair_of_index_off_diagonal (N k : nat) :
  k < N * (N - 1) ->
  fst (pair_of_index N k) < N /\ snd (pair_of_index N k) < N /\
  fst (pair_of_index N k) <> snd (pair_of_index N k).
Proof.
  intros Hk. apply offdiag_pairs_spec.
  rewrite <- surjective_pairing, <- nth_offdiag_pairs by assumption.
  apply nth_In. now rewrite length_offdiag_pairs.
Qed.

(** X8: Entry [k] of the result of [remove_auto_correlations] on a square
    rank-4 array is the entry of the input for the baseline pair
    [(k / (Nbls - 1), c)], where [c] is [k mod (Nbls - 1)] moved past the
    diagonal; that pair is off the diagonal. *)
Theorem remove_auto_correlations_entry
        (A : Type) (N T F : nat) (a : arr A 4) :
  has_shape 4 a [N; N; T; F] ->
  exists rows : arr A 3,
    remove_auto_correlations A (mk_nd 4 a) = Ok (mk_nd 3 rows) /\
    forall k, k < N * (N - 1) ->
      nth k rows [] =
        nth (snd (pair_of_index N k)) (nth (fst (pair_of_index N k)) a []) []
      /\ fst (pair_of_index N k) < N /\ snd (pair_of_index N k) < N
      /\ fst (pair_of_index N k) <> snd (pair_of_index N k).
Proof.
  intros Ha. exists (pick_pairs A N a). split.
  - unfold remove_auto_correlations, mk_nd.
    assert (Hn : nth 0 (shape_of 4 a) 0 = N) by (destruct Ha; assumption).
    rewrite Hn, (bool_index2_square N T F a Ha). reflexivity.
  - intros k Hk. split; [|now apply pair_of_index_off_diagonal].
    unfold pick_pairs.
    rewrite (nth_map_in _ (offdiag_pairs N) k (0, 0) [])
      by (now rewrite length_offdiag_pairs).
    now rewrite nth_offdiag_pairs.
Qed.

Lemma remove_auto_correlations_entry_witness :
  exists rows : arr nat 3,
    remove_auto_correlations nat (mk_nd 4 square_0_8) = Ok (mk_nd 3 rows) /\
    forall k, k < 3 * (3 - 1) ->
      nth k rows [] =
        nth (snd (pair_of_index 3 k))
            (nth (fst (pair_of_index 3 k)) square_0_8 []) []
      /\ fst (pair_of_index 3 k) < 3 /\ snd (pair_of_index 3 k) < 3
      /\ fst (pair_of_index 3 k) <> snd (pair_of_index 3 k).
Proof.
  apply (remove_auto_correlations_entry nat 3 1 1 square_0_8).
  cbn. repeat constructor.
Defined.

(** X9: A rank-4 array whose first two extents differ is not a baseline square:
    the boolean mask does not fit and [remove_auto_correlations] raises
    [IndexError]. *)
Theorem remove_auto_correlations_not_square
        (A : Type) (N M T F : nat) (a : arr A 4) :
  has_shape 4 a [N; M; T; F] -> 0 < N -> N <> M ->
  remove_auto_correlations A (mk_nd 4 a) = Raise IndexError.
Proof.
  intros [L Fa] HN HM. unfold remove_auto_correlations, mk_nd.
  assert (Hn : nth 0 (shape_of 4 a) 0 = N) by exact L.
  rewrite Hn, indices_rows. unfold bool_index2.
  destruct a as [|row a]; [cbn in L; lia|].
  assert (Hrow : length row = M) by exact (proj1 (Forall_inv Fa)).
  change (nth 1 (shape_of 4 (row :: a)) 0) with (length row).
  set (mask := map (fun i => map (fun j => negb (Nat.eqb i j)) (seq 0 N))
                   (seq 0 N)).
  assert (Hc : forallb (fun mrow => Nat.eqb (length mrow) (length row)) mask
               = false).
  { destruct (forallb _ mask) eqn:E; [|reflexivity].
    rewrite forallb_forall in E.
    specialize (E (map (fun j => negb (Nat.eqb 0 j)) (seq 0 N))).
    rewrite length_map, length_seq, Hrow in E.
    assert (H0 : In 0 (seq 0 N)) by (apply in_seq; lia).
    specialize (E (in_map (fun i => map (fun j => negb (Nat.eqb i j))
                                        (seq 0 N)) _ 0 H0)).
    apply Nat.eqb_eq in E. contradiction. }
  replace (andb _ _) with false; [reflexivity|].
  symmetry. apply andb_false_intro2. exact Hc.
Qed.

Lemma remove_auto_correlations_not_square_witness :
  remove_auto_correlations nat (mk_nd 4 [[[[1]]; [[2]]]]) = Raise IndexError.
Proof.
  apply (remove_auto_correlations_not_square nat 1 2 1 1).
  - cbn. repeat constructor.
  - lia.
  - lia.
Defined.

End AutoCorrMore.

(** ** Combined sample counts without the auto-correlations *)

Module Pipeline.
Import Heap HeapFacts AutoCorr AutoCorrFacts AutoCorrMore CombineNsamples
       CombineFacts.

(** X10: [remove_auto_correlations] applied to the result of [combine_nsamples]
    keeps [Nbls * (Nbls - 1)] rows, and row [k] holds the geometric means of
    the two different baselines of the pair at place [k]. *)
Theorem combined_samples_without_autos
        (h : heap nsarray) (l1 l2 : loc) (N T F : nat) (n1 n2 : arr R 3) :
  nth_error h l1 = Some (mk_nd 3 n1) -> nth_error h l2 = Some (mk_nd 3 n2) ->
  has_shape 3 n1 [N; T; F] -> has_shape 3 n2 [N; T; F] ->
  exists (out : ndarray R) (rows : arr R 3),
    outcome (combine_nsamples l1 (Some l2) h) = Ok (Some out) /\
    remove_auto_correlations R out = Ok (mk_nd 3 rows) /\
    length rows = N * (N - 1) /\
    forall k t f, k < N * (N - 1) -> t < T -> f < F ->
      fst (pair_of_index N k) <> snd (pair_of_index N k) /\
      at3 0%R rows k t f =
      sqrt (at3 0%R n1 (snd (pair_of_index N k)) t f *
            at3 0%R n2 (fst (pair_of_index N k)) t f).
Proof.
  intros H1 H2 S1 S2.
  set (X := amap sqrt 4 (pair_baselines Rmult 2 n1 n2)).
  assert (SX : has_shape 4 X [N; N; T; F])
    by (apply has_shape_amap; now apply has_shape_pair_baselines).
  exists (mk_nd 4 X), (pick_pairs R N X).
  split; [|split; [|split]].
  - now rewrite (combine_run_rank3 h l1 l2 [N; T; F] n1 n2 H1 H2 S1 S2),
      outcome_alloc.
  - unfold remove_auto_correlations, mk_nd.
    assert (Hn : nth 0 (shape_of 4 X) 0 = N) by (destruct SX; assumption).
    rewrite Hn, (bool_index2_square N T F X SX). reflexivity.
  - unfold pick_pairs. now rewrite length_map, length_offdiag_pairs.
  - intros k t f Hk Ht Hf.
    destruct (pair_of_index_off_diagonal N k Hk) as [Hi [Hj Hne]].
    split; [exact Hne|].
    transitivity (at4 0%R X (fst (pair_of_index N k))
                      (snd (pair_of_index N k)) t f).
    + unfold at4, at3 at 1. f_equal. unfold pick_pairs.
      rewrite (nth_map_in _ (offdiag_pairs N) k (0, 0) [])
        by (now rewrite length_offdiag_pairs).
      now rewrite nth_offdiag_pairs.
    + unfold X. rewrite at4_amap_sqrt.
      now rewrite (at4_pair_baselines Rmult 0%R 0%R 0%R N T F n1 n2).
Qed.

Lemma combined_samples_without_autos_witness :
  exists (out : ndarray R) (rows : arr R 3),
    outcome (combine_nsamples 0 (Some 0) [mk_nd 3 ns01]) = Ok (Some out) /\
    remove_auto_correlations R out = Ok (mk_nd 3 rows) /\
    length rows = 2 * (2 - 1) /\
    forall k t f, k < 2 * (2 - 1) -> t < 1 -> f < 1 ->
      fst (pair_of_index 2 k) <> snd (pair_of_index 2 k) /\
      at3 0%R rows k t f =
      sqrt (at3 0%R ns01 (snd (pair_of_index 2 k)) t f *
            at3 0%R ns01 (fst (pair_of_index 2 k)) t f).
Proof.
  exact (combined_samples_without_autos [mk_nd 3 ns01] 0 0 2 1 1 ns01 ns01
           eq_refl eq_refl ns01_has_shape ns01_has_shape).
Defined.

End Pipeline.

(** ** Units, channels and positivity in the noise model *)

Module NoiseMore.
Import Cplx Units Noise NoiseFacts.
Local Open Scope R_scope.

(** X11: A quantity of the wrong dimension is reported at its conversion:
    [freqs] first, then [trcvr], and, when there are two channels at least,
    [inttime]. *)
Theorem calculate_noise_power_unit_errors :
  (forall nsamples fs fu tv tu rv ru,
      is_equivalent fu Hz = false ->
      calculate_noise_power nsamples (QuantityVec fs fu) (PyQuantity tv tu)
                            (PyQuantity rv ru) = Raise UnitConversionError)
  /\
  (forall nsamples fs fu tv tu rv ru,
      is_equivalent fu Hz = true -> is_equivalent ru K = false ->
      calculate_noise_power nsamples (QuantityVec fs fu) (PyQuantity tv tu)
                            (PyQuantity rv ru) = Raise UnitConversionError)
  /\
  (forall nsamples f0 f1 rest fu tv tu rv ru,
      is_equivalent fu Hz = true -> is_equivalent ru K = true ->
      is_equivalent tu second = false ->
      calculate_noise_power nsamples (QuantityVec (f0 :: f1 :: rest) fu)
                            (PyQuantity tv tu) (PyQuantity rv ru) =
      Raise UnitConversionError).
Proof.
  split; [|split].
  - intros ns fs fu tv tu rv ru Hf.
    assert (HG : is_equivalent fu GHz = false) by exact Hf.
    unfold calculate_noise_power, convert_all. now rewrite HG.
  - intros ns fs fu tv tu rv ru Hf Hr.
    assert (HG : is_equivalent fu GHz = true) by exact Hf.
    unfold calculate_noise_power, convert_all, convert.
    now rewrite HG, Hr.
  - intros ns f0 f1 rest fu tv tu rv ru Hf Hr Ht.
    assert (HG : is_equivalent fu GHz = true) by exact Hf.
    assert (HP : is_equivalent fu per_s = true) by exact Hf.
    unfold calculate_noise_power, convert_all, convert.
    rewrite HG, Hr, HP, Ht. reflexivity.
Qed.

Lemma calculate_noise_power_unit_errors_witness :
  calculate_noise_power (mk_nd 1 [1; 1]) (QuantityVec [1; 2] metre)
                        (PyQuantity 1 second) (PyQuantity 0 K) =
  Raise UnitConversionError.
Proof.
  apply (proj1 calculate_noise_power_unit_errors). reflexivity.
Defined.

(** X12: With fewer than two channels there is no channel spacing: the call
    raises [IndexError], whatever [nsamples] and the unit of [inttime]
    are. *)
Theorem calculate_noise_power_one_channel
        (nsamples : ndarray R) (fs : list R) (fu tu ru : Unit) (tv rv : R) :
  is_equivalent fu Hz = true -> is_equivalent ru K = true ->
  (length fs < 2)%nat ->
  calculate_noise_power nsamples (QuantityVec fs fu) (PyQuantity tv tu)
                        (PyQuantity rv ru) = Raise IndexError.
Proof.
  intros Hf Hr Hl.
  assert (HG : is_equivalent fu GHz = true) by exact Hf.
  unfold calculate_noise_power, convert_all, convert. rewrite HG, Hr.
  destruct fs as [|f0 [|f1 rest]]; [reflexivity|reflexivity|cbn in Hl; lia].
Qed.

Lemma calculate_noise_power_one_channel_witness :
  calculate_noise_power (mk_nd 1 [1]) (QuantityVec [1] GHz)
                        (PyQuantity 1 second) (PyQuantity 0 K) =
  Raise IndexError.
Proof.
  apply calculate_noise_power_one_channel; try reflexivity. cbn. lia.
Defined.




Lemma Forall_map2 {X Y Z : Type} (P : Y -> Prop) (Q : Z -> Prop)
      (g : X -> Y -> Z) (l1 : list X) (l2 : list Y) :
  (forall x y, P y -> Q (g x y)) -> Forall P l2 -> Forall Q (map2 g l1 l2).
Proof.
  intros Hg H. revert l1. induction H as [|y l2 Hy _ IH]; intros [|x l1];
    cbn [map2]; constructor; auto.
Qed.

Lemma aforall_along_last {X Y : Type} (P : X -> Prop) (Q : Y -> Prop)
      (g : list X -> list Y) (n : nat) (a : arr X (S n)) :
  (forall row, Forall P row -> Forall Q (g row)) ->
  aforall P (S n) a -> aforall Q (S n) (along_last g n a).
Proof.
  intros Hg. induction n as [|n IH]; intros H.
  - exact (Hg a H).
  - cbn [along_last]. change (Forall (aforall Q (S n))
                                     (map (along_last g n) a)).
    apply Forall_map. eapply Forall_impl; [|exact H]. exact (IH).
Qed.

Lemma radiometer_pos (nu rK cw it n : R) :
  0 <= rK -> 0 < cw -> 0 < it -> 0 < n -> 0 < radiometer nu rK cw it n.
Proof.
  intros HrK Hcw Hit Hn. unfold radiometer, T_sys.
  apply Rdiv_lt_0_compat.
  - assert (0 < Rpower (nu / 0.18) (- 2.55)) by (unfold Rpower; apply exp_pos).
    lra.
  - apply sqrt_lt_R0. repeat apply Rmult_lt_0_compat; assumption.
Qed.

(** X14: With positive frequencies in ascending order, a positive
    integration time, a receiver temperature that is not negative and
    positive sample counts, every entry of the noise power is a finite
    number and positive. *)
Theorem calculate_noise_power_positive
        (s : list nat) (ns : arr R (S (length s)))
        (f0 f1 : R) (rest : list R) (fu tu ru : Unit) (tv rv : R) :
  is_equivalent fu Hz = true -> is_equivalent tu second = true ->
  is_equivalent ru K = true ->
  has_shape (S (length s)) ns (s ++ [length (f0 :: f1 :: rest)]) ->
  Forall (lt 0%nat) s ->
  Forall (fun nu => 0 < nu * factor fu GHz) (f0 :: f1 :: rest) ->
  0 < (f1 - f0) * factor fu per_s -> 0 < tv * factor tu second ->
  0 <= rv * factor ru K ->
  aforall (fun n => 0 < n) (S (length s)) ns ->
  exists (d : arr npfloat (S (length s))) (u : Unit),
    calculate_noise_power (mk_nd (S (length s)) ns)
                          (QuantityVec (f0 :: f1 :: rest) fu)
                          (PyQuantity tv tu) (PyQuantity rv ru) =
    Ok (mkRQ (mk_nd (S (length s)) d) u) /\
    aforall (fun x => exists v, x = Some v /\ 0 < v) (S (length s)) d.
Proof.
  intros Hf Ht Hr Hs Hpos Hnu Hcw Hit HrK Hns.
  destruct (calculate_noise_power_radiometer s ns f0 f1 rest fu tu ru tv rv
              Hf Ht Hr Hs Hpos Hnu (Rmult_lt_0_compat _ _ Hcw Hit) Hns)
    as [d [u [E [_ [_ [_ ->]]]]]].
  eexists. exists u. split; [exact E|].
  apply (aforall_along_last (fun n => 0 < n)); [|exact Hns].
  intros row Hrow. apply (Forall_map2 (fun n => 0 < n)); [|exact Hrow].
  intros nu n Hn. eexists. split; [reflexivity|].
  now apply radiometer_pos.
Qed.

Lemma calculate_noise_power_positive_witness :
  exists (d : arr npfloat 1) (u : Unit),
    calculate_noise_power (mk_nd 1 [1; 1]) (QuantityVec [1; 2] GHz)
                          (PyQuantity 1 second) (PyQuantity 0 K) =
    Ok (mkRQ (mk_nd 1 d) u) /\
    aforall (fun x => exists v, x = Some v /\ 0 < v) 1 d.
Proof.
  apply (calculate_noise_power_positive [] [1; 1] 1 2 [] GHz second K 1 0);
    try reflexivity.
  - cbn. repeat constructor.
  - constructor.
  - unfold factor. cbn [u_scale GHz]. repeat constructor; lra.
  - unfold factor. cbn [u_scale GHz per_s]. lra.
  - unfold factor. cbn [u_scale second]. lra.
  - unfold factor. cbn [u_scale K]. lra.
  - cbn. repeat constructor; lra.
Defined.

(** X15: The integration time and the receiver temperature enter through their
    values in seconds and in kelvin only: given in other units of time and
    of temperature, they give what those values give. *)
Theorem calculate_noise_power_scalar_units
        (nsamples : ndarray R) (freqs : pyvector) (tu ru : Unit) (tv rv : R) :
  is_equivalent tu second = true -> is_equivalent ru K = true ->
  calculate_noise_power nsamples freqs (PyQuantity tv tu) (PyQuantity rv ru) =
  calculate_noise_power nsamples freqs
                        (PyQuantity (tv * factor tu second) second)
                        (PyQuantity (rv * factor ru K) K).
Proof.
  intros Ht Hr. unfold calculate_noise_power, convert. rewrite Ht, Hr.
  change (is_equivalent second second) with true.
  change (is_equivalent K K) with true. cbn iota.
  replace (tv * factor tu second * factor second second)
    with (tv * factor tu second)
    by (unfold factor at 3; cbn [u_scale second]; lra).
  replace (rv * factor ru K * factor K K) with (rv * factor ru K)
    by (unfold factor at 3; cbn [u_scale K]; lra).
  reflexivity.
Qed.

Lemma calculate_noise_power_scalar_units_witness :
  calculate_noise_power (mk_nd 1 [1; 1]) (QuantityVec [1; 2] GHz)
                        (PyQuantity 1 second) (PyQuantity 3 mK) =
  calculate_noise_power (mk_nd 1 [1; 1]) (QuantityVec [1; 2] GHz)
                        (PyQuantity (1 * factor second second) second)
                        (PyQuantity (3 * factor mK K) K).
Proof.
  apply calculate_noise_power_scalar_units; reflexivity.
Defined.

(** X16: A quantity that is not of frequency dimension cannot be converted to
    inverse seconds: [jy_to_mk] raises a unit conversion error. *)
Theorem jy_to_mk_wrong_dimension (c_light k_B : R) (fs : list R) (fu : Unit) :
  is_equivalent fu per_s = false ->
  jy_to_mk c_light k_B (QuantityVec fs fu) = Raise UnitConversionError.
Proof.
  intros Hu. unfold jy_to_mk, convert, convert_all.
  change (is_equivalent m_per_s m_per_s) with true. cbn iota. cbn [rbind].
  now rewrite Hu.
Qed.

Lemma jy_to_mk_wrong_dimension_witness :
  jy_to_mk 299792458 1.380649e-23 (QuantityVec [150] metre) =
  Raise UnitConversionError.
Proof. apply jy_to_mk_wrong_dimension. reflexivity. Defined.

(** X17: [jy_to_mk] depends on the frequencies, not on the unit they are given
    in: frequencies in any frequency unit give what their values in inverse
    seconds give. *)
Theorem jy_to_mk_frequency_unit (c_light k_B : R) (fs : list R) (fu : Unit) :
  is_equivalent fu per_s = true ->
  jy_to_mk c_light k_B (QuantityVec fs fu) =
  jy_to_mk c_light k_B
           (QuantityVec (map (fun f => f * factor fu per_s) fs) per_s).
Proof.
  intros Hu. unfold jy_to_mk, convert_all. rewrite Hu.
  change (is_equivalent per_s per_s) with true. cbn iota.
  rewrite (map_map (fun f => f * factor fu per_s)).
  replace (map (fun x => x * factor fu per_s * factor per_s per_s) fs)
    with (map (fun x => x * factor fu per_s) fs); [reflexivity|].
  apply map_ext. intros x. unfold factor at 3. cbn [u_scale per_s]. lra.
Qed.

Lemma jy_to_mk_frequency_unit_witness :
  jy_to_mk 299792458 1.380649e-23 (QuantityVec [150] MHz) =
  jy_to_mk 299792458 1.380649e-23
           (QuantityVec (map (fun f => f * factor MHz per_s) [150]) per_s).
Proof. apply jy_to_mk_frequency_unit. reflexivity. Defined.

Lemma generate_noise_run
      (rng : Type) (np_random_normal : list nat -> rng -> ndarray R * rng)
      (n : nat) (s : list nat) (p g_re g_im : arr R n) (st st1 st2 : rng) :
  has_shape n p s ->
  np_random_normal (shape (mk_nd n p)) st = (mk_nd n g_re, st1) ->
  has_shape n g_re s ->
  np_random_normal (shape (mk_nd n p)) st1 = (mk_nd n g_im, st2) ->
  has_shape n g_im s ->
  generate_noise rng np_random_normal (mk_nd n p) st =
  (Ok (mk_nd n (noise_of n p g_re g_im)), st2).
Proof.
  intros Hp D1 Hre D2 Him.
  unfold generate_noise. rewrite D1, D2. unfold mk_nd. cbv beta iota.
  rewrite (same_shape_binop Cadd n s) by now apply has_shape_amap.
  cbn [rbind].
  rewrite (same_shape_binop (fun x w => Cscal w x) n s);
    [|exact Hp|apply has_shape_amap2; now apply has_shape_amap].
  cbn [rbind]. do 3 f_equal. unfold noise_of.
  rewrite amap_amap2, amap2_amap.
  assert (E : amap2 (fun x y => Cadd (RtoC (1 * x)) (Cscal Ci y)) n
                    g_re g_im =
              amap (fun gg => Cadd (RtoC (1 * fst gg)) (Cscal Ci (snd gg)))
                   n (amap2 (fun x y => (x, y)) n g_re g_im))
    by (now rewrite amap_amap2).
  rewrite E, amap2_amap_r. apply amap2_ext. intros x [gr gi].
  apply noise_value_code.
Qed.

Lemma amap2_amap_l {X X' Y Z : Type} (f : X' -> Y -> Z) (g : X -> X')
      (n : nat) (a : arr X n) (b : arr Y n) :
  amap2 f n (amap g n a) b = amap2 (fun x y => f (g x) y) n a b.
Proof.
  revert a b. induction n as [|n IH]; intros a b; [reflexivity|].
  cbn [amap amap2]. rewrite <- (map_id b) at 1.
  rewrite map2_map. apply map2_ext. exact IH.
Qed.

Lemma shape_of_amap_same {X Y : Type} (g : X -> Y) (n : nat) (a : arr X n) :
  shape_of n (amap g n a) = shape_of n a.
Proof.
  revert a. induction n as [|n IH]; intros a; [reflexivity|].
  cbn [amap shape_of]. rewrite length_map. f_equal.
  destruct a as [|x a]; [reflexivity|]. cbn [map]. apply IH.
Qed.

(** X18: From one state of the random generator, a noise power scaled by [c]
    gives the noise scaled by [c]: the draws depend on the shape only.  In
    particular a noise power of zero gives zero noise. *)
Theorem generate_noise_scales
        (rng : Type) (np_random_normal : list nat -> rng -> ndarray R * rng)
        (n : nat) (s : list nat) (p g_re g_im : arr R n) (st st1 st2 : rng)
        (c : R) :
  has_shape n p s ->
  np_random_normal (shape (mk_nd n p)) st = (mk_nd n g_re, st1) ->
  has_shape n g_re s ->
  np_random_normal (shape (mk_nd n p)) st1 = (mk_nd n g_im, st2) ->
  has_shape n g_im s ->
  generate_noise rng np_random_normal
                 (mk_nd n (amap (fun x => c * x) n p)) st =
  (Ok (mk_nd n (amap (fun z => Cscal z c) n (noise_of n p g_re g_im))), st2).
Proof.
  intros Hp D1 Hre D2 Him.
  assert (Hs : shape (mk_nd n (amap (fun x => c * x) n p)) =
               shape (mk_nd n p))
    by (unfold shape; cbn [mk_nd projT1 projT2]; apply shape_of_amap_same).
  rewrite (generate_noise_run rng np_random_normal n s
             (amap (fun x => c * x) n p) g_re g_im st st1 st2);
    [|now apply has_shape_amap|now rewrite Hs|exact Hre|now rewrite Hs
     |exact Him].
  do 3 f_equal. unfold noise_of.
  rewrite amap2_amap_l, amap_amap2. apply amap2_ext. intros x [gr gi].
  unfold noise_value, Cdivr, Cscal, Cadd, Cmul, RtoC, Ci. cbn [fst snd].
  f_equal; unfold Rdiv; ring.
Qed.

Lemma generate_noise_scales_witness :
  generate_noise unit constant_normal
                 (mk_nd 1 (amap (fun x => 0 * x) 1 [2])) tt =
  (Ok (mk_nd 1 (amap (fun z => Cscal z 0) 1 (noise_of 1 [2] [1] [1]))), tt).
Proof.
  apply (generate_noise_scales unit constant_normal 1 [1%nat]
           [2] [1] [1] tt tt tt 0).
  - cbn. repeat constructor.
  - reflexivity.
  - cbn. repeat constructor.
  - reflexivity.
  - cbn. repeat constructor.
Defined.

End NoiseMore.

(* ------------------------------------------------------------------ *)
(** ** [UnitParameter.__eq__] and [to_uvp] *)

Module UnitParamMore.
Import Units UnitParam UnitParamFacts.

Lemma length_update {X : Type} (l : nat) (x : X) (h : list X) :
  length (update l x h) = length h.
Proof.
  revert l. induction h as [|y h IH]; intros [|l]; cbn; try reflexivity.
  now rewrite IH.
Qed.

Lemma frame_refl (t : list nat) (st : state) : frame t st st.
Proof.
  repeat split. exists []. now rewrite app_nil_r.
Qed.

Lemma frame_print (t : list nat) (m : string) (st : state) :
  frame t st (print m st).
Proof.
  repeat split. exists [m]. reflexivity.
Qed.

Lemma frame_print_all (t : list nat) (ms : list string) (st : state) :
  frame t st (print_all ms st).
Proof.
  repeat split. exists ms. reflexivity.
Qed.

Lemma frame_trans (t : list nat) (st1 st2 st3 : state) :
  frame t st1 st2 -> frame t st2 st3 -> frame t st1 st3.
Proof.
  intros [L1 [F1 [m1 O1]]] [L2 [F2 [m2 O2]]]. split; [congruence|]. split.
  - intros k Hk. now rewrite (F2 k Hk), (F1 k Hk).
  - exists (m1 ++ m2). now rewrite O2, O1, app_assoc.
Qed.

Lemma frame_store (t : list nat) (l : nat) (p : param) (st : state) :
  In l t -> frame t st (store l p st).
Proof.
  intros H. split; [apply length_update|]. split.
  - intros k Hk. cbn [store objs]. apply nth_error_update_other.
    intros ->. contradiction.
  - exists []. cbn [store out]. now rewrite app_nil_r.
Qed.

Lemma frame_store_print (t : list nat) (l : nat) (p : param) (m : string)
      (st : state) :
  In l t -> frame t st (print m (store l p st)).
Proof.
  intros H. split; [apply length_update|]. split.
  - intros k Hk. cbn [print store objs]. apply nth_error_update_other.
    intros ->. contradiction.
  - exists [m]. reflexivity.
Qed.

Lemma frame_store_first (t : list nat) (l : nat) (p : param)
      (st st' : state) :
  In l t -> frame t (store l p st) st' -> frame t st st'.
Proof.
  intros H [L [F [msgs O]]]. split.
  - rewrite L. apply length_update.
  - split.
    + intros k Hk. rewrite (F k Hk). cbn [store objs].
      apply nth_error_update_other. intros ->. contradiction.
    + exists msgs. exact O.
Qed.

Section Frame.
Variable uvp_eq : param -> param -> bool * list string.

Lemma compare_quantities_frame (l r : nat) (sd : ndarray R) (su : Unit)
      (st st' : state) (res : result bool) :
  compare_quantities l r sd su st = (res, st') -> frame [l; r] st st'.
Proof.
  unfold compare_quantities.
  destruct (nth_error (objs st) l) as [s|];
    [|intros H; injection H as _ <-; apply frame_refl].
  destruct (nth_error (objs st) r) as [o|];
    [|intros H; injection H as _ <-; apply frame_refl].
  destruct (p_value o) as [od ou|od|tag].
  - destruct (negb (list_eqb_nat (shape sd) (shape od)));
      [intros H; injection H as _ <-; apply frame_print|].
    destruct (negb (is_equivalent su ou));
      [intros H; injection H as _ <-; apply frame_print|].
    destruct od as [n a].
    match goal with
    | |- context [store r ?p st] => set (st1 := store r p st)
    end.
    assert (F1 : frame [l; r] st st1)
      by (apply frame_store; right; left; reflexivity).
    destruct (nth_error (objs st1) l) as [s1|];
      [|intros H; injection H as _ <-; exact F1].
    destruct (p_value s1) as [sd1 su1|sd1|tag1];
      try (intros H; injection H as _ <-; exact F1).
    destruct (snd (p_tols s1)) as [x|x tu];
      [intros H; injection H as _ <-; exact F1|].
    destruct (np_allclose (fst (p_tols s1)) x sd1 _) as [[|]|e];
      intros H; injection H as _ <-; try exact F1.
    apply frame_store_print. right; left; reflexivity.
  - destruct (negb (list_eqb_nat (shape sd) (shape od)));
      intros H; injection H as _ <-; [apply frame_print|apply frame_refl].
  - intros H; injection H as _ <-; apply frame_refl.
Qed.

Lemma to_uvp_frame (t : list nat) (s : param) (st st' : state)
      (res : result param) :
  to_uvp s st = (res, st') -> frame t st st'.
Proof.
  unfold to_uvp. destruct (p_value_not_quantity s);
    [intros H; injection H as _ <-; apply frame_refl|].
  destruct (p_value s) as [[n a] u|d|tag];
    destruct (np_dtype (p_expected_type s));
    try destruct (snd (p_tols s));
    intros H; injection H as _ <-; apply frame_print.
Qed.

(** X19: A comparison changes no object other than its two operands, keeps
    the number of objects, and keeps what was printed before it: it only
    adds lines, its own and those of the base class. *)
Theorem eq_changes_operands_only (l r : nat) (st st' : state)
        (res : result bool) :
  eq uvp_eq l r st = (res, st') -> frame [l; r] st st'.
Proof.
  unfold eq.
  destruct (nth_error (objs st) l) as [s|];
    [|intros H; injection H as _ <-; apply frame_refl].
  destruct (nth_error (objs st) r) as [o|];
    [|intros H; injection H as _ <-; apply frame_refl].
  destruct (issubclass (p_class o) (p_class s)).
  - destruct (negb (isinstance_value (p_value s) (class_of (p_value o))));
      [intros H; injection H as _ <-; apply frame_print|].
    destruct (p_value s) as [sd su|sd|tag];
      try (intros H; injection H as _ <-; apply frame_print_all).
    destruct (snd (p_tols s)) as [x|x tu]; intros H.
    + apply compare_quantities_frame in H.
      eapply frame_store_first; [|exact H]. left; reflexivity.
    + now apply compare_quantities_frame in H.
  - destruct (issubclass (p_class s) (p_class o)).
    + destruct (to_uvp s st) as [[s'|e] st1] eqn:E;
        intros H; injection H as _ <-.
      * eapply frame_trans;
          [exact (to_uvp_frame [l; r] s st st1 _ E)|apply frame_print_all].
      * exact (to_uvp_frame [l; r] s st st1 _ E).
    + intros H; injection H as _ <-; apply frame_print.
Qed.

End Frame.

Lemma eq_changes_operands_only_witness :
  frame [0%nat; 1%nat] (mkState [left_m; right_km] [])
        (mkState [set_tols (0%R, AtolQuantity 0 metre) left_m; right_km]
                 [("x" ++ shapes_msg)%string]).
Proof.
  apply (eq_changes_operands_only (fun _ _ => (true, [])) 0 1
           (mkState [left_m; right_km] []) _ (Ok false)).
  reflexivity.
Defined.

Lemma is_equivalent_refl (u : Unit) : is_equivalent u u = true.
Proof. unfold is_equivalent. now rewrite !Z.eqb_refl. Qed.

Lemma close_refl (rtol atol_v x : R) :
  (0 <= rtol)%R -> (0 <= atol_v)%R -> close rtol atol_v x x = true.
Proof.
  intros Hr Ha. unfold close.
  destruct (Rle_dec (Rabs (x - x)) (atol_v + rtol * Rabs x)) as [_|N];
    [reflexivity|].
  exfalso. apply N. replace (x - x)%R with 0%R by ring. rewrite Rabs_R0.
  pose proof (Rabs_pos x). nra.
Qed.

Lemma aall_bcast2_diag (f : R -> R -> bool) (n : nat) (a : arr R n) :
  (forall x, f x x = true) -> aall n (bcast2 f n a a) = true.
Proof.
  intros Hf. revert a. induction n as [|n IH]; intros a; [apply Hf|].
  cbn [aall bcast2].
  assert (E : forall l : list (arr R n),
             forallb (aall n) (map (fun x => bcast2 f n x x) l) = true).
  { intros l. apply forallb_forall. intros y Hy.
    apply in_map_iff in Hy. destruct Hy as [x [<- _]]. apply IH. }
  destruct a as [|x [|x' a]].
  - reflexivity.
  - exact (E [x]).
  - rewrite map2_diag. apply E.
Qed.

Lemma np_allclose_diag (rtol atol_v : R) (n : nat) (a : arr R n) :
  (0 <= rtol)%R -> (0 <= atol_v)%R ->
  np_allclose rtol atol_v (mk_nd n a) (mk_nd n a) = Ok true.
Proof.
  intros Hr Ha. unfold np_allclose.
  rewrite np_binop_same_rank, broadcastable_refl. cbn [rbind mk_nd].
  f_equal. apply aall_bcast2_diag. intros x. now apply close_refl.
Qed.

Lemma amap_id_ext (f : R -> R) (n : nat) (a : arr R n) :
  (forall x, f x = x) -> amap f n a = a.
Proof.
  intros Hf. revert a. induction n as [|n IH]; intros a; [apply Hf|].
  cbn [amap]. rewrite <- (map_id a) at 2. apply map_ext. exact IH.
Qed.

Section Compare.
Variable uvp_eq : param -> param -> bool * list string.

Lemma compare_quantities_same (st : state) (l n : nat) (s : param)
      (a : arr R n) (u tu : Unit) (x : R) :
  nth_error (objs st) l = Some s ->
  p_value s = VQuantity (mk_nd n a) u ->
  snd (p_tols s) = AtolQuantity x tu ->
  (0 <= fst (p_tols s))%R -> (0 <= x)%R ->
  compare_quantities l l (mk_nd n a) u st =
  (Ok true,
   store l (set_value
              (VQuantity (mk_nd n (amap (fun v => (v * factor u u)%R) n a)) u)
              s) st).
Proof.
  intros Hs Vs Ts Hr Hx. unfold compare_quantities.
  rewrite Hs, Vs, list_eqb_nat_refl, is_equivalent_refl.
  cbn [negb mk_nd]. fold (mk_nd n (amap (fun v => (v * factor u u)%R) n a)).
  cbn [store objs]. rewrite (nth_error_update_same l _ s _ Hs).
  cbn [set_value p_value p_tols]. rewrite Ts.
  now rewrite np_allclose_diag.
Qed.

(** X20: A [UnitParameter] with a quantity value and tolerances that are not
    negative compares equal to itself: the answer is [True] and nothing is
    printed.  Where the scale of its unit is not zero, its value is as
    before. *)
Theorem eq_same_object (st : state) (l n : nat) (s : param) (a : arr R n)
        (u : Unit) :
  nth_error (objs st) l = Some s ->
  p_class s = UnitParameterC ->
  p_value s = VQuantity (mk_nd n a) u ->
  (0 <= fst (p_tols s))%R ->
  match snd (p_tols s) with
  | AtolFloat x | AtolQuantity x _ => (0 <= x)%R
  end ->
  exists st',
    eq uvp_eq l l st = (Ok true, st') /\ out st' = out st /\
    (u_scale u <> 0%R ->
     exists s', nth_error (objs st') l = Some s' /\ p_value s' = p_value s).
Proof.
  intros Hs Cs Vs Hr Ha. unfold eq.
  rewrite Hs, Cs, Vs.
  cbn [issubclass pclass_eqb class_of isinstance_value negb].
  assert (Hid : u_scale u <> 0%R ->
                amap (fun v => (v * factor u u)%R) n a = a).
  { intros Hu. apply amap_id_ext. intros v. unfold factor. now field. }
  destruct (snd (p_tols s)) as [x|x tu] eqn:Ts.
  - set (s1 := set_tols (fst (p_tols s), AtolQuantity x u) s).
    assert (Hs1 : nth_error (objs (store l s1 st)) l = Some s1)
      by exact (nth_error_update_same l s1 s _ Hs).
    rewrite (compare_quantities_same (store l s1 st) l n s1 a u u x
               Hs1 Vs eq_refl Hr Ha).
    eexists. split; [reflexivity|]. split; [reflexivity|].
    intros Hu. eexists. split.
    + cbn [store objs]. exact (nth_error_update_same l _ s1 _ Hs1).
    + cbn [set_value p_value]. now rewrite (Hid Hu).
  - rewrite (compare_quantities_same st l n s a u tu x Hs Vs Ts Hr Ha).
    eexists. split; [reflexivity|]. split; [reflexivity|].
    intros Hu. eexists. split.
    + cbn [store objs]. exact (nth_error_update_same l _ s _ Hs).
    + cbn [set_value p_value]. now rewrite (Hid Hu).
Qed.

End Compare.

Lemma eq_same_object_witness :
  exists st',
    eq (fun _ _ => (false, ["differ"%string])) 0 0 (mkState [left_m] []) = (Ok true, st') /\
    out st' = [] /\
    (u_scale metre <> 0%R ->
     exists s', nth_error (objs st') 0 = Some s' /\
                p_value s' = p_value left_m).
Proof.
  apply (eq_same_object (fun _ _ => (false, ["differ"%string])) (mkState [left_m] []) 0 1 left_m
           [1%R; 2%R] metre).
  - reflexivity.
  - reflexivity.
  - reflexivity.
  - cbn [left_m p_tols fst]. lra.
  - cbn [left_m p_tols snd]. lra.
Defined.

Section Refusals.
Variable uvp_eq : param -> param -> bool * list string.

Lemma compare_quantities_refuses (st : state) (l r n m : nat) (s o : param)
      (a : arr R n) (b : arr R m) (ul ur : Unit) :
  nth_error (objs st) l = Some s -> nth_error (objs st) r = Some o ->
  p_value o = VQuantity (mk_nd m b) ur ->
  shape_of n a <> shape_of m b \/ is_equivalent ul ur = false ->
  exists msg,
    compare_quantities l r (mk_nd n a) ul st = (Ok false, print msg st).
Proof.
  intros Hs Ho Vo H. unfold compare_quantities. rewrite Hs, Ho, Vo.
  unfold shape. cbn [mk_nd projT1 projT2].
  destruct (list_eqb_nat (shape_of n a) (shape_of m b)) eqn:E; cbn [negb].
  - destruct H as [H|H].
    + exfalso. apply H. unfold list_eqb_nat in E.
      destruct (list_eq_dec Nat.eq_dec (shape_of n a) (shape_of m b));
        [assumption|discriminate].
    + rewrite H. cbn [negb]. eexists. reflexivity.
  - eexists. reflexivity.
Qed.

(** X21: Two [UnitParameter] objects whose quantity values differ in shape, or
    whose units are not equivalent, compare unequal: the answer is [False],
    one line is printed, and every object keeps its value. *)
Theorem eq_incompatible_quantities (st : state) (l r n m : nat)
        (s o : param) (a : arr R n) (b : arr R m) (ul ur : Unit) :
  nth_error (objs st) l = Some s -> nth_error (objs st) r = Some o ->
  p_class s = UnitParameterC -> p_class o = UnitParameterC ->
  p_value s = VQuantity (mk_nd n a) ul ->
  p_value o = VQuantity (mk_nd m b) ur ->
  shape_of n a <> shape_of m b \/ is_equivalent ul ur = false ->
  exists st' msg,
    eq uvp_eq l r st = (Ok false, st') /\
    out st' = (out st ++ [msg])%list /\
    forall k p, nth_error (objs st) k = Some p ->
                exists p', nth_error (objs st') k = Some p' /\
                           p_value p' = p_value p.
Proof.
  intros Hs Ho Cs Co Vs Vo H. unfold eq.
  rewrite Hs, Ho, Cs, Co, Vs, Vo.
  cbn [issubclass pclass_eqb class_of isinstance_value negb].
  destruct (snd (p_tols s)) as [x|x tu] eqn:Ts.
  - set (s1 := set_tols (fst (p_tols s), AtolQuantity x ul) s).
    assert (Hs1 : nth_error (objs (store l s1 st)) l = Some s1)
      by exact (nth_error_update_same l s1 s _ Hs).
    assert (Ho1 : exists o1, nth_error (objs (store l s1 st)) r = Some o1 /\
                             p_value o1 = VQuantity (mk_nd m b) ur).
    { destruct (Nat.eq_dec r l) as [E|E].
      - subst r. exists s1. split; [exact Hs1|].
        assert (s = o) by congruence. subst o. exact Vo.
      - exists o. split; [|exact Vo]. cbn [store objs].
        now rewrite (nth_error_update_other l r s1 _ E). }
    destruct Ho1 as [o1 [Ho1 Vo1]].
    destruct (compare_quantities_refuses (store l s1 st) l r n m s1 o1 a b
                ul ur Hs1 Ho1 Vo1 H) as [msg E].
    rewrite E. exists (print msg (store l s1 st)), msg.
    split; [reflexivity|]. split; [reflexivity|].
    intros k p Hk. cbn [print store objs].
    destruct (Nat.eq_dec k l) as [->|N].
    + exists s1. split; [exact Hs1|].
      assert (p = s) by congruence. subst p. reflexivity.
    + exists p. split; [|reflexivity].
      now rewrite (nth_error_update_other l k s1 _ N).
  - destruct (compare_quantities_refuses st l r n m s o a b ul ur
                Hs Ho Vo H) as [msg E].
    rewrite E. exists (print msg st), msg.
    split; [reflexivity|]. split; [reflexivity|].
    intros k p Hk. exists p. split; [exact Hk|reflexivity].
Qed.

(** X22: The comparison is not symmetric between a quantity and a plain array of
    one shape: with the quantity on the left it raises [AttributeError], the
    array having no unit; with the array on the left it answers [False] and
    changes no object. *)
Theorem eq_quantity_against_array (st : state) (l r n : nat) (s o : param)
        (a b : arr R n) (u : Unit) :
  nth_error (objs st) l = Some s -> nth_error (objs st) r = Some o ->
  p_class s = UnitParameterC -> p_class o = UnitParameterC ->
  p_value s = VQuantity (mk_nd n a) u ->
  p_value o = VArray (mk_nd n b) ->
  shape_of n a = shape_of n b ->
  (exists st', eq uvp_eq l r st = (Raise AttributeError, st')) /\
  eq uvp_eq r l st = (Ok false, print (p_name o ++ classes_msg) st).
Proof.
  intros Hs Ho Cs Co Vs Vo Hsh.
  assert (N : r <> l) by (intros ->; congruence).
  split.
  - unfold eq. rewrite Hs, Ho, Cs, Co, Vs, Vo.
    cbn [issubclass pclass_eqb class_of isinstance_value negb].
    assert (C : forall st1 s1,
               nth_error (objs st1) l = Some s1 ->
               nth_error (objs st1) r = Some o ->
               compare_quantities l r (mk_nd n a) u st1 =
               (Raise AttributeError, st1)).
    { intros st1 s1 H1 H2. unfold compare_quantities.
      rewrite H1, H2, Vo. unfold shape. cbn [mk_nd projT1 projT2].
      now rewrite Hsh, list_eqb_nat_refl. }
    destruct (snd (p_tols s)) as [x|x tu].
    + eexists. eapply C.
      * exact (nth_error_update_same l _ s _ Hs).
      * cbn [store objs]. now rewrite (nth_error_update_other l r _ _ N).
    + eexists. eapply C; eassumption.
  - unfold eq. rewrite Hs, Ho, Cs, Co, Vs, Vo. reflexivity.
Qed.

(** X23: Against a [UVParameter] of the base class the units play no part: two
    [UnitParameter] objects that differ only in the units of their value and
    of their tolerance give the same answer and the same output.  No object
    is changed, and the output added starts with the warning of the cast;
    what the base class prints follows it. *)
Theorem eq_base_class_ignores_units (st : state) (l l' r n : nat)
        (s s' o : param) (a : arr R n) (u u' tu tu' : Unit) (x : R) :
  nth_error (objs st) l = Some s -> nth_error (objs st) l' = Some s' ->
  nth_error (objs st) r = Some o ->
  p_class s = UnitParameterC -> p_class s' = UnitParameterC ->
  p_class o = UVParameterC ->
  p_value s = VQuantity (mk_nd n a) u ->
  p_value s' = VQuantity (mk_nd n a) u' ->
  p_tols s = (fst (p_tols s'), AtolQuantity x tu) ->
  snd (p_tols s') = AtolQuantity x tu' ->
  p_name s = p_name s' -> p_expected_type s = p_expected_type s' ->
  p_value_not_quantity s = false -> p_value_not_quantity s' = false ->
  eq uvp_eq l r st = eq uvp_eq l' r st /\
  exists lines,
    snd (eq uvp_eq l r st) = print_all (cast_warning :: lines) st.
Proof.
  intros Hs Hs' Ho Cs Cs' Co Vs Vs' Ts Ts' Ns Es Qs Qs'. unfold eq.
  rewrite Hs, Hs', Ho, Cs, Cs', Co.
  cbn [issubclass pclass_eqb]. unfold to_uvp.
  rewrite Qs, Qs', Vs, Vs', Ts, Ts', Ns, Es. cbn [mk_nd snd fst].
  split; [reflexivity|].
  assert (P : forall lines,
             print_all lines (print cast_warning st) =
             print_all (cast_warning :: lines) st).
  { intros lines. unfold print_all, print. cbn [objs out].
    now rewrite <- app_assoc. }
  destruct (np_dtype (p_expected_type s')) as [d|e]; cbn [snd].
  - eexists. apply P.
  - exists []. reflexivity.
Qed.

End Refusals.

Lemma eq_incompatible_quantities_witness :
  exists st' msg,
    eq (fun _ _ => (true, [])) 0 1 (mkState [left_m; right_km] []) =
      (Ok false, st') /\
    out st' = ([] ++ [msg])%list /\
    forall k p, nth_error [left_m; right_km] k = Some p ->
                exists p', nth_error (objs st') k = Some p' /\
                           p_value p' = p_value p.
Proof.
  apply (eq_incompatible_quantities (fun _ _ => (true, []))
           (mkState [left_m; right_km] []) 0 1 1 1 left_m right_km
           [1%R; 2%R] [1%R] metre km); try reflexivity.
  left. cbn. discriminate.
Defined.

Lemma eq_quantity_against_array_witness :
  (exists st',
      eq (fun _ _ => (true, [])) 0 1
         (mkState [left_m; set_value (VArray (mk_nd 1 [1%R; 2%R])) left_m] [])
      = (Raise AttributeError, st')) /\
  eq (fun _ _ => (true, [])) 1 0
     (mkState [left_m; set_value (VArray (mk_nd 1 [1%R; 2%R])) left_m] []) =
  (Ok false,
   print ("x" ++ classes_msg)%string
         (mkState [left_m; set_value (VArray (mk_nd 1 [1%R; 2%R])) left_m]
                  [])).
Proof.
  apply (eq_quantity_against_array (fun _ _ => (true, []))
           (mkState [left_m; set_value (VArray (mk_nd 1 [1%R; 2%R])) left_m]
                    [])
           0 1 1 left_m (set_value (VArray (mk_nd 1 [1%R; 2%R])) left_m)
           [1%R; 2%R] [1%R; 2%R] metre); reflexivity.
Defined.

Lemma eq_base_class_ignores_units_witness :
  eq (fun _ _ => (false, ["differ"%string])) 0 2
     (mkState [set_tols (0%R, AtolQuantity 0 metre) left_m;
               set_tols (0%R, AtolQuantity 0 km) right2_km;
               mkParam UVParameterC "x" (VArray (mk_nd 1 [1%R; 2%R]))
                       (0%R, AtolFloat 0) false TFloat] []) =
  eq (fun _ _ => (false, ["differ"%string])) 1 2
     (mkState [set_tols (0%R, AtolQuantity 0 metre) left_m;
               set_tols (0%R, AtolQuantity 0 km) right2_km;
               mkParam UVParameterC "x" (VArray (mk_nd 1 [1%R; 2%R]))
                       (0%R, AtolFloat 0) false TFloat] []) /\
  exists lines,
    snd (eq (fun _ _ => (false, ["differ"%string])) 0 2
       (mkState [set_tols (0%R, AtolQuantity 0 metre) left_m;
                 set_tols (0%R, AtolQuantity 0 km) right2_km;
                 mkParam UVParameterC "x" (VArray (mk_nd 1 [1%R; 2%R]))
                         (0%R, AtolFloat 0) false TFloat] [])) =
    print_all (cast_warning :: lines)
       (mkState [set_tols (0%R, AtolQuantity 0 metre) left_m;
                 set_tols (0%R, AtolQuantity 0 km) right2_km;
                 mkParam UVParameterC "x" (VArray (mk_nd 1 [1%R; 2%R]))
                         (0%R, AtolFloat 0) false TFloat] []).
Proof.
  apply (eq_base_class_ignores_units (fun _ _ => (false, ["differ"%string]))
           _ 0 1 2 1
           (set_tols (0%R, AtolQuantity 0 metre) left_m)
           (set_tols (0%R, AtolQuantity 0 km) right2_km)
           (mkParam UVParameterC "x" (VArray (mk_nd 1 [1%R; 2%R]))
                    (0%R, AtolFloat 0) false TFloat)
           [1%R; 2%R] metre km metre km 0%R); reflexivity.
Defined.

End UnitParamMore.

(* ------------------------------------------------------------------ *)
(** ** [UnitParameter.__init__] *)

Module UnitParamInitFacts.
Import Units UnitParam UnitParamInit.

Lemma is_equivalent_sym (u v : Unit) : is_equivalent u v = is_equivalent v u.
Proof.
  unfold is_equivalent.
  now rewrite (Z.eqb_sym (u_m u)), (Z.eqb_sym (u_kg u)),
    (Z.eqb_sym (u_s u)), (Z.eqb_sym (u_K u)).
Qed.

Lemma quantity_of_list_ok (u : Unit) (l : list (R * Unit)) :
  Forall (fun q => is_equivalent (snd q) u = true) l ->
  quantity_of_list u l =
  Ok (map (fun q => (fst q * factor (snd q) u)%R) l).
Proof.
  induction 1 as [|[x v] l Hq Hl IH]; [reflexivity|].
  cbn [quantity_of_list map fst snd] in *. unfold convert.
  rewrite Hq, IH. reflexivity.
Qed.

Lemma quantity_of_list_fails (u : Unit) (l : list (R * Unit)) :
  Exists (fun q => is_equivalent (snd q) u = false) l ->
  quantity_of_list u l = Raise UnitConversionError.
Proof.
  induction 1 as [[x v] l Hq|[x v] l Hl IH];
    cbn [quantity_of_list snd] in *; unfold convert.
  - now rewrite Hq.
  - destruct (is_equivalent v u); [|reflexivity].
    cbn [rbind]. now rewrite IH.
Qed.

Section Init.
Variable uvp_init : string -> option pvalue -> init_tols -> ptype -> param.

(** X24: The constructor accepts a quantity value exactly when an expected unit
    is given that is equivalent to the unit of the value, and the absolute
    tolerance is a plain number or a single quantity of a unit equivalent
    to it; the flag [value_not_quantity] plays no part. *)
Theorem init_quantity_accepted (name : string) (d : ndarray R) (u : Unit)
        (expected_type : ptype) (expected_units : option Unit)
        (tols : init_tols) (value_not_quantity : bool) (st : state) :
  (exists p st',
      init uvp_init name (IVValue (VQuantity d u)) expected_type
           expected_units tols value_not_quantity st = (Ok p, st')) <->
  (exists eu, expected_units = Some eu /\ is_equivalent u eu = true) /\
  match tols with
  | TolsPair _ (AtolQuantity _ tu) => is_equivalent tu u = true
  | TolsQuantity _ more tu => more = [] /\ is_equivalent tu u = true
  | _ => True
  end.
Proof.
  unfold init. cbn [value_of_list].
  destruct expected_units as [eu|].
  2:{ split; [intros [p [st' H]]; discriminate|].
      intros [[eu [H _]] _]. discriminate. }
  destruct (is_equivalent u eu) eqn:Eu; cbn [negb].
  2:{ split; [intros [p [st' H]]; discriminate|].
      intros [[eu' [H1 H2]] _]. congruence. }
  destruct tols as [rtol [x|x tu]|x|x [|y more] tu];
    cbn [tols_pair length Nat.ltb Nat.leb].
  - rewrite UnitParamMore.is_equivalent_refl. cbn [negb].
    split; [intros _; split; [now exists eu|exact I]|].
    intros _. do 2 eexists. reflexivity.
  - destruct (is_equivalent tu u) eqn:Et; cbn [negb].
    + split; [intros _; split; [now exists eu|reflexivity]|].
      intros _. do 2 eexists. reflexivity.
    + split; [intros [p [st' H]]; discriminate|].
      intros [_ H]. discriminate.
  - rewrite UnitParamMore.is_equivalent_refl. cbn [negb].
    split; [intros _; split; [now exists eu|exact I]|].
    intros _. do 2 eexists. reflexivity.
  - destruct (is_equivalent tu u) eqn:Et; cbn [negb].
    + split; [intros _; split; [now exists eu|now split]|].
      intros _. do 2 eexists. reflexivity.
    + split; [intros [p [st' H]]; discriminate|].
      intros [_ [_ H]]. discriminate.
  - split; [intros [p [st' H]]; discriminate|].
    intros [_ [H _]]. discriminate.
Qed.

Lemma init_quantity_built (name : string) (d : ndarray R) (u : Unit)
      (expected_type : ptype) (expected_units : option Unit)
      (tols : init_tols) (value_not_quantity : bool) (st st' : state)
      (p : unit_param) :
  init uvp_init name (IVValue (VQuantity d u)) expected_type expected_units
       tols value_not_quantity st = (Ok p, st') ->
  exists rtol x tu e,
    p = built (set_tols (rtol, AtolQuantity x tu)
                        (uvp_init name (Some (VQuantity d u))
                                  (TolsPair rtol (AtolFloat x))
                                  expected_type))
              value_not_quantity expected_units /\
    is_equivalent tu u = true /\
    expected_units = Some e /\ is_equivalent u e = true.
Proof.
  unfold init. cbn [value_of_list].
  destruct expected_units as [eu|]; [|discriminate].
  destruct (is_equivalent u eu) eqn:Eu; cbn [negb]; [|discriminate].
  destruct (tols_pair tols) as [[rtol [x|x tu]]|e]; [| |discriminate].
  - rewrite UnitParamMore.is_equivalent_refl. cbn [negb].
    intros H. injection H as <- _.
    exists rtol, x, u, eu. repeat split; try assumption.
    apply UnitParamMore.is_equivalent_refl.
  - destruct (is_equivalent tu u) eqn:Et; cbn [negb]; [|discriminate].
    intros H. injection H as <- _.
    exists rtol, x, tu, eu. repeat split; assumption.
Qed.

(** X25: A parameter constructed from a quantity, or from a list of scalar
    quantities, is a [UnitParameter] whose absolute tolerance is a quantity
    of a unit equivalent to the unit of the value, which is in turn
    equivalent to the expected unit the object records. *)
Theorem init_tolerance_has_unit (name : string) (value : init_value)
        (u : Unit) (expected_type : ptype) (expected_units : option Unit)
        (tols : init_tols) (value_not_quantity : bool) (st st' : state)
        (p : unit_param) :
  init uvp_init name value expected_type expected_units tols
       value_not_quantity st = (Ok p, st') ->
  (exists d, value = IVValue (VQuantity d u)) \/
  (exists x l, value = IVList ((x, u) :: l)) ->
  exists rtol x tu e,
    p_tols (up_fields p) = (rtol, AtolQuantity x tu) /\
    is_equivalent tu u = true /\
    up_expected_units p = Some e /\ is_equivalent u e = true /\
    p_class (up_fields p) = UnitParameterC.
Proof.
  intros H V.
  assert (Q : exists d,
             init uvp_init name (IVValue (VQuantity d u)) expected_type
                  expected_units tols value_not_quantity st = (Ok p, st')).
  { destruct V as [[d ->]|[x [l ->]]]; [now exists d|].
    unfold init in H. cbn [value_of_list] in H.
    destruct (quantity_of_list u ((x, u) :: l)) as [ys|e] eqn:E.
    - exists (mk_nd 1 ys). exact H.
    - destruct e; discriminate. }
  destruct Q as [d Q].
  destruct (init_quantity_built _ _ _ _ _ _ _ _ _ _ Q)
    as [rtol [x [tu [e [-> [Et [-> Ee]]]]]]].
  exists rtol, x, tu, e. repeat split; assumption.
Qed.

(** X26: Where the base constructor stores the value it is given, a parameter
    constructed from a quantity casts to a [UVParameter] when the expected
    type the base constructor stored is one numpy takes as a dtype:
    [to_uvp] gives the warning and returns the plain values, as that type,
    with the tolerance as a plain number.  When a tuple of types was stored,
    [to_uvp] gives the warning and raises the [ValueError] of [astype]. *)
Theorem init_then_to_uvp (name : string) (n : nat) (a : arr R n) (u : Unit)
        (expected_type : ptype) (expected_units : option Unit)
        (tols : init_tols) (st st' st2 : state) (p : unit_param) :
  (forall nm v t ty, p_value (uvp_init nm (Some v) t ty) = v) ->
  init uvp_init name (IVValue (VQuantity (mk_nd n a) u)) expected_type
       expected_units tols false st = (Ok p, st') ->
  (forall d, np_dtype (p_expected_type (up_fields p)) = Ok d ->
     exists q x,
       to_uvp (up_fields p) st2 = (Ok q, print cast_warning st2) /\
       p_value q = VArray (mk_nd n (amap (astype d) n a)) /\
       snd (p_tols q) = AtolFloat x /\ p_class q = UVParameterC) /\
  (p_expected_type (up_fields p) = TTypes ->
   to_uvp (up_fields p) st2 =
   (Raise (ValueError dtype_msg), print cast_warning st2)).
Proof.
  intros Hb H.
  destruct (init_quantity_built _ _ _ _ _ _ _ _ _ _ H)
    as [rtol [x [tu [e [-> _]]]]].
  unfold to_uvp.
  cbn [built up_fields set_tols p_value_not_quantity p_value p_tols snd fst
       p_expected_type p_name].
  rewrite Hb. cbn [mk_nd]. split.
  - intros d ->. do 2 eexists. repeat split.
  - intros ->. reflexivity.
Qed.

(** X27: A value that is neither a quantity nor a list is accepted exactly when
    the flag [value_not_quantity] is set, whatever the tolerances and the
    expected units are; no value at all ([None]) is always accepted.
    Nothing is printed. *)
Theorem init_plain_value (name : string) (v : pvalue)
        (expected_type : ptype) (expected_units : option Unit)
        (tols : init_tols) (value_not_quantity : bool) (st : state) :
  (forall d u, v <> VQuantity d u) ->
  ((exists p,
       init uvp_init name (IVValue v) expected_type expected_units tols
            value_not_quantity st = (Ok p, st)) <->
   value_not_quantity = true) /\
  (value_not_quantity = false ->
   init uvp_init name (IVValue v) expected_type expected_units tols
        value_not_quantity st = (Raise (ValueError not_quantity_msg), st)) /\
  exists p,
    init uvp_init name IVNone expected_type expected_units tols
         value_not_quantity st = (Ok p, st).
Proof.
  intros Hv. unfold init. cbn [value_of_list].
  destruct v as [d u|d|tag]; [exfalso; now apply (Hv d u)|..].
  - split; [|split].
    + destruct value_not_quantity; cbn [orb]; split.
      * reflexivity.
      * intros _. eexists. reflexivity.
      * intros [p H]. discriminate.
      * discriminate.
    + intros ->. reflexivity.
    + rewrite orb_true_r. eexists. reflexivity.
  - split; [|split].
    + destruct value_not_quantity; cbn [orb]; split.
      * reflexivity.
      * intros _. eexists. reflexivity.
      * intros [p H]. discriminate.
      * discriminate.
    + intros ->. reflexivity.
    + rewrite orb_true_r. eexists. reflexivity.
Qed.

(** X28: A list of scalar quantities whose units are all equivalent to the unit
    of the first is taken as one quantity in that unit, each element
    converted. *)
Theorem init_list_of_quantities (name : string) (x : R) (u : Unit)
        (l : list (R * Unit)) (expected_type : ptype)
        (expected_units : option Unit) (tols : init_tols)
        (value_not_quantity : bool) (st : state) :
  Forall (fun q => is_equivalent (snd q) u = true) l ->
  init uvp_init name (IVList ((x, u) :: l)) expected_type expected_units
       tols value_not_quantity st =
  init uvp_init name
       (IVValue (VQuantity
                   (mk_nd 1 (map (fun q => (fst q * factor (snd q) u)%R)
                                 ((x, u) :: l))) u))
       expected_type expected_units tols value_not_quantity st.
Proof.
  intros H. unfold init. cbn [value_of_list].
  rewrite (quantity_of_list_ok u ((x, u) :: l)); [reflexivity|].
  constructor; [apply UnitParamMore.is_equivalent_refl|exact H].
Qed.

(** X29: An empty list raises [IndexError]; a list of scalar quantities with an
    element whose unit is not equivalent to the unit of the first raises
    [ValueError], before the expected units and the tolerances are looked
    at. *)
Theorem init_list_rejected (name : string) (x : R) (u : Unit)
        (l : list (R * Unit)) (expected_type : ptype)
        (expected_units : option Unit) (tols : init_tols)
        (value_not_quantity : bool) (st : state) :
  Exists (fun q => is_equivalent (snd q) u = false) l ->
  init uvp_init name (IVList ((x, u) :: l)) expected_type expected_units
       tols value_not_quantity st = (Raise (ValueError list_msg), st) /\
  init uvp_init name (IVList []) expected_type expected_units
       tols value_not_quantity st = (Raise IndexError, st).
Proof.
  intros H. split; [|reflexivity]. unfold init. cbn [value_of_list].
  rewrite (quantity_of_list_fails u ((x, u) :: l)); [reflexivity|].
  now apply Exists_cons_tl.
Qed.

End Init.

Lemma init_tolerance_has_unit_witness :
  exists rtol x tu e,
    p_tols (up_fields
              (built (set_tols (0%R, AtolQuantity 1 metre)
                        (store_fields "x" (Some (VQuantity (mk_nd 1 [1%R]) km))
                                      (TolsPair 0 (AtolFloat 1)) TFloat))
                     false (Some metre))) = (rtol, AtolQuantity x tu) /\
    is_equivalent tu km = true /\
    Some metre = Some e /\ is_equivalent km e = true /\
    p_class (up_fields
               (built (set_tols (0%R, AtolQuantity 1 metre)
                        (store_fields "x" (Some (VQuantity (mk_nd 1 [1%R]) km))
                                      (TolsPair 0 (AtolFloat 1)) TFloat))
                      false (Some metre))) = UnitParameterC.
Proof.
  apply (init_tolerance_has_unit store_fields "x"
           (IVValue (VQuantity (mk_nd 1 [1%R]) km)) km TFloat (Some metre)
           (TolsQuantity 1 [] metre) false (mkState [] []) (mkState [] [])).
  - reflexivity.
  - left. eexists. reflexivity.
Defined.

Lemma init_then_to_uvp_witness :
  (forall d,
     np_dtype
       (p_expected_type
          (up_fields
             (built (set_tols (0%R, AtolQuantity 1 km)
                       (store_fields "x" (Some (VQuantity (mk_nd 1 [1%R]) km))
                                     (TolsPair 0 (AtolFloat 1)) TFloat))
                    false (Some metre)))) = Ok d ->
     exists q x,
       to_uvp (up_fields
                 (built (set_tols (0%R, AtolQuantity 1 km)
                           (store_fields "x"
                              (Some (VQuantity (mk_nd 1 [1%R]) km))
                              (TolsPair 0 (AtolFloat 1)) TFloat))
                        false (Some metre)))
              (mkState [] []) =
         (Ok q, print cast_warning (mkState [] [])) /\
       p_value q = VArray (mk_nd 1 (amap (astype d) 1 [1%R])) /\
       snd (p_tols q) = AtolFloat x /\ p_class q = UVParameterC) /\
  (p_expected_type
     (up_fields
        (built (set_tols (0%R, AtolQuantity 1 km)
                  (store_fields "x" (Some (VQuantity (mk_nd 1 [1%R]) km))
                                (TolsPair 0 (AtolFloat 1)) TFloat))
               false (Some metre))) = TTypes ->
   to_uvp (up_fields
             (built (set_tols (0%R, AtolQuantity 1 km)
                       (store_fields "x" (Some (VQuantity (mk_nd 1 [1%R]) km))
                                     (TolsPair 0 (AtolFloat 1)) TFloat))
                    false (Some metre)))
          (mkState [] []) =
   (Raise (ValueError dtype_msg), print cast_warning (mkState [] []))).
Proof.
  apply (init_then_to_uvp store_fields "x" 1 [1%R] km TFloat (Some metre)
           (TolsFloat 1) (mkState [] [])
           (print applying_msg (mkState [] [])) (mkState [] [])).
  - reflexivity.
  - reflexivity.
Defined.

Lemma init_plain_value_witness :
  ((exists p,
       init store_fields "x" (IVValue (VArray (mk_nd 1 [1%R]))) TFloat None
            (TolsFloat 1) false (mkState [] []) = (Ok p, mkState [] [])) <->
   false = true) /\
  (false = false ->
   init store_fields "x" (IVValue (VArray (mk_nd 1 [1%R]))) TFloat None
        (TolsFloat 1) false (mkState [] []) =
   (Raise (ValueError not_quantity_msg), mkState [] [])) /\
  exists p,
    init store_fields "x" IVNone TFloat None (TolsFloat 1) false
         (mkState [] []) = (Ok p, mkState [] []).
Proof.
  apply (init_plain_value store_fields "x" (VArray (mk_nd 1 [1%R])) TFloat
           None (TolsFloat 1) false (mkState [] [])).
  intros d u. discriminate.
Defined.

Lemma init_list_of_quantities_witness :
  init store_fields "x" (IVList [(1%R, metre); (2%R, km)]) TFloat
       (Some metre) (TolsFloat 1) false (mkState [] []) =
  init store_fields "x"
       (IVValue (VQuantity
                   (mk_nd 1 (map (fun q => (fst q * factor (snd q) metre)%R)
                                 [(1%R, metre); (2%R, km)])) metre))
       TFloat (Some metre) (TolsFloat 1) false (mkState [] []).
Proof.
  apply (init_list_of_quantities store_fields "x" 1%R metre [(2%R, km)]
           TFloat (Some metre) (TolsFloat 1) false (mkState [] [])).
  repeat constructor.
Defined.

Lemma init_list_rejected_witness :
  init store_fields "x" (IVList [(1%R, metre); (2%R, second)]) TFloat
       (Some metre) (TolsFloat 1) false (mkState [] []) =
  (Raise (ValueError list_msg), mkState [] []) /\
  init store_fields "x" (IVList []) TFloat (Some metre) (TolsFloat 1) false
       (mkState [] []) = (Raise IndexError, mkState [] []).
Proof.
  apply (init_list_rejected store_fields "x" 1%R metre [(2%R, second)]
           TFloat (Some metre) (TolsFloat 1) false (mkState [] [])).
  left. reflexivity.
Defined.

End UnitParamInitFacts.
